(** * TimeTrackr: the background-safe timer engine

    A shallow embedding of the timer worker ([public/timer-worker.js]),
    the two [Timer] components (worker driven and interval driven) and
    the [TaskList] sequencer, with the properties of the countdown, the
    notification rituals and the task sequencing.

    JavaScript numbers that hold whole seconds or millisecond time stamps
    are integers of [Z]; [%] is [Z.rem] (the sign follows the dividend). *)

From Stdlib Require Import String DecimalString.
From Stdlib Require Import ZArith List Bool Lia.
Import ListNotations.
Open Scope Z_scope.

(** ** The timer worker *)

Module Worker.

(** The module-level variables of the worker.  [timerId] is [true] when
    the variable holds an interval handle and [false] when it is [null]. *)
Record State := mkState {
  timerId : bool;
  timeLeft : Z;
  duration : Z;
  recurrentTime : Z;
  lastNotificationTime : Z
}.

(** [let timerId = null; let timeLeft = 0; ...] *)
Definition init : State := mkState false 0 0 0 0.

(** Downstream commands, [e.data] of [self.onmessage]. *)
Inductive Command :=
| start (duration timeLeft recurrentTime : Z)
| pause
| reset (newDuration : Z)
| update (duration recurrentTime : Z) (timeLeft : option Z).

(** Upstream events, the arguments of [self.postMessage]. *)
Inductive Event :=
| tick (timeLeft : Z)
| recurrent (elapsed : Z)
| finalMinute
| complete
| resetDone (timeLeft : Z).

(** [startTimer]: any running interval is cleared and a new one is set. *)
Definition startTimer (s : State) : State :=
  mkState true (timeLeft s) (duration s) (recurrentTime s)
          (lastNotificationTime s).

Definition pauseTimer (s : State) : State :=
  mkState false (timeLeft s) (duration s) (recurrentTime s)
          (lastNotificationTime s).

(** [resetTimer(newDuration)]: [newDuration || duration] takes the stored
    duration when the argument is falsy, which for a number is [0]. *)
Definition resetTimer (newDuration : Z) (s : State) : State * list Event :=
  let s1 := pauseTimer s in
  let tl := if newDuration =? 0 then duration s1 else newDuration in
  (mkState (timerId s1) tl (duration s1) (recurrentTime s1) 0,
   [resetDone tl]).

(** [self.onmessage]. *)
Definition onmessage (s : State) (c : Command) : State * list Event :=
  match c with
  | start d tl r =>
      (startTimer (mkState (timerId s) tl d r (lastNotificationTime s)), [])
  | pause => (pauseTimer s, [])
  | reset nd => resetTimer nd s
  | update d r otl =>
      (mkState (timerId s)
               (match otl with Some tl => tl | None => timeLeft s end)
               d r (lastNotificationTime s), [])
  end.

(** The body of the interval callback of [startTimer], run at wall-clock
    time [now] ([Date.now()], in milliseconds). *)
Definition intervalCallback (now : Z) (s : State) : State * list Event :=
  let tl := timeLeft s - 1 in
  let elapsed := duration s - tl in
  let fire :=
    (0 <? recurrentTime s) && (0 <? elapsed)
    && (Z.rem elapsed (recurrentTime s) <? 1)
    && (5000 <? now - lastNotificationTime s) in
  let last := if fire then now else lastNotificationTime s in
  let evRecurrent := if fire then [recurrent elapsed] else [] in
  let evFinal := if tl =? 60 then [finalMinute] else [] in
  let done := tl <=? 0 in
  (mkState (negb done) tl (duration s) (recurrentTime s) last,
   evRecurrent ++ evFinal ++ [tick tl] ++ (if done then [complete] else [])).

(** What the worker reacts to: a command message, or the interval firing.
    The interval only exists while [timerId] is not [null]. *)
Inductive Input :=
| Msg (c : Command)
| Fire (now : Z).

Definition step (s : State) (i : Input) : State * list Event :=
  match i with
  | Msg c => onmessage s c
  | Fire now => if timerId s then intervalCallback now s else (s, [])
  end.

(** The post-state and the emitted events of every input, in order. *)
Fixpoint steps (s : State) (l : list Input) : list (State * list Event) :=
  match l with
  | [] => []
  | i :: l' => let r := step s i in r :: steps (fst r) l'
  end.

Fixpoint run (s : State) (l : list Input) : State * list Event :=
  match l with
  | [] => (s, [])
  | i :: l' =>
      let (s1, e1) := step s i in
      let (s2, e2) := run s1 l' in
      (s2, e1 ++ e2)
  end.

(** A countdown: [start] for a task of duration [D] and reminder interval
    [R] with [timeLeft = D], then the interval firing at the times [ts]. *)
Definition countdown (s : State) (D R : Z) (ts : list Z) : State * list Event :=
  run s (Msg (start D D R) :: map Fire ts).

(** Projections of a trace. *)
Definition ticksOf (l : list Event) : list Z :=
  flat_map (fun e => match e with tick t => [t] | _ => [] end) l.

Definition remindersOf (l : list Event) : list Z :=
  flat_map (fun e => match e with recurrent x => [x] | _ => [] end) l.

Definition isFinalMinute (e : Event) : bool :=
  match e with finalMinute => true | _ => false end.

Definition isComplete (e : Event) : bool :=
  match e with complete => true | _ => false end.

Definition countFinalMinute (l : list Event) : nat :=
  length (filter isFinalMinute l).

Definition countComplete (l : list Event) : nat :=
  length (filter isComplete l).

(** The times at which a reminder was posted. *)
Fixpoint reminderTimes (s : State) (l : list Input) : list Z :=
  match l with
  | [] => []
  | i :: l' =>
      let (s1, e1) := step s i in
      match i, remindersOf e1 with
      | Fire now, _ :: _ => now :: reminderTimes s1 l'
      | _, _ => reminderTimes s1 l'
      end
  end.

End Worker.

(** ** The browser, and what the components do to it

    The components run their rituals against collaborators of the browser:
    audio playback, the Notification API and speech synthesis.  What a run
    of a ritual can observe of the browser is collected in [Browser]; what
    the ritual does is recorded as a trace of [Effect]s, each call of a
    collaborator together with what the collaborator did. *)

Inductive Permission := granted | denied | default.

Record Browser := mkBrowser {
  audioThrows : bool;            (* an Audio operation of [playSound] throws *)
  hasFocus : bool;               (* [document.hasFocus()] *)
  playRejects : bool;            (* the promise of [audio.play()] rejects *)
  notificationSupported : bool;  (* ["Notification" in window] *)
  permission : Permission;       (* [Notification.permission] *)
  notificationThrows : bool;     (* [new Notification(...)] throws *)
  speechSupported : bool;        (* ["speechSynthesis" in window] *)
  speechThrows : bool;           (* building or speaking the utterance throws *)
  documentVisible : bool         (* [document.visibilityState === "visible"] *)
}.

(** The texts of the components, by template. *)
Inductive Message :=
| HavePassed (elapsed : Z)          (* [`${formatTimeVerbose(elapsed)} have passed`] *)
| OneMinuteLeft                     (* ["1 minute left"] *)
| TaskCompletedAt                   (* [`Task completed at ${time}`] *)
| MovingToNext                      (* ["Task completed. Moving to the next task."] *)
| ShouldBeCompleted (task : string) (* [`Task ${task} should be completed by now. ...`] *)
| AllTasksCompleted.                (* ["All tasks completed. Your session is now finished."] *)

Inductive Title :=
| TimeUpdate (task : string)        (* [`${task} - Time Update`] *)
| AlmostDone (task : string)        (* [`${task} - Almost Done`] *)
| Completed (task : string).        (* [`${task} - Completed`] *)

Inductive PlayResult := played | playRejected | notFocused | playErrorLogged.
Inductive NotifyResult := raised | notSupported | notGranted | raiseErrorLogged.
Inductive SpeakResult := spoken | noSpeechSynthesis | speakThrew.

Inductive Effect :=
| PlaySound (src : string) (r : PlayResult)
| ShowNotification (title : Title) (body : Message) (r : NotifyResult)
| SpeakText (text : Message) (r : SpeakResult)
| Sleep (ms : Z)                    (* [await new Promise(r => setTimeout(r, ms))] *)
| AppendNotification (m : Message)  (* [setNotifications(prev => [...prev, m])] *)
| ConsoleError
| OnComplete.                       (* the [onComplete] prop is called *)

(** Code that leaves a trace and may throw: the trace so far, and the
    result, [None] when an exception is propagating. *)
Definition M (A : Type) : Type := list Effect * option A.

Definition ret {A} (a : A) : M A := ([], Some a).
Definition throw {A} : M A := ([], None).
Definition emit (e : Effect) : M unit := ([e], Some tt).

Definition bind {A B} (m : M A) (f : A -> M B) : M B :=
  match m with
  | (t, Some a) => let (t', r) := f a in (t ++ t', r)
  | (t, None) => (t, None)
  end.

(** [try { body } catch (error) { handler }] *)
Definition tryCatch {A} (body handler : M A) : M A :=
  match body with
  | (t, Some a) => (t, Some a)
  | (t, None) => let (t', r) := handler in (t ++ t', r)
  end.

Definition when (c : bool) (m : M unit) : M unit := if c then m else ret tt.

Notation "m1 ;; m2" := (bind m1 (fun _ => m2))
  (at level 61, right associativity).

Definition trace {A} (m : M A) : list Effect := fst m.

(** ** [lib/sounds.ts] *)

Module Sounds.

Record Sound := mkSound { id : string; name : string; src : string }.

Definition GUITAR_SOUND : string := "/sounds/relaxing-guitar-loop-v5-245859.mp3".

Definition notificationSounds : list Sound :=
  [ mkSound "guitar" "Guitar" GUITAR_SOUND;
    mkSound "bell" "Bell" GUITAR_SOUND;
    mkSound "digital" "Digital" GUITAR_SOUND ].

Definition completionSounds : list Sound :=
  [ mkSound "guitar" "Guitar" GUITAR_SOUND;
    mkSound "success" "Success" GUITAR_SOUND;
    mkSound "fanfare" "Fanfare" GUITAR_SOUND ].

(** [sounds.find((s) => s.id === wanted) || sounds[0]], for a catalog
    with first entry [first]. *)
Definition resolve (first : Sound) (sounds : list Sound) (wanted : string) : Sound :=
  match find (fun s => String.eqb (id s) wanted) sounds with
  | Some s => s
  | None => first
  end.

Definition notificationSound (wanted : string) : Sound :=
  resolve (mkSound "guitar" "Guitar" GUITAR_SOUND) notificationSounds wanted.

Definition completionSound (wanted : string) : Sound :=
  resolve (mkSound "guitar" "Guitar" GUITAR_SOUND) completionSounds wanted.

(** [playSound(src)]: the whole body is inside [try ... catch], and the
    promise of [audio.play()] has its own [.catch]; without focus the
    playback is skipped. *)
Definition playSound (b : Browser) (src : string) : M unit :=
  tryCatch
    (if audioThrows b then throw
     else if hasFocus b
          then emit (PlaySound src (if playRejects b then playRejected else played))
          else emit (PlaySound src notFocused))
    (emit (PlaySound src playErrorLogged)).

End Sounds.

(** ** [lib/notifications.ts] *)

Module Notifications.

(** [requestNotificationPermission], once the user has answered. *)
Definition requestNotificationPermission (b : Browser) : bool :=
  notificationSupported b
  && match permission b with granted => true | _ => false end.

(** [isPageVisible], and the value [setupVisibilityDetection] hands to
    its callback on a [visibilitychange] event. *)
Definition isPageVisible (b : Browser) : bool := documentVisible b.

(** [canShowNotifications] *)
Definition canShowNotifications (b : Browser) : bool :=
  notificationSupported b
  && match permission b with granted => true | _ => false end.

(** [showNotification(title, { body, icon })] *)
Definition showNotification (b : Browser) (title : Title) (body : Message) : M unit :=
  if negb (notificationSupported b) then emit (ShowNotification title body notSupported)
  else match permission b with
       | granted =>
           tryCatch
             (if notificationThrows b then throw
              else emit (ShowNotification title body raised))
             (emit (ShowNotification title body raiseErrorLogged))
       | _ => emit (ShowNotification title body notGranted)
       end.

End Notifications.

(** ** [lib/utils.ts] *)

Module Utils.

(** [speakText(text)]: nothing guards the utterance, an exception of the
    speech synthesis reaches the caller. *)
Definition speakText (b : Browser) (text : Message) : M unit :=
  if speechSupported b
  then if speechThrows b
       then emit (SpeakText text speakThrew) ;; throw
       else emit (SpeakText text spoken)
  else emit (SpeakText text noSpeechSynthesis).

End Utils.

(** ** Runs of the worker *)

Module WorkerRun.

Import Worker.

(** The condition of the reminder check of the interval callback. *)
Definition reminderDue (now : Z) (s : State) : bool :=
  (0 <? recurrentTime s) && (0 <? duration s - (timeLeft s - 1))
  && (Z.rem (duration s - (timeLeft s - 1)) (recurrentTime s) <? 1)
  && (5000 <? now - lastNotificationTime s).

(** A command other than [reset] keeps the time of the last reminder. *)
Definition keepsLastReminder (i : Input) : bool :=
  match i with
  | Msg (reset _) => false
  | _ => true
  end.

(** The range of the Countdown State. *)
Definition inRange (s : State) : Prop := 0 <= timeLeft s <= duration s.

(** In range, and a running timer has at least one second left. *)
Definition wellFormed (s : State) : Prop :=
  inRange s /\ (timerId s = true -> 1 <= timeLeft s).

(** Commands with consistent payloads: [start] and [update] carry
    [1 <= timeLeft <= duration] (an [update] without [timeLeft] carries a
    duration that is not below the current [timeLeft]), and [reset]
    carries a duration between [0] and the stored one. *)
Definition consistent (s : State) (i : Input) : bool :=
  match i with
  | Msg (start d tl r) => (1 <=? tl) && (tl <=? d)
  | Msg pause => true
  | Msg (reset nd) => (0 <=? nd) && (nd <=? duration s)
  | Msg (update d r (Some tl)) => (1 <=? tl) && (tl <=? d)
  | Msg (update d r None) => timeLeft s <=? d
  | Fire _ => true
  end.

Fixpoint allConsistent (s : State) (l : list Input) : bool :=
  match l with
  | [] => true
  | i :: l' => consistent s i && allConsistent (fst (step s i)) l'
  end.

(** Every tick of a step carries a [timeLeft] in the range of the state
    the step leaves. *)
Definition ticksInRange (r : State * list Event) : Prop :=
  forall t, In (tick t) (snd r) -> 0 <= t <= duration (fst r).

End WorkerRun.

(** The props of a [Timer]. *)
Record TimerProps := mkProps {
  task : string;
  duration : Z;
  recurrentTime : Z;
  notificationSound : string;
  completionSound : string
}.

(** ** The worker driven [Timer] component *)

Module WorkerTimer.

(** The state and refs of the component that the message handler reads
    or writes. *)
Record State := mkState {
  timeLeft : Z;
  isRunning : bool;
  hasCalledOnComplete : bool;
  isVisible : bool;
  notificationsEnabled : bool
}.

(** [notificationSequence] of [handleWorkerNotification]. *)
Definition notificationSequence (b : Browser) (p : TimerProps)
    (isVisible notificationsEnabled : bool) (newNotification : Message) : M unit :=
  tryCatch
    (let sound := Sounds.notificationSound (notificationSound p) in
     Sounds.playSound b (Sounds.src sound) ;;
     when (negb isVisible && notificationsEnabled)
       (Notifications.showNotification b (TimeUpdate (task p)) newNotification) ;;
     emit (Sleep 5000) ;;
     when isVisible (Utils.speakText b newNotification))
    (emit ConsoleError).

(** [finalMinuteSequence] of [handleWorkerNotification]. *)
Definition finalMinuteSequence (b : Browser) (p : TimerProps)
    (isVisible notificationsEnabled : bool) (newNotification : Message) : M unit :=
  tryCatch
    (let sound := Sounds.notificationSound (notificationSound p) in
     Sounds.playSound b (Sounds.src sound) ;;
     when (negb isVisible && notificationsEnabled)
       (Notifications.showNotification b (AlmostDone (task p)) newNotification) ;;
     emit (Sleep 5000) ;;
     when isVisible (Utils.speakText b newNotification))
    (emit ConsoleError).

(** [completionSequence] of [handleTaskComplete]. *)
Definition completionSequence (b : Browser) (p : TimerProps)
    (isVisible notificationsEnabled : bool) : M unit :=
  tryCatch
    (let sound := Sounds.completionSound (completionSound p) in
     Sounds.playSound b (Sounds.src sound) ;;
     when (negb isVisible && notificationsEnabled)
       (Notifications.showNotification b (Completed (task p)) MovingToNext) ;;
     emit (Sleep 5000) ;;
     when isVisible (Utils.speakText b (ShouldBeCompleted (task p))) ;;
     emit (Sleep 3000) ;;
     emit OnComplete)
    (emit ConsoleError ;; emit OnComplete).

(** [handleWorkerNotification(data)] as one render creates it; [data] is
    a [recurrent] or a [finalMinute] message of the worker.  The function
    closes over the props [p] of that render and over its values of
    [isVisible] and [notificationsEnabled], here [seenVisible] and
    [seenEnabled]. *)
Definition handleWorkerNotification (b : Browser) (p : TimerProps)
    (seenVisible seenEnabled : bool) (data : Worker.Event) : list Effect :=
  match data with
  | Worker.recurrent elapsed =>
      let newNotification := HavePassed elapsed in
      AppendNotification newNotification
        :: trace (notificationSequence b p seenVisible seenEnabled newNotification)
  | Worker.finalMinute =>
      let newNotification := OneMinuteLeft in
      AppendNotification newNotification
        :: trace (finalMinuteSequence b p seenVisible seenEnabled newNotification)
  | _ => []
  end.

(** [handleTaskComplete] as one render creates it.  The latch is a ref,
    read and written where it is now ([st]); the props, the two flags and
    [onComplete] are those of the render that created the function. *)
Definition handleTaskComplete (b : Browser) (p : TimerProps)
    (seenVisible seenEnabled : bool) (st : State) : State * list Effect :=
  if negb (hasCalledOnComplete st)
  then (mkState (timeLeft st) false true (isVisible st) (notificationsEnabled st),
        AppendNotification TaskCompletedAt
          :: trace (completionSequence b p seenVisible seenEnabled))
  else (st, []).

(** The function that one render would assign to
    [workerRef.current.onmessage]: it calls the two handlers of that
    render, and the state setters and the latch act on the component as
    it is when the message arrives. *)
Definition handler (b : Browser) (p : TimerProps)
    (seenVisible seenEnabled : bool) (st : State) (e : Worker.Event)
    : State * list Effect :=
  match e with
  | Worker.tick tl =>
      (mkState tl (isRunning st) (hasCalledOnComplete st) (isVisible st)
               (notificationsEnabled st), [])
  | Worker.recurrent _ | Worker.finalMinute =>
      (st, handleWorkerNotification b p seenVisible seenEnabled e)
  | Worker.complete => handleTaskComplete b p seenVisible seenEnabled st
  | Worker.resetDone tl =>
      (mkState tl (isRunning st) (hasCalledOnComplete st) (isVisible st)
               (notificationsEnabled st), [])
  end.

(** The message handler of the render with the props [p] and the flags of
    [st]: what [workerRef.current.onmessage] does when the handler is the
    one of the render that is current.  The component assigns the handler
    in its first render only; see [installed] below. *)
Definition onmessage (b : Browser) (p : TimerProps) (st : State)
    (e : Worker.Event) : State * list Effect :=
  handler b p (isVisible st) (notificationsEnabled st) st e.

(** The effect on a change of task: a new activation. *)
Definition activate (p : TimerProps) (st : State) : State :=
  mkState (duration p) true false (isVisible st) (notificationsEnabled st).

(** [useState(duration)], [useState(true)], [useRef(false)],
    [useState(true)] for [isVisible], [useState(false)] for
    [notificationsEnabled]. *)
Definition mount (p : TimerProps) : State :=
  mkState (duration p) true false true false.

(** [setNotificationsEnabled(await requestNotificationPermission())] *)
Definition initNotifications (b : Browser) (st : State) : State :=
  mkState (timeLeft st) (isRunning st) (hasCalledOnComplete st) (isVisible st)
          (Notifications.requestNotificationPermission b).

(** The callback given to [setupVisibilityDetection]. *)
Definition visibilityChanged (b : Browser) (st : State) : State :=
  mkState (timeLeft st) (isRunning st) (hasCalledOnComplete st)
          (Notifications.isPageVisible b) (notificationsEnabled st).

(** The messages of one activation, each handled in the browser as it is
    at that moment, by the handler of the render that is current.  The
    sequences started by different messages are recorded one after the
    other.  [deliverInstalled] below sends the messages through the
    handler that the component installs. *)
Fixpoint deliver (p : TimerProps) (st : State)
    (l : list (Browser * Worker.Event)) : State * list Effect :=
  match l with
  | [] => (st, [])
  | (b, e) :: l' =>
      let (s1, t1) := onmessage b p st e in
      let (s2, t2) := deliver p s1 l' in
      (s2, t1 ++ t2)
  end.

(** [workerRef.current.onmessage] as the component sets it.  The effect
    that creates the worker has no dependencies, so it runs after the
    first render only, and the handler it assigns keeps calling the
    [handleWorkerNotification] and the [handleTaskComplete] of that first
    render: their props are [p0], the props of the mount, and their flags
    are the initial values of the two state cells, [isVisible (mount p0)]
    and [notificationsEnabled (mount p0)].  The state setters and the
    latch act on the component as it is now. *)
Definition installed (b : Browser) (p0 : TimerProps) (st : State)
    (e : Worker.Event) : State * list Effect :=
  handler b p0 (isVisible (mount p0)) (notificationsEnabled (mount p0)) st e.

(** The messages of the worker through the installed handler, each in the
    browser as it is at that moment. *)
Fixpoint deliverInstalled (p0 : TimerProps) (st : State)
    (l : list (Browser * Worker.Event)) : State * list Effect :=
  match l with
  | [] => (st, [])
  | (b, e) :: l' =>
      let (s1, t1) := installed b p0 st e in
      let (s2, t2) := deliverInstalled p0 s1 l' in
      (s2, t1 ++ t2)
  end.

End WorkerTimer.

(** ** The interval driven [Timer] component ([components/timer.tsx]) *)

Module IntervalTimer.

Record State := mkState {
  timeLeft : Z;
  isRunning : bool;
  lastNotificationTime : Z;
  hasCalledOnComplete : bool
}.

Definition completionSequence (b : Browser) (p : TimerProps) : M unit :=
  tryCatch
    (emit (AppendNotification TaskCompletedAt) ;;
     (let sound := Sounds.completionSound (completionSound p) in
      Sounds.playSound b (Sounds.src sound)) ;;
     emit (Sleep 5000) ;;
     Utils.speakText b (ShouldBeCompleted (task p)) ;;
     emit (Sleep 3000) ;;
     emit OnComplete)
    (emit ConsoleError ;; emit OnComplete).

Definition notificationSequence (b : Browser) (p : TimerProps) (elapsed : Z) : M unit :=
  tryCatch
    ((let sound := Sounds.notificationSound (notificationSound p) in
      Sounds.playSound b (Sounds.src sound)) ;;
     emit (AppendNotification (HavePassed elapsed)) ;;
     emit (Sleep 5000) ;;
     Utils.speakText b (HavePassed elapsed))
    (emit ConsoleError).

Definition finalMinuteSequence (b : Browser) (p : TimerProps) : M unit :=
  tryCatch
    ((let sound := Sounds.notificationSound (notificationSound p) in
      Sounds.playSound b (Sounds.src sound)) ;;
     emit (AppendNotification OneMinuteLeft) ;;
     emit (Sleep 5000) ;;
     Utils.speakText b OneMinuteLeft)
    (emit ConsoleError).

(** The updater given to [setTimeLeft] by the interval callback, run at
    wall-clock time [now]. *)
Definition tickUpdater (now : Z) (b : Browser) (p : TimerProps) (st : State)
    : State * list Effect :=
  let prev := timeLeft st in
  if prev <=? 1
  then
    if negb (hasCalledOnComplete st)
    then (mkState 0 false (lastNotificationTime st) true,
          trace (completionSequence b p))
    else (mkState 0 false (lastNotificationTime st) (hasCalledOnComplete st), [])
  else
    let elapsed := duration p - prev in
    let fire :=
      (0 <? recurrentTime p) && (0 <? elapsed)
      && (Z.rem elapsed (recurrentTime p) <? 1)
      && (5000 <? now - lastNotificationTime st) in
    (mkState (prev - 1) (isRunning st)
             (if fire then now else lastNotificationTime st)
             (hasCalledOnComplete st),
     (if fire then trace (notificationSequence b p elapsed) else [])
     ++ (if prev =? 60 then trace (finalMinuteSequence b p) else [])).

(** The interval exists while [isRunning]. *)
Definition intervalTick (now : Z) (b : Browser) (p : TimerProps) (st : State)
    : State * list Effect :=
  if isRunning st then tickUpdater now b p st else (st, []).

(** The effect on a change of task: a new activation. *)
Definition activate (p : TimerProps) (st : State) : State :=
  mkState (duration p) true 0 false.

(** The states and traces of the interval firing at the times [l]. *)
Fixpoint ticks (p : TimerProps) (st : State) (l : list (Z * Browser))
    : list (State * list Effect) :=
  match l with
  | [] => []
  | (now, b) :: l' =>
      let r := intervalTick now b p st in r :: ticks p (fst r) l'
  end.

(** The updater applied at the times [l], whether or not the interval
    was cleared in between. *)
Fixpoint updates (p : TimerProps) (st : State) (l : list (Z * Browser))
    : State * list Effect :=
  match l with
  | [] => (st, [])
  | (now, b) :: l' =>
      let (s1, t1) := tickUpdater now b p st in
      let (s2, t2) := updates p s1 l' in
      (s2, t1 ++ t2)
  end.

End IntervalTimer.

(** ** The task sequencer ([TaskList]) *)

Module TaskList.

Record Task := mkTask {
  id : string;
  name : string;
  duration : Z;
  recurrentTime : Z;
  notificationSound : string;
  completionSound : string
}.

(** The three [useState] cells; array indices are numbers, so [Z]. *)
Record State := mkState {
  tasks : list Task;
  currentTaskIndex : option Z;
  allTasksCompleted : bool
}.

Definition init : State := mkState [] None false.

(** [tasks.length] *)
Definition len (l : list Task) : Z := Z.of_nat (List.length l).

(** [tasks[i]]: [undefined] outside the array. *)
Definition get (l : list Task) (i : Z) : option Task :=
  if i <? 0 then None else nth_error l (Z.to_nat i).

(** [tasks.findIndex(f)]: the first position where [f] holds, or [-1]. *)
Fixpoint findIndex (f : Task -> bool) (l : list Task) : Z :=
  match l with
  | [] => -1
  | t :: l' =>
      if f t then 0
      else let r := findIndex f l' in if r <? 0 then -1 else r + 1
  end.

(** [value || fallback] on strings: the empty string is falsy. *)
Definition orElse (value fallback : string) : string :=
  if String.eqb value EmptyString then fallback else value.

Definition withSounds (t : Task) : Task :=
  mkTask (id t) (name t) (duration t) (recurrentTime t)
    (orElse (notificationSound t) "guitar")
    (orElse (completionSound t) "guitar").

Definition addTask (t : Task) (s : State) : State :=
  mkState (tasks s ++ [withSounds t]) (currentTaskIndex s) false.

Definition editTask (updatedTask : Task) (s : State) : State :=
  let taskWithSounds := withSounds updatedTask in
  mkState
    (map (fun t => if String.eqb (id t) (id taskWithSounds)
                   then taskWithSounds else t) (tasks s))
    (currentTaskIndex s) (allTasksCompleted s).

Definition removeTask (taskId : string) (s : State) : State :=
  let taskIndex := findIndex (fun t => String.eqb (id t) taskId) (tasks s) in
  let index' :=
    match currentTaskIndex s with
    | Some c =>
        if taskIndex =? c
        then if 1 <? len (tasks s)
             then if taskIndex =? len (tasks s) - 1 then Some 0 else Some c
             else None
        else if taskIndex <? c then Some (c - 1) else Some c
    | None => None
    end in
  mkState (filter (fun t => negb (String.eqb (id t) taskId)) (tasks s))
          index' (allTasksCompleted s).

(** [handleTaskComplete] as one render creates it, called later.  The
    function reads [currentTaskIndex] and [tasks] of the render that
    created it, whose state is [seen]; the state setters it calls act on
    the state [s] at the time of the call.  The announcement is spoken one
    second later. *)
Definition handleTaskComplete (b : Browser) (seen s : State)
    : State * list Effect :=
  match currentTaskIndex seen with
  | Some c =>
      if 0 <? len (tasks seen)
      then if c =? len (tasks seen) - 1
           then (mkState (tasks s) None true,
                 trace (emit (Sleep 1000) ;; Utils.speakText b AllTasksCompleted))
           else (mkState (tasks s) (Some (c + 1)) (allTasksCompleted s), [])
      else (s, [])
  | None => (s, [])
  end.

Definition startTask (index : Z) (s : State) : State :=
  mkState (tasks s) (Some index) false.

Definition resetTaskList (s : State) : State :=
  mkState (tasks s)
          (if 0 <? len (tasks s) then Some 0 else currentTaskIndex s)
          false.

(** The Run State, as the render chooses what to show: the completion
    card, the [Timer] of the active task, or one of the idle cards. *)
Inductive RunState := Idle | Running (index : Z) | AllComplete.

Definition runState (s : State) : RunState :=
  if allTasksCompleted s then AllComplete
  else match currentTaskIndex s with
       | Some c => if 0 <? len (tasks s) then Running c else Idle
       | None => Idle
       end.

Definition ids (l : list Task) : list string := map id l.

End TaskList.

(** ** The page: the task list and the Timer it renders *)

Module Page.

Import TaskList.

(** The two [Timer] components of the repository.  [TaskList] gives either
    of them its [handleTaskComplete] as [onComplete]. *)
Inductive TimerKind :=
| WorkerDriven      (* the Timer that listens to the worker *)
| IntervalDriven.   (* [components/timer.tsx], with its own interval *)

(** The state of the list, and what the Timer holds of it.

    [mounted]: while a Timer is on the page, the state of the list in the
    render that mounted it.  The element has no key, so the same component
    stays mounted from task to task.

    [rituals]: the completion rituals in flight, oldest first; each holds
    the [onComplete] it will call at its end, given by the state of the
    list in the render whose [handleTaskComplete] that is. *)
Record State := mkPage {
  taskList : TaskList.State;
  mounted : option TaskList.State;
  rituals : list TaskList.State
}.

(** A render of [TaskList] in the state [s]: the Timer element is there
    exactly in the run state [Running]; a Timer that was there stays, a
    new one is mounted by this render, and without the element the Timer
    is unmounted.  A ritual in flight is an async function, which goes on
    after an unmount. *)
Definition render (s : TaskList.State) (m : option TaskList.State)
    (r : list TaskList.State) : State :=
  match runState s with
  | Running _ =>
      mkPage s (match m with Some first => Some first | None => Some s end) r
  | _ => mkPage s None r
  end.

Definition init : State := render TaskList.init None [].

(** A handler of the list called from a button or a form of the page. *)
Definition call (f : TaskList.State -> TaskList.State) (pg : State) : State :=
  render (f (taskList pg)) (mounted pg) (rituals pg).

(** The [onComplete] inside the completion ritual that starts now.

    The worker driven Timer assigns its message handler in the first
    render only, so the ritual is the one of that render, with the
    [onComplete] prop of that render: the [handleTaskComplete] of the
    render of [TaskList] that mounted the Timer.

    The interval driven Timer lists [onComplete] among the dependencies of
    the effect that creates the interval, and every render of [TaskList]
    passes a new function: the ritual has the [handleTaskComplete] of the
    latest render. *)
Definition held (k : TimerKind) (pg : State) (first : TaskList.State)
    : TaskList.State :=
  match k with
  | WorkerDriven => first
  | IntervalDriven => taskList pg
  end.

(** The countdown of the mounted Timer ends, with the latch open: the
    completion ritual starts. *)
Definition countdownEnds (k : TimerKind) (pg : State) : State :=
  match mounted pg with
  | Some first =>
      mkPage (taskList pg) (mounted pg) (rituals pg ++ [held k pg first])
  | None => pg
  end.

(** The oldest ritual in flight reaches its end and calls its
    [onComplete]. *)
Definition onComplete (b : Browser) (pg : State) : State * list Effect :=
  match rituals pg with
  | seen :: rest =>
      let r := handleTaskComplete b seen (taskList pg) in
      (render (fst r) (mounted pg) rest, snd r)
  | [] => (pg, [])
  end.

(** The active task runs to its end while nothing else happens on the
    page: the countdown ends, the completion ritual runs, and at its end
    it calls [onComplete]. *)
Definition taskRun (k : TimerKind) (b : Browser) (pg : State)
    : State * list Effect :=
  onComplete b (countdownEnds k pg).

(** [n] such runs, one after the other. *)
Fixpoint taskRuns (k : TimerKind) (b : Browser) (n : nat) (pg : State)
    : State * list Effect :=
  match n with
  | O => (pg, [])
  | S n' =>
      let r := taskRun k b pg in
      let r' := taskRuns k b n' (fst r) in
      (fst r', snd r ++ snd r')
  end.

(** The run states seen during [n] runs: the state before each. *)
Fixpoint runStates (k : TimerKind) (b : Browser) (n : nat) (pg : State)
    : list RunState :=
  match n with
  | O => []
  | S n' => runState (taskList pg) :: runStates k b n' (fst (taskRun k b pg))
  end.

(** The page with the list [l] and no active task, and then
    [startTask(0)]: the button [Start All Tasks], or [Start] of the first
    task. *)
Definition ready (l : list Task) : State :=
  render (TaskList.mkState l None false) None [].

Definition started (l : list Task) : State := call (startTask 0) (ready l).

End Page.

(** Projections of a ritual trace. *)
Definition isOnComplete (e : Effect) : bool :=
  match e with OnComplete => true | _ => false end.

Definition countOnComplete (t : list Effect) : nat :=
  List.length (filter isOnComplete t).

Definition isShowNotification (e : Effect) : bool :=
  match e with ShowNotification _ _ _ => true | _ => false end.

Definition isRaised (e : Effect) : bool :=
  match e with ShowNotification _ _ raised => true | _ => false end.

Definition isSpeakText (e : Effect) : bool :=
  match e with SpeakText _ _ => true | _ => false end.

(** The final-minute ritual logs ["1 minute left"], and only it does. *)
Definition isFinalMinuteRitual (e : Effect) : bool :=
  match e with AppendNotification OneMinuteLeft => true | _ => false end.

Definition countFinalMinuteRituals (t : list Effect) : nat :=
  List.length (filter isFinalMinuteRitual t).

(** Every call of [speakText] comes right after the five second delay. *)
Fixpoint spokenOnlyAfterDelay (t : list Effect) : bool :=
  match t with
  | [] => true
  | SpeakText _ _ :: _ => false
  | Sleep ms :: t' =>
      match t' with
      | SpeakText _ _ :: t'' => (ms =? 5000) && spokenOnlyAfterDelay t''
      | _ => spokenOnlyAfterDelay t'
      end
  | _ :: t' => spokenOnlyAfterDelay t'
  end.

(** All the effects of a list of steps. *)
Definition effectsOf {S : Type} (l : list (S * list Effect)) : list Effect :=
  concat (map snd l).



(** ** Concrete tasks and browsers *)

(** A task of 70 seconds with a reminder every 30 seconds. *)
Definition shower : TimerProps := mkProps "Shower" 70 30 "guitar" "guitar".

(** A focused, visible page with every capability granted and working. *)
Definition foreground : Browser :=
  mkBrowser false true false true granted false true false true.

(** The same page in a background tab. *)
Definition background : Browser :=
  mkBrowser false false false true granted false true false false.

Definition taskA : TaskList.Task :=
  TaskList.mkTask "1" "Shower" 600 180 "guitar" "guitar".
Definition taskB : TaskList.Task :=
  TaskList.mkTask "2" "Exercise" 1200 300 "guitar" "guitar".
Definition taskC : TaskList.Task :=
  TaskList.mkTask "3" "Reading" 900 0 "guitar" "guitar".

(** ** Lists of seconds and of time stamps *)

(** [D-1, D-2, ..., D-n] *)
Fixpoint downFrom (D : Z) (n : nat) : list Z :=
  match n with
  | O => []
  | S n' => (D - 1) :: downFrom (D - 1) n'
  end.

(** [e+1, e+2, ..., e+n] *)
Fixpoint upFrom (e : Z) (n : nat) : list Z :=
  match n with
  | O => []
  | S n' => (e + 1) :: upFrom (e + 1) n'
  end.

(** The test of the reminder check on the elapsed seconds. *)
Definition onInterval (R : Z) (elapsed : Z) : bool := Z.rem elapsed R <? 1.

(** Time stamps of interval callbacks that never come early: the first not
    before [lb], each at least 1000 ms after the one before. *)
Fixpoint paced (lb : Z) (ts : list Z) : Prop :=
  match ts with
  | [] => True
  | t :: ts' => lb <= t /\ paced (t + 1000) ts'
  end.

(** Each time stamp more than 5000 ms after the one before, the first more
    than 5000 ms after [last]. *)
Fixpoint debounced (last : Z) (ts : list Z) : Prop :=
  match ts with
  | [] => True
  | t :: ts' => 5000 < t - last /\ debounced t ts'
  end.

(** Any two consecutive time stamps are more than 5000 ms apart. *)
Definition separated (ts : list Z) : Prop :=
  match ts with
  | [] => True
  | t :: ts' => debounced t ts'
  end.

(** [t0, t0 + 1000, ...]: [n] callbacks exactly one second apart. *)
Fixpoint everySecond (t0 : Z) (n : nat) : list Z :=
  match n with
  | O => []
  | S n' => t0 :: everySecond (t0 + 1000) n'
  end.

(** ** The clock display ([formatTime] of [lib/utils.ts]) *)

Module Format.

(** [n.toString()] for a whole number. *)
Definition toString (n : Z) : string := NilZero.string_of_int (Z.to_int n).

(** [s.padStart(2, "0")] *)
Definition padStart2 (s : string) : string :=
  match String.length s with
  | 0%nat => "00"
  | 1%nat => String.append "0" s
  | _ => s
  end.

(** [formatTime(seconds)]: [Math.floor(seconds / 60)] and [seconds % 60],
    each padded to two characters, with a colon between them. *)
Definition formatTime (seconds : Z) : string :=
  String.append (padStart2 (toString (seconds / 60)))
    (String.append ":" (padStart2 (toString (Z.rem seconds 60)))).

End Format.

(** ** The buttons of the Timers *)

(** What a button handler does besides updating the state: it empties the
    notification log ([setNotifications([])]) or posts a command to the
    worker. *)
Inductive Output :=
| ClearNotifications
| PostMessage (c : Worker.Command).

Module WorkerTimerControls.

Import WorkerTimer.

(** [toggleTimer] of the worker driven Timer. *)
Definition toggleTimer (p : TimerProps) (st : State) : State * list Output :=
  if negb (isRunning st) && (timeLeft st =? 0)
  then (mkState (duration p) (negb (isRunning st)) false (isVisible st)
                (notificationsEnabled st),
        [ClearNotifications; PostMessage (Worker.reset (duration p))])
  else (mkState (timeLeft st) (negb (isRunning st)) (hasCalledOnComplete st)
                (isVisible st) (notificationsEnabled st), []).

(** [resetTimer] of the worker driven Timer. *)
Definition resetTimer (p : TimerProps) (st : State) : State * list Output :=
  (mkState (duration p) false false (isVisible st) (notificationsEnabled st),
   [ClearNotifications; PostMessage (Worker.reset (duration p))]).

(** The message of the effect that controls the worker from [isRunning]. *)
Definition controlWorker (p : TimerProps) (st : State) : Worker.Command :=
  if isRunning st
  then Worker.start (duration p) (timeLeft st) (recurrentTime p)
  else Worker.pause.

(** The events of the worker, handled one after the other in the same
    browser, by the handler of the render that is current. *)
Definition deliverAll (b : Browser) (p : TimerProps) (st : State)
    (evs : list Worker.Event) : State * list Effect :=
  deliver p st (map (fun e => (b, e)) evs).

End WorkerTimerControls.

(** The commands among the outputs of a handler reach [self.onmessage] of
    the worker, in order. *)
Fixpoint postAll (s : Worker.State) (outs : list Output)
    : Worker.State * list Worker.Event :=
  match outs with
  | [] => (s, [])
  | ClearNotifications :: outs' => postAll s outs'
  | PostMessage c :: outs' =>
      let (s1, e1) := Worker.onmessage s c in
      let (s2, e2) := postAll s1 outs' in
      (s2, e1 ++ e2)
  end.

Module IntervalTimerControls.

Import IntervalTimer.

(** [toggleTimer] of the interval driven Timer. *)
Definition toggleTimer (p : TimerProps) (st : State) : State * list Output :=
  if negb (isRunning st) && (timeLeft st =? 0)
  then (mkState (duration p) (negb (isRunning st)) (lastNotificationTime st) false,
        [ClearNotifications])
  else (mkState (timeLeft st) (negb (isRunning st)) (lastNotificationTime st)
                (hasCalledOnComplete st), []).

(** [resetTimer] of the interval driven Timer. *)
Definition resetTimer (p : TimerProps) (st : State) : State * list Output :=
  (mkState (duration p) false (lastNotificationTime st) false,
   [ClearNotifications]).

End IntervalTimerControls.

(** The reminder ritual logs [`... have passed`], and only it does. *)
Definition reminderRitualsOf (t : list Effect) : list Z :=
  flat_map (fun e => match e with
                     | AppendNotification (HavePassed x) => [x]
                     | _ => []
                     end) t.

(** Strictly increasing, and above [lo]. *)
Fixpoint increasing (lo : Z) (l : list Z) : Prop :=
  match l with
  | [] => True
  | x :: l' => lo < x /\ increasing x l'
  end.

(** The time a ritual spends waiting: the sum of its delays, in ms. *)
Definition totalSleep (t : list Effect) : Z :=
  fold_right (fun e acc => match e with Sleep ms => ms + acc | _ => acc end) 0 t.

(** The announcement that all tasks are completed. *)
Definition isAllTasksAnnouncement (e : Effect) : bool :=
  match e with SpeakText AllTasksCompleted _ => true | _ => false end.

(** ** The task list as the page offers it *)

Module TaskListUI.

Import TaskList.

(** The handler calls the page can make: the task form adds or edits, the
    buttons of a task start or remove it, the completion card starts
    over, and a completion ritual of the Timer calls the [onComplete] it
    holds: the [handleTaskComplete] of the render in which the state of
    the list was [seen]. *)
Inductive Action :=
| AddTask (t : Task)
| EditTask (t : Task)
| RemoveTask (taskId : string)
| StartTask (index : Z)
| TaskComplete (seen : State)
| ResetTaskList.

Definition perform (b : Browser) (s : State) (a : Action) : State :=
  match a with
  | AddTask t => addTask t s
  | EditTask t => editTask t s
  | RemoveTask taskId => removeTask taskId s
  | StartTask index => startTask index s
  | TaskComplete seen => fst (handleTaskComplete b seen s)
  | ResetTaskList => resetTaskList s
  end.

(** A [handleTaskComplete] that is up to date: the render that created it
    saw the active index and the number of tasks that the list has now. *)
Definition upToDate (seen s : State) : Prop :=
  currentTaskIndex seen = currentTaskIndex s
  /\ len (tasks seen) = len (tasks s).

(** What the render makes possible: the edit form, the start button and
    the remove button exist once per task of the list, so they carry an id
    or an index of the list; a new task gets the time stamp of its
    creation as id, taken here to be fresh.  Of the completion signals
    only those of an up to date [handleTaskComplete] are counted here;
    the page can deliver others. *)
Definition offered (s : State) (a : Action) : Prop :=
  match a with
  | AddTask t => ~ In (id t) (ids (tasks s))
  | EditTask t => In (id t) (ids (tasks s))
  | RemoveTask taskId => In taskId (ids (tasks s))
  | StartTask index => 0 <= index < len (tasks s)
  | TaskComplete seen => upToDate seen s
  | ResetTaskList => True
  end.

Fixpoint performAll (b : Browser) (s : State) (l : list Action) : State :=
  match l with
  | [] => s
  | a :: l' => performAll b (perform b s a) l'
  end.

Fixpoint allOffered (b : Browser) (s : State) (l : list Action) : Prop :=
  match l with
  | [] => True
  | a :: l' => offered s a /\ allOffered b (perform b s a) l'
  end.

Definition hasSounds (t : Task) : Prop :=
  notificationSound t <> EmptyString /\ completionSound t <> EmptyString.

(** Unique ids, an active index inside the list, no active index once all
    tasks are completed, and sound ids on every task. *)
Definition invariant (s : State) : Prop :=
  NoDup (ids (tasks s))
  /\ (forall c, currentTaskIndex s = Some c -> 0 <= c < len (tasks s))
  /\ (allTasksCompleted s = true -> currentTaskIndex s = None)
  /\ Forall hasSounds (tasks s).

(** The task whose fields the render reads for the [Timer]:
    [tasks[currentTaskIndex]], read when there is an index and the list is
    not empty. *)
Definition timerTask (s : State) : option (option Task) :=
  match runState s with
  | Running c => Some (get (tasks s) c)
  | _ => None
  end.

End TaskListUI.

(** ** The countdown of the worker *)

Section WorkerCountdown.

Import Worker.

Lemma run_cons (s : State) (i : Input) (l : list Input) :
  run s (i :: l)
  = (fst (run (fst (step s i)) l),
     snd (step s i) ++ snd (run (fst (step s i)) l)).
Proof.
  simpl. destruct (step s i) as [s1 e1]. simpl.
  destruct (run s1 l) as [s2 e2]. reflexivity.
Qed.

Lemma ticksOf_app (a b : list Event) : ticksOf (a ++ b) = ticksOf a ++ ticksOf b.
Proof. apply flat_map_app. Qed.

Lemma remindersOf_app (a b : list Event) :
  remindersOf (a ++ b) = remindersOf a ++ remindersOf b.
Proof. apply flat_map_app. Qed.

Lemma countComplete_app (a b : list Event) :
  countComplete (a ++ b) = (countComplete a + countComplete b)%nat.
Proof. unfold countComplete. now rewrite filter_app, length_app. Qed.

Lemma countFinalMinute_app (a b : list Event) :
  countFinalMinute (a ++ b) = (countFinalMinute a + countFinalMinute b)%nat.
Proof. unfold countFinalMinute. now rewrite filter_app, length_app. Qed.

(** One firing of the interval, field by field. *)
Lemma callback_timeLeft now s :
  timeLeft (fst (intervalCallback now s)) = timeLeft s - 1.
Proof. reflexivity. Qed.

Lemma callback_duration now s :
  duration (fst (intervalCallback now s)) = duration s.
Proof. reflexivity. Qed.

Lemma callback_recurrentTime now s :
  recurrentTime (fst (intervalCallback now s)) = recurrentTime s.
Proof. reflexivity. Qed.

Lemma callback_timerId now s :
  timerId (fst (intervalCallback now s)) = negb (timeLeft s - 1 <=? 0).
Proof. reflexivity. Qed.

Lemma callback_ticks now s :
  ticksOf (snd (intervalCallback now s)) = [timeLeft s - 1].
Proof.
  unfold intervalCallback. cbn [snd].
  rewrite !ticksOf_app.
  repeat match goal with |- context [if ?c then _ else _] => destruct c end;
    reflexivity.
Qed.

Lemma callback_complete now s :
  countComplete (snd (intervalCallback now s))
  = if timeLeft s - 1 <=? 0 then 1%nat else 0%nat.
Proof.
  unfold intervalCallback. cbn [snd].
  rewrite !countComplete_app.
  repeat match goal with |- context [if ?c then _ else _] => destruct c end;
    reflexivity.
Qed.

Lemma callback_last_complete now s :
  timeLeft s - 1 <= 0 ->
  exists evs, snd (intervalCallback now s) = evs ++ [complete]
              /\ countComplete evs = 0%nat.
Proof.
  intros H. unfold intervalCallback. cbn [snd].
  apply Z.leb_le in H. rewrite H.
  match goal with
  | |- context [?a ++ ?b ++ [tick ?t] ++ [complete]] =>
      exists (a ++ b ++ [tick t])
  end.
  split.
  - now rewrite <- !app_assoc.
  - rewrite !countComplete_app.
    repeat match goal with |- context [if ?c then _ else _] => destruct c end;
      reflexivity.
Qed.

Lemma callback_finalMinute now s :
  countFinalMinute (snd (intervalCallback now s))
  = if timeLeft s - 1 =? 60 then 1%nat else 0%nat.
Proof.
  unfold intervalCallback. cbn [snd].
  rewrite !countFinalMinute_app.
  repeat match goal with |- context [if ?c then _ else _] => destruct c end;
    reflexivity.
Qed.

(** [n] firings of a running timer with at least [n] seconds left. *)
Lemma fires_countdown (ts : list Z) : forall s,
  timerId s = true ->
  Z.of_nat (List.length ts) <= timeLeft s ->
  let r := run s (map Fire ts) in
  ticksOf (snd r) = downFrom (timeLeft s) (List.length ts)
  /\ timeLeft (fst r) = timeLeft s - Z.of_nat (List.length ts)
  /\ duration (fst r) = duration s
  /\ (Z.of_nat (List.length ts) < timeLeft s ->
      timerId (fst r) = true /\ countComplete (snd r) = 0%nat)
  /\ (Z.of_nat (List.length ts) = timeLeft s -> ts <> [] ->
      timerId (fst r) = false
      /\ exists evs, snd r = evs ++ [complete] /\ countComplete evs = 0%nat).
Proof.
  induction ts as [|now ts IH]; intros s Hrun Hlen.
  - cbn. repeat split; try lia; try assumption; try congruence.
  - cbn [map]. cbv zeta. rewrite run_cons.
    cbn [step]. rewrite Hrun. cbn [fst snd].
    cbn [List.length] in *.
    destruct ts as [|now' ts'].
    + (* the last firing of the list *)
      cbn [map run fst snd List.length downFrom]. rewrite app_nil_r.
      rewrite callback_ticks, callback_timeLeft, callback_duration,
        callback_timerId, callback_complete.
      repeat split; try lia;
        try solve [destruct (Z.leb_spec (timeLeft s - 1) 0); (reflexivity || lia)].
      apply callback_last_complete. lia.
    + set (s1 := fst (intervalCallback now s)).
      assert (Hrun1 : timerId s1 = true).
      { unfold s1. rewrite callback_timerId.
        destruct (timeLeft s - 1 <=? 0) eqn:E; [|reflexivity].
        apply Z.leb_le in E. cbn [List.length] in Hlen. lia. }
      assert (Hlen1 : Z.of_nat (List.length (now' :: ts')) <= timeLeft s1).
      { unfold s1. rewrite callback_timeLeft. lia. }
      specialize (IH s1 Hrun1 Hlen1). cbv zeta in IH.
      destruct IH as (IH1 & IH2 & IH3 & IH4 & IH5).
      rewrite ticksOf_app, callback_ticks, IH1, IH2, IH3, countComplete_app,
        callback_complete.
      unfold s1 at 1 2 3. rewrite callback_timeLeft, callback_duration.
      assert (Hs1 : timeLeft s1 = timeLeft s - 1) by reflexivity.
      cbn [List.length] in Hlen.
      repeat split; try lia.
      * apply IH4. lia.
      * destruct (Z.leb_spec (timeLeft s - 1) 0); [lia|].
        apply IH4. lia.
      * apply IH5; [lia|discriminate].
      * destruct IH5 as (_ & evs & Hev & Hc);
          [lia|discriminate|].
        exists (snd (intervalCallback now s) ++ evs). split.
        -- rewrite Hev. now rewrite app_assoc.
        -- rewrite countComplete_app, callback_complete, Hc.
           destruct (Z.leb_spec (timeLeft s - 1) 0); [lia|reflexivity].
Qed.

End WorkerCountdown.

(** Every choice the browser leaves open. *)
Ltac browser_cases b :=
  destruct b as [aT hF pR nS perm nT sS sT dV];
  destruct aT, hF, pR, nS, perm, nT, sS, sT.

(** ** The rituals *)

Section Rituals.

Lemma worker_completionSequence_onComplete b p v n :
  countOnComplete (trace (WorkerTimer.completionSequence b p v n)) = 1%nat.
Proof. browser_cases b; destruct v, n; reflexivity. Qed.

Lemma worker_notificationSequence_onComplete b p v n m :
  countOnComplete (trace (WorkerTimer.notificationSequence b p v n m)) = 0%nat.
Proof. browser_cases b; destruct v, n; reflexivity. Qed.

Lemma worker_finalMinuteSequence_onComplete b p v n m :
  countOnComplete (trace (WorkerTimer.finalMinuteSequence b p v n m)) = 0%nat.
Proof. browser_cases b; destruct v, n; reflexivity. Qed.

Lemma interval_completionSequence_onComplete b p :
  countOnComplete (trace (IntervalTimer.completionSequence b p)) = 1%nat.
Proof. browser_cases b; reflexivity. Qed.

Lemma interval_notificationSequence_onComplete b p e :
  countOnComplete (trace (IntervalTimer.notificationSequence b p e)) = 0%nat.
Proof. browser_cases b; reflexivity. Qed.

Lemma interval_finalMinuteSequence_onComplete b p :
  countOnComplete (trace (IntervalTimer.finalMinuteSequence b p)) = 0%nat.
Proof. browser_cases b; reflexivity. Qed.

End Rituals.

(** ** Whole seconds on the reminder interval *)

Section OnInterval.

Variable R : Z.
Hypothesis R_pos : 0 < R.

Lemma mod_succ (e : Z) :
  0 <= e ->
  (e + 1) mod R = if e mod R =? R - 1 then 0 else e mod R + 1.
Proof.
  intros He.
  pose proof (Z.div_mod e R ltac:(lia)) as Hdm.
  pose proof (Z.mod_pos_bound e R R_pos) as Hb.
  destruct (Z.eqb_spec (e mod R) (R - 1)) as [E|E].
  - symmetry. apply Z.mod_unique with (q := e / R + 1); lia.
  - symmetry. apply Z.mod_unique with (q := e / R); lia.
Qed.

Lemma div_succ (e : Z) :
  0 <= e ->
  (e + 1) / R = e / R + (if e mod R =? R - 1 then 1 else 0).
Proof.
  intros He.
  pose proof (Z.div_mod e R ltac:(lia)) as Hdm.
  pose proof (Z.mod_pos_bound e R R_pos) as Hb.
  destruct (Z.eqb_spec (e mod R) (R - 1)) as [E|E].
  - symmetry. apply Z.div_unique with (r := 0); lia.
  - symmetry. apply Z.div_unique with (r := e mod R + 1); lia.
Qed.

Lemma onInterval_succ (e : Z) :
  0 <= e -> onInterval R (e + 1) = (e mod R =? R - 1).
Proof.
  intros He. unfold onInterval.
  rewrite Z.rem_mod_nonneg by lia. rewrite mod_succ by assumption.
  pose proof (Z.mod_pos_bound e R R_pos).
  destruct (Z.eqb_spec (e mod R) (R - 1)); lia.
Qed.

(** Among the seconds [e+1 .. e+n], the test holds on
    [(e+n)/R - e/R] of them. *)
Lemma count_onInterval (n : nat) : forall e,
  0 <= e ->
  Z.of_nat (List.length (filter (onInterval R) (upFrom e n)))
  = (e + Z.of_nat n) / R - e / R.
Proof.
  induction n as [|n IH]; intros e He.
  - cbn. replace (e + 0) with e by lia. lia.
  - cbn [upFrom filter]. rewrite onInterval_succ by assumption.
    specialize (IH (e + 1) ltac:(lia)).
    replace (e + Z.of_nat (S n)) with (e + 1 + Z.of_nat n) by lia.
    rewrite (div_succ e He) in IH.
    destruct (Z.eqb_spec (e mod R) (R - 1)); cbn [List.length]; lia.
Qed.

Lemma filter_onInterval_positive (n : nat) : forall e x,
  0 <= e -> In x (filter (onInterval R) (upFrom e n)) ->
  e < x <= e + Z.of_nat n /\ x mod R = 0.
Proof.
  induction n as [|n IH]; intros e x He Hin.
  - destruct Hin.
  - cbn [upFrom filter] in Hin.
    assert (Hrest : In x (filter (onInterval R) (upFrom (e + 1) n)) ->
                    e < x <= e + Z.of_nat (S n) /\ x mod R = 0).
    { intros H. apply IH in H; lia. }
    destruct (onInterval R (e + 1)) eqn:E; [destruct Hin as [<-|Hin]|]; auto.
    split; [lia|].
    unfold onInterval in E. rewrite Z.rem_mod_nonneg in E by lia.
    pose proof (Z.mod_pos_bound (e + 1) R R_pos). lia.
Qed.

End OnInterval.

(** ** The reminders of the worker *)

Section WorkerReminders.

Import Worker WorkerRun.

Lemma callback_reminders now s :
  remindersOf (snd (intervalCallback now s))
  = if reminderDue now s then [duration s - (timeLeft s - 1)] else [].
Proof.
  unfold intervalCallback, reminderDue. cbn [snd].
  rewrite !remindersOf_app.
  repeat match goal with |- context [if ?c then _ else _] => destruct c end;
    reflexivity.
Qed.

Lemma callback_last now s :
  lastNotificationTime (fst (intervalCallback now s))
  = if reminderDue now s then now else lastNotificationTime s.
Proof. reflexivity. Qed.

(** With an interval of six seconds or more and callbacks that never come
    early, the debounce never holds a reminder back. *)
Lemma fires_reminders (ts : list Z) : forall s lb,
  (ts <> [] -> timerId s = true) ->
  Z.of_nat (List.length ts) <= timeLeft s ->
  5 < recurrentTime s ->
  0 <= duration s - timeLeft s ->
  paced lb ts ->
  lastNotificationTime s + 5000
    < lb + 1000 * (recurrentTime s - 1
                   - (duration s - timeLeft s) mod recurrentTime s) ->
  remindersOf (snd (run s (map Fire ts)))
  = filter (onInterval (recurrentTime s))
           (upFrom (duration s - timeLeft s) (List.length ts)).
Proof.
  induction ts as [|now ts IH]; intros s lb Hrun Hlen HR He Hp Hlast.
  - reflexivity.
  - cbn [map]. rewrite run_cons. cbn [step].
    rewrite Hrun by discriminate. cbn [fst snd].
    rewrite remindersOf_app, callback_reminders.
    destruct Hp as [Hlb Hp]. cbn [List.length] in Hlen.
    set (s1 := fst (intervalCallback now s)).
    assert (Htl : timeLeft s1 = timeLeft s - 1) by reflexivity.
    assert (Hd : duration s1 = duration s) by reflexivity.
    assert (Hr : recurrentTime s1 = recurrentTime s) by reflexivity.
    assert (Hrun1 : ts <> [] -> timerId s1 = true).
    { intros Hne. unfold s1. rewrite callback_timerId.
      destruct ts; [congruence|]. cbn [List.length] in Hlen.
      destruct (Z.leb_spec (timeLeft s - 1) 0); [lia|reflexivity]. }
    set (e := duration s - timeLeft s) in *.
    assert (He1 : duration s - (timeLeft s - 1) = e + 1) by (unfold e; lia).
    assert (He1' : duration s1 - timeLeft s1 = e + 1) by (rewrite Htl, Hd; unfold e; lia).
    pose proof (Z.mod_pos_bound e (recurrentTime s) ltac:(lia)) as Hb.
    pose proof (mod_succ (recurrentTime s) ltac:(lia) e He) as Hms.
    pose proof (onInterval_succ (recurrentTime s) ltac:(lia) e He) as Hoi.
    cbn [List.length upFrom filter]. rewrite Hoi.
    assert (Hdue : reminderDue now s = (e mod recurrentTime s =? recurrentTime s - 1)).
    { unfold reminderDue. rewrite He1.
      change (Z.rem (e + 1) (recurrentTime s) <? 1)
        with (onInterval (recurrentTime s) (e + 1)).
      rewrite Hoi.
      destruct (Z.eqb_spec (e mod recurrentTime s) (recurrentTime s - 1)) as [E|E].
      - rewrite E in Hlast.
        replace (0 <? recurrentTime s) with true by (symmetry; apply Z.ltb_lt; lia).
        replace (0 <? e + 1) with true by (symmetry; apply Z.ltb_lt; lia).
        cbn. apply Z.ltb_lt. lia.
      - now rewrite !andb_false_r. }
    rewrite Hdue, He1.
    assert (Hrest : remindersOf (snd (run s1 (map Fire ts)))
                    = filter (onInterval (recurrentTime s))
                             (upFrom (e + 1) (List.length ts))).
    { rewrite <- Hr, <- He1'.
      apply (IH s1 (now + 1000)); try assumption; try lia.
      rewrite He1', Hr, Hms. unfold s1. rewrite callback_last, Hdue.
      destruct (Z.eqb_spec (e mod recurrentTime s) (recurrentTime s - 1)); lia. }
    rewrite Hrest.
    destruct (e mod recurrentTime s =? recurrentTime s - 1); reflexivity.
Qed.

Lemma reminders_debounced (l : list Input) : forall s,
  forallb keepsLastReminder l = true ->
  debounced (lastNotificationTime s) (reminderTimes s l).
Proof.
  induction l as [|i l IH]; intros s Hl.
  - exact I.
  - cbn [forallb] in Hl. apply andb_true_iff in Hl as [Hi Hl].
    cbn [reminderTimes].
    destruct i as [c|now].
    + destruct c; try discriminate; cbn;
        match goal with
        | |- debounced _ (reminderTimes ?s1 _) => exact (IH s1 Hl)
        end.
    + cbn [step]. destruct (timerId s).
      * destruct (intervalCallback now s) as [s1 e1] eqn:E.
        assert (Hs1 : s1 = fst (intervalCallback now s)) by now rewrite E.
        assert (He1 : e1 = snd (intervalCallback now s)) by now rewrite E.
        rewrite He1, callback_reminders.
        pose proof (callback_last now s) as Hl1. rewrite <- Hs1 in Hl1.
        destruct (reminderDue now s) eqn:Hdue.
        -- cbn [debounced]. split.
           ++ unfold reminderDue in Hdue.
              apply andb_true_iff in Hdue as [_ Hdue]. now apply Z.ltb_lt.
           ++ rewrite <- Hl1. exact (IH s1 Hl).
        -- rewrite <- Hl1. exact (IH s1 Hl).
      * cbn. exact (IH s Hl).
Qed.

End WorkerReminders.

(** ** The final minute and the range of the countdown *)

Section WorkerRange.

Import Worker WorkerRun.

Lemma callback_finalMinute_iff now s :
  In finalMinute (snd (intervalCallback now s))
  <-> In (tick 60) (snd (intervalCallback now s)).
Proof.
  unfold intervalCallback. cbn [snd].
  rewrite !in_app_iff.
  destruct (Z.eqb_spec (timeLeft s - 1) 60) as [E|E].
  - rewrite E. cbn. tauto.
  - split; intros H.
    + repeat match goal with
             | H : _ \/ _ |- _ => destruct H
             | H : In _ (if ?c then _ else _) |- _ => destruct c
             | H : In _ [] |- _ => destruct H
             | H : In _ [_] |- _ => destruct H as [H|[]]; try discriminate H
             end.
    + repeat match goal with
             | H : _ \/ _ |- _ => destruct H
             | H : In _ (if ?c then _ else _) |- _ => destruct c
             | H : In _ [] |- _ => destruct H
             | H : In _ [_] |- _ => destruct H as [H|[]]; try discriminate H
             end.
      congruence.
Qed.

Lemma step_finalMinute_iff s i :
  In finalMinute (snd (step s i)) <-> In (tick 60) (snd (step s i)).
Proof.
  destruct i as [c|now]; cbn [step].
  - destruct c; cbn; intuition discriminate.
  - destruct (timerId s); [apply callback_finalMinute_iff|cbn; tauto].
Qed.

Lemma steps_finalMinute_iff (l : list Input) : forall s,
  Forall (fun r => In finalMinute (snd r) <-> In (tick 60) (snd r)) (steps s l).
Proof.
  induction l as [|i l IH]; intros s; cbn [steps].
  - constructor.
  - constructor; [apply step_finalMinute_iff|apply IH].
Qed.

(** The warnings of [n] firings that start with [T] seconds left: one if
    the countdown passes a tick with 60 seconds left, none otherwise. *)
Lemma fires_finalMinute (ts : list Z) : forall s,
  (ts <> [] -> timerId s = true) ->
  Z.of_nat (List.length ts) <= timeLeft s ->
  countFinalMinute (snd (run s (map Fire ts)))
  = if (timeLeft s - Z.of_nat (List.length ts) <=? 60) && (60 <? timeLeft s)
    then 1%nat else 0%nat.
Proof.
  induction ts as [|now ts IH]; intros s Hrun Hlen.
  - cbn. destruct (Z.leb_spec (timeLeft s - 0) 60), (Z.ltb_spec 60 (timeLeft s));
      cbn; try reflexivity; lia.
  - cbn [map]. rewrite run_cons. cbn [step].
    rewrite Hrun by discriminate. cbn [fst snd].
    rewrite countFinalMinute_app, callback_finalMinute.
    cbn [List.length] in *.
    set (s1 := fst (intervalCallback now s)).
    assert (Htl : timeLeft s1 = timeLeft s - 1) by reflexivity.
    rewrite IH; [rewrite Htl| |lia].
    + destruct (Z.eqb_spec (timeLeft s - 1) 60),
        (Z.leb_spec (timeLeft s - 1 - Z.of_nat (List.length ts)) 60),
        (Z.ltb_spec 60 (timeLeft s - 1)),
        (Z.leb_spec (timeLeft s - Z.of_nat (S (List.length ts))) 60),
        (Z.ltb_spec 60 (timeLeft s)); cbn; try reflexivity; lia.
    + intros Hne. unfold s1. rewrite callback_timerId.
      destruct ts; [congruence|]. cbn [List.length] in Hlen.
      destruct (Z.leb_spec (timeLeft s - 1) 0); [lia|reflexivity].
Qed.

End WorkerRange.

Section WorkerInvariant.

Import Worker WorkerRun.

Lemma callback_wellFormed now s :
  wellFormed s -> timerId s = true ->
  wellFormed (fst (intervalCallback now s))
  /\ ticksInRange (intervalCallback now s).
Proof.
  intros [[H0 H1] Hrun] Hid. specialize (Hrun Hid).
  split; [split; [split|]|].
  - rewrite callback_timeLeft. lia.
  - rewrite callback_timeLeft, callback_duration. lia.
  - rewrite callback_timerId, callback_timeLeft.
    destruct (Z.leb_spec (timeLeft s - 1) 0); [discriminate|lia].
  - intros t Hin.
    assert (Ht : In t (ticksOf (snd (intervalCallback now s)))).
    { unfold ticksOf. apply in_flat_map. exists (tick t). split; [assumption|now left]. }
    rewrite callback_ticks in Ht. destruct Ht as [<-|[]].
    rewrite callback_duration. lia.
Qed.

Lemma step_wellFormed s i :
  wellFormed s -> consistent s i = true ->
  wellFormed (fst (step s i)) /\ ticksInRange (step s i).
Proof.
  intros Hwf Hc. destruct i as [c|now].
  - destruct Hwf as [[H0 H1] Hrun].
    destruct c as [d tl r| |nd|d r [tl|]]; cbn in Hc |- *;
      unfold wellFormed, inRange, ticksInRange; cbn;
      repeat match goal with
             | H : _ && _ = true |- _ => apply andb_true_iff in H as [? ?]
             | H : (_ <=? _) = true |- _ => apply Z.leb_le in H
             end.
    all: try destruct (Z.eqb_spec nd 0); cbn.
    all: repeat split; try lia; try discriminate.
    all: try assumption.
    all: try match goal with
             | H : _ \/ False |- _ => destruct H as [H|[]]; discriminate H
             | H : False |- _ => destruct H
             end.
    all: intros; lia.
  - cbn [step]. destruct (timerId s) eqn:Hid.
    + now apply callback_wellFormed.
    + split; [assumption|]. intros t [].
Qed.

Lemma steps_wellFormed (l : list Input) : forall s,
  wellFormed s -> allConsistent s l = true ->
  Forall (fun r => inRange (fst r) /\ ticksInRange r) (steps s l).
Proof.
  induction l as [|i l IH]; intros s Hwf Hl; cbn [steps].
  - constructor.
  - cbn [allConsistent] in Hl. apply andb_true_iff in Hl as [Hi Hl].
    destruct (step_wellFormed s i Hwf Hi) as [Hwf1 Ht].
    constructor.
    + split; [apply Hwf1|exact Ht].
    + apply IH; assumption.
Qed.

End WorkerInvariant.

(** ** The completion latch *)

Section Latch.

Lemma countOnComplete_app (a b : list Effect) :
  countOnComplete (a ++ b) = (countOnComplete a + countOnComplete b)%nat.
Proof. unfold countOnComplete. now rewrite filter_app, length_app. Qed.

Lemma countFinalMinuteRituals_app (a b : list Effect) :
  countFinalMinuteRituals (a ++ b)
  = (countFinalMinuteRituals a + countFinalMinuteRituals b)%nat.
Proof. unfold countFinalMinuteRituals. now rewrite filter_app, length_app. Qed.

(** What one message does to the latch and to the done-callback. *)
Lemma worker_onmessage_latch b p st e :
  let r := WorkerTimer.onmessage b p st e in
  (WorkerTimer.hasCalledOnComplete st = true ->
     WorkerTimer.hasCalledOnComplete (fst r) = true
     /\ countOnComplete (snd r) = 0%nat)
  /\ (WorkerTimer.hasCalledOnComplete st = false ->
      (countOnComplete (snd r) = 0%nat
       /\ WorkerTimer.hasCalledOnComplete (fst r) = false)
      \/ (countOnComplete (snd r) = 1%nat
          /\ WorkerTimer.hasCalledOnComplete (fst r) = true)).
Proof.
  destruct e as [tl|el| | |tl]; cbn -[WorkerTimer.completionSequence
    WorkerTimer.notificationSequence WorkerTimer.finalMinuteSequence countOnComplete].
  - split; intros H; [split|left; split]; auto.
  - change (countOnComplete (AppendNotification ?m :: ?t)) with (countOnComplete t).
    rewrite worker_notificationSequence_onComplete.
    split; intros H; [split|left; split]; auto.
  - change (countOnComplete (AppendNotification ?m :: ?t)) with (countOnComplete t).
    rewrite worker_finalMinuteSequence_onComplete.
    split; intros H; [split|left; split]; auto.
  - unfold WorkerTimer.handleTaskComplete.
    destruct (WorkerTimer.hasCalledOnComplete st) eqn:E; cbn [negb fst snd].
    + split; intros H; [split|discriminate]; auto.
    + change (countOnComplete (AppendNotification ?m :: ?t)) with (countOnComplete t).
      rewrite worker_completionSequence_onComplete.
      split; intros H; [discriminate|right; split]; auto.
  - split; intros H; [split|left; split]; auto.
Qed.

Lemma worker_deliver_latched (l : list (Browser * Worker.Event)) : forall p st,
  WorkerTimer.hasCalledOnComplete st = true ->
  countOnComplete (snd (WorkerTimer.deliver p st l)) = 0%nat.
Proof.
  induction l as [|[b e] l IH]; intros p st H; [reflexivity|].
  cbn [WorkerTimer.deliver].
  destruct (worker_onmessage_latch b p st e) as [H1 _].
  destruct (WorkerTimer.onmessage b p st e) as [s1 t1]. cbn [fst snd] in H1.
  destruct (H1 H) as [Hl Hc].
  specialize (IH p s1 Hl).
  destruct (WorkerTimer.deliver p s1 l) as [s2 t2]. cbn [snd] in *.
  rewrite countOnComplete_app. lia.
Qed.

Lemma worker_deliver_at_most_once (l : list (Browser * Worker.Event)) : forall p st,
  (countOnComplete (snd (WorkerTimer.deliver p st l)) <= 1)%nat.
Proof.
  induction l as [|[b e] l IH]; intros p st; [cbn; lia|].
  cbn [WorkerTimer.deliver].
  destruct (worker_onmessage_latch b p st e) as [H1 H2].
  destruct (WorkerTimer.onmessage b p st e) as [s1 t1]. cbn [fst snd] in H1, H2.
  pose proof (worker_deliver_latched l p s1) as Hlat.
  specialize (IH p s1).
  destruct (WorkerTimer.deliver p s1 l) as [s2 t2]. cbn [snd] in *.
  rewrite countOnComplete_app.
  destruct (WorkerTimer.hasCalledOnComplete st) eqn:E.
  - destruct (H1 eq_refl) as [Hl Hc]. specialize (Hlat Hl). lia.
  - destruct (H2 eq_refl) as [[Hc Hl]|[Hc Hl]]; [lia|].
    specialize (Hlat Hl). lia.
Qed.

(** The latch works the same through the installed handler, which runs
    the rituals of the first render. *)
Lemma installed_latch b p0 st e :
  let r := WorkerTimer.installed b p0 st e in
  (WorkerTimer.hasCalledOnComplete st = true ->
     WorkerTimer.hasCalledOnComplete (fst r) = true
     /\ countOnComplete (snd r) = 0%nat)
  /\ (WorkerTimer.hasCalledOnComplete st = false ->
      (countOnComplete (snd r) = 0%nat
       /\ WorkerTimer.hasCalledOnComplete (fst r) = false)
      \/ (countOnComplete (snd r) = 1%nat
          /\ WorkerTimer.hasCalledOnComplete (fst r) = true)).
Proof.
  destruct e as [tl|el| | |tl]; cbn -[WorkerTimer.completionSequence
    WorkerTimer.notificationSequence WorkerTimer.finalMinuteSequence countOnComplete].
  - split; intros H; [split|left; split]; auto.
  - change (countOnComplete (AppendNotification ?m :: ?t)) with (countOnComplete t).
    rewrite worker_notificationSequence_onComplete.
    split; intros H; [split|left; split]; auto.
  - change (countOnComplete (AppendNotification ?m :: ?t)) with (countOnComplete t).
    rewrite worker_finalMinuteSequence_onComplete.
    split; intros H; [split|left; split]; auto.
  - unfold WorkerTimer.handleTaskComplete.
    destruct (WorkerTimer.hasCalledOnComplete st) eqn:E; cbn [negb fst snd].
    + split; intros H; [split|discriminate]; auto.
    + change (countOnComplete (AppendNotification ?m :: ?t)) with (countOnComplete t).
      rewrite worker_completionSequence_onComplete.
      split; intros H; [discriminate|right; split]; auto.
  - split; intros H; [split|left; split]; auto.
Qed.

Lemma installed_deliver_latched (l : list (Browser * Worker.Event)) : forall p0 st,
  WorkerTimer.hasCalledOnComplete st = true ->
  countOnComplete (snd (WorkerTimer.deliverInstalled p0 st l)) = 0%nat.
Proof.
  induction l as [|[b e] l IH]; intros p0 st H; [reflexivity|].
  cbn [WorkerTimer.deliverInstalled].
  destruct (installed_latch b p0 st e) as [H1 _].
  destruct (WorkerTimer.installed b p0 st e) as [s1 t1]. cbn [fst snd] in H1.
  destruct (H1 H) as [Hl Hc].
  specialize (IH p0 s1 Hl).
  destruct (WorkerTimer.deliverInstalled p0 s1 l) as [s2 t2]. cbn [snd] in *.
  rewrite countOnComplete_app. lia.
Qed.

Lemma installed_deliver_at_most_once (l : list (Browser * Worker.Event)) :
  forall p0 st,
  (countOnComplete (snd (WorkerTimer.deliverInstalled p0 st l)) <= 1)%nat.
Proof.
  induction l as [|[b e] l IH]; intros p0 st; [cbn; lia|].
  cbn [WorkerTimer.deliverInstalled].
  destruct (installed_latch b p0 st e) as [H1 H2].
  destruct (WorkerTimer.installed b p0 st e) as [s1 t1]. cbn [fst snd] in H1, H2.
  pose proof (installed_deliver_latched l p0 s1) as Hlat.
  specialize (IH p0 s1).
  destruct (WorkerTimer.deliverInstalled p0 s1 l) as [s2 t2]. cbn [snd] in *.
  rewrite countOnComplete_app.
  destruct (WorkerTimer.hasCalledOnComplete st) eqn:E.
  - destruct (H1 eq_refl) as [Hl Hc]. specialize (Hlat Hl). lia.
  - destruct (H2 eq_refl) as [[Hc Hl]|[Hc Hl]]; [lia|].
    specialize (Hlat Hl). lia.
Qed.

Lemma interval_tickUpdater_latch now b p st :
  let r := IntervalTimer.tickUpdater now b p st in
  (IntervalTimer.hasCalledOnComplete st = true ->
     IntervalTimer.hasCalledOnComplete (fst r) = true
     /\ countOnComplete (snd r) = 0%nat)
  /\ (IntervalTimer.hasCalledOnComplete st = false ->
      (countOnComplete (snd r) = 0%nat
       /\ IntervalTimer.hasCalledOnComplete (fst r) = false)
      \/ (countOnComplete (snd r) = 1%nat
          /\ IntervalTimer.hasCalledOnComplete (fst r) = true)).
Proof.
  unfold IntervalTimer.tickUpdater.
  destruct (IntervalTimer.timeLeft st <=? 1).
  - destruct (IntervalTimer.hasCalledOnComplete st) eqn:E; cbn [negb fst snd].
    + split; intros H; [split|discriminate]; auto.
    + rewrite interval_completionSequence_onComplete.
      split; intros H; [discriminate|right; split]; auto.
  - cbn [fst snd]. rewrite countOnComplete_app.
    assert (H0 : forall (c : bool) t, countOnComplete t = 0%nat ->
                 countOnComplete (if c then t else []) = 0%nat)
      by (intros [] t Ht; [exact Ht|reflexivity]).
    rewrite !H0
      by (apply interval_notificationSequence_onComplete
          || apply interval_finalMinuteSequence_onComplete).
    split; intros H; [split|left; split]; auto.
Qed.

Lemma interval_updates_latched (l : list (Z * Browser)) : forall p st,
  IntervalTimer.hasCalledOnComplete st = true ->
  countOnComplete (snd (IntervalTimer.updates p st l)) = 0%nat.
Proof.
  induction l as [|[now b] l IH]; intros p st H; [reflexivity|].
  cbn [IntervalTimer.updates].
  destruct (interval_tickUpdater_latch now b p st) as [H1 _].
  destruct (IntervalTimer.tickUpdater now b p st) as [s1 t1]. cbn [fst snd] in H1.
  destruct (H1 H) as [Hl Hc].
  specialize (IH p s1 Hl).
  destruct (IntervalTimer.updates p s1 l) as [s2 t2]. cbn [snd] in *.
  rewrite countOnComplete_app. lia.
Qed.

Lemma interval_updates_at_most_once (l : list (Z * Browser)) : forall p st,
  (countOnComplete (snd (IntervalTimer.updates p st l)) <= 1)%nat.
Proof.
  induction l as [|[now b] l IH]; intros p st; [cbn; lia|].
  cbn [IntervalTimer.updates].
  destruct (interval_tickUpdater_latch now b p st) as [H1 H2].
  destruct (IntervalTimer.tickUpdater now b p st) as [s1 t1]. cbn [fst snd] in H1, H2.
  pose proof (interval_updates_latched l p s1) as Hlat.
  specialize (IH p s1).
  destruct (IntervalTimer.updates p s1 l) as [s2 t2]. cbn [snd] in *.
  rewrite countOnComplete_app.
  destruct (IntervalTimer.hasCalledOnComplete st) eqn:E.
  - destruct (H1 eq_refl) as [Hl Hc]. specialize (Hlat Hl). lia.
  - destruct (H2 eq_refl) as [[Hc Hl]|[Hc Hl]]; [lia|].
    specialize (Hlat Hl). lia.
Qed.

End Latch.

(** ** The countdown of the interval driven Timer *)

Section IntervalCountdown.

Import IntervalTimer.

Lemma interval_completionSequence_finalMinute b p :
  countFinalMinuteRituals (trace (completionSequence b p)) = 0%nat.
Proof. browser_cases b; reflexivity. Qed.

Lemma interval_notificationSequence_finalMinute b p e :
  countFinalMinuteRituals (trace (notificationSequence b p e)) = 0%nat.
Proof. browser_cases b; reflexivity. Qed.

Lemma interval_finalMinuteSequence_finalMinute b p :
  countFinalMinuteRituals (trace (finalMinuteSequence b p)) = 1%nat.
Proof. browser_cases b; reflexivity. Qed.

Lemma tickUpdater_timeLeft now b p st :
  1 <= timeLeft st ->
  timeLeft (fst (tickUpdater now b p st)) = timeLeft st - 1.
Proof.
  intros H. unfold tickUpdater.
  destruct (Z.leb_spec (timeLeft st) 1).
  - destruct (hasCalledOnComplete st); cbn; lia.
  - reflexivity.
Qed.

Lemma tickUpdater_isRunning now b p st :
  isRunning st = true ->
  isRunning (fst (tickUpdater now b p st)) = negb (timeLeft st <=? 1).
Proof.
  intros H. unfold tickUpdater.
  destruct (Z.leb_spec (timeLeft st) 1).
  - destruct (hasCalledOnComplete st); reflexivity.
  - exact H.
Qed.

Lemma tickUpdater_latch now b p st :
  hasCalledOnComplete (fst (tickUpdater now b p st))
  = hasCalledOnComplete st || (timeLeft st <=? 1).
Proof.
  unfold tickUpdater.
  destruct (Z.leb_spec (timeLeft st) 1).
  - destruct (hasCalledOnComplete st); reflexivity.
  - cbn. now rewrite orb_false_r.
Qed.

Lemma tickUpdater_onComplete now b p st :
  countOnComplete (snd (tickUpdater now b p st))
  = if (timeLeft st <=? 1) && negb (hasCalledOnComplete st)
    then 1%nat else 0%nat.
Proof.
  unfold tickUpdater.
  destruct (Z.leb_spec (timeLeft st) 1).
  - destruct (hasCalledOnComplete st); cbn [negb andb fst snd];
      [reflexivity|apply interval_completionSequence_onComplete].
  - cbn [andb fst snd]. rewrite countOnComplete_app.
    repeat match goal with |- context [if ?c then _ else _] => destruct c end;
      rewrite ?interval_notificationSequence_onComplete,
        ?interval_finalMinuteSequence_onComplete; reflexivity.
Qed.

Lemma tickUpdater_finalMinute now b p st :
  countFinalMinuteRituals (snd (tickUpdater now b p st))
  = if timeLeft st =? 60 then 1%nat else 0%nat.
Proof.
  unfold tickUpdater.
  destruct (Z.leb_spec (timeLeft st) 1).
  - destruct (Z.eqb_spec (timeLeft st) 60); [lia|].
    destruct (hasCalledOnComplete st); cbn [negb fst snd];
      [reflexivity|apply interval_completionSequence_finalMinute].
  - cbn [fst snd]. rewrite countFinalMinuteRituals_app.
    repeat match goal with |- context [if ?c then _ else _] => destruct c end;
      rewrite ?interval_notificationSequence_finalMinute,
        ?interval_finalMinuteSequence_finalMinute; reflexivity.
Qed.

(** [n] firings of the interval with at least [n] seconds left. *)
Lemma interval_ticks_countdown (p : TimerProps) (l : list (Z * Browser)) :
  forall st,
  (l <> [] -> isRunning st = true) ->
  Z.of_nat (List.length l) <= timeLeft st ->
  map (fun r => timeLeft (fst r)) (ticks p st l)
    = downFrom (timeLeft st) (List.length l)
  /\ countFinalMinuteRituals (effectsOf (ticks p st l))
     = (if (timeLeft st - Z.of_nat (List.length l) <? 60) && (60 <=? timeLeft st)
        then 1%nat else 0%nat)
  /\ (hasCalledOnComplete st = false ->
      countOnComplete (effectsOf (ticks p st l))
      = if (Z.of_nat (List.length l) =? timeLeft st) && (0 <? timeLeft st)
        then 1%nat else 0%nat).
Proof.
  induction l as [|[now b] l IH]; intros st Hrun Hlen.
  - change (Z.of_nat (List.length (@nil (Z * Browser)))) with 0.
    split; [reflexivity|split].
    + change (countFinalMinuteRituals (effectsOf (ticks p st []))) with 0%nat.
      destruct (Z.ltb_spec (timeLeft st - 0) 60), (Z.leb_spec 60 (timeLeft st));
        cbn [andb]; try reflexivity; lia.
    + intros _.
      change (countOnComplete (effectsOf (ticks p st []))) with 0%nat.
      destruct (Z.eqb_spec 0 (timeLeft st)), (Z.ltb_spec 0 (timeLeft st));
        cbn [andb]; try reflexivity; lia.
  - assert (Hit : intervalTick now b p st = tickUpdater now b p st)
      by (unfold intervalTick; now rewrite Hrun by discriminate).
    cbn [ticks map List.length downFrom fst] in *. rewrite !Hit.
    set (s1 := fst (tickUpdater now b p st)).
    assert (Htl : timeLeft s1 = timeLeft st - 1)
      by (apply tickUpdater_timeLeft; lia).
    assert (Hrun1 : l <> [] -> isRunning s1 = true).
    { intros Hne. unfold s1. rewrite tickUpdater_isRunning by (apply Hrun; discriminate).
      destruct l; [congruence|]. cbn [List.length] in Hlen.
      destruct (Z.leb_spec (timeLeft st) 1); [lia|reflexivity]. }
    destruct (IH s1 Hrun1 ltac:(lia)) as (IH1 & IH2 & IH3).
    unfold effectsOf in *. cbn [map concat snd].
    fold s1. rewrite IH1, Htl.
    rewrite countFinalMinuteRituals_app, countOnComplete_app, IH2, Htl,
      tickUpdater_finalMinute, tickUpdater_onComplete.
    repeat split.
    + destruct (Z.eqb_spec (timeLeft st) 60),
        (Z.ltb_spec (timeLeft st - 1 - Z.of_nat (List.length l)) 60),
        (Z.leb_spec 60 (timeLeft st - 1)),
        (Z.ltb_spec (timeLeft st - Z.of_nat (S (List.length l))) 60),
        (Z.leb_spec 60 (timeLeft st)); cbn; try reflexivity; lia.
    + intros Hlatch. rewrite Hlatch. cbn [negb]. rewrite andb_true_r.
      destruct (Z.leb_spec (timeLeft st) 1).
      * (* the last second: the interval is cleared *)
        destruct l; [|cbn [List.length] in Hlen; lia].
        cbn [List.length ticks map concat] in *.
        change (countOnComplete []) with 0%nat.
        change (Z.of_nat 1) with 1 in *.
        destruct (Z.eqb_spec 1 (timeLeft st)), (Z.ltb_spec 0 (timeLeft st));
          cbn [andb]; try reflexivity; lia.
      * rewrite IH3, Htl.
        -- destruct (Z.eqb_spec (Z.of_nat (List.length l)) (timeLeft st - 1)),
             (Z.ltb_spec 0 (timeLeft st - 1)),
             (Z.eqb_spec (Z.of_nat (S (List.length l))) (timeLeft st)),
             (Z.ltb_spec 0 (timeLeft st)); cbn; try reflexivity; lia.
        -- unfold s1. rewrite tickUpdater_latch, Hlatch.
           destruct (Z.leb_spec (timeLeft st) 1); [lia|reflexivity].
Qed.

End IntervalCountdown.

(** ** The task list *)

Section TaskListLemmas.

Import TaskList.

Variable taskId : string.

Let hasId (t : Task) : bool := String.eqb (id t) taskId.
Let keep (t : Task) : bool := negb (String.eqb (id t) taskId).

Lemma len_nonneg (l : list Task) : 0 <= len l.
Proof. unfold len. lia. Qed.

Lemma len_cons (a : Task) (l : list Task) : len (a :: l) = len l + 1.
Proof. unfold len. cbn [List.length]. lia. Qed.

Lemma get_head (a : Task) (l : list Task) : get (a :: l) 0 = Some a.
Proof. reflexivity. Qed.

Lemma get_tail (a : Task) (l : list Task) (c : Z) :
  0 < c -> get (a :: l) c = get l (c - 1).
Proof.
  intros Hc. unfold get.
  destruct (Z.ltb_spec c 0), (Z.ltb_spec (c - 1) 0); try lia.
  replace (Z.to_nat c) with (S (Z.to_nat (c - 1))) by lia. reflexivity.
Qed.

Lemma findIndex_range (f : Task -> bool) (l : list Task) :
  -1 <= findIndex f l < len l.
Proof.
  induction l as [|a l IH]; [cbn; lia|].
  rewrite len_cons. cbn [findIndex].
  destruct (f a); [pose proof (len_nonneg l); lia|].
  destruct (Z.ltb_spec (findIndex f l) 0); lia.
Qed.

Lemma findIndex_absent (f : Task -> bool) (l : list Task) :
  (forall t, In t l -> f t = false) -> findIndex f l = -1.
Proof.
  induction l as [|a l IH]; intros H; [reflexivity|].
  cbn [findIndex]. rewrite (H a) by now left.
  rewrite IH by (intros t Ht; apply H; now right). reflexivity.
Qed.

Lemma absent_hasId (l : list Task) :
  ~ In taskId (ids l) -> forall t, In t l -> hasId t = false.
Proof.
  intros Hn t Ht. unfold hasId.
  destruct (String.eqb_spec (id t) taskId) as [E|E]; [|reflexivity].
  exfalso. apply Hn. rewrite <- E. unfold ids. now apply in_map.
Qed.

Lemma filter_absent (l : list Task) :
  (forall t, In t l -> hasId t = false) -> filter keep l = l.
Proof.
  induction l as [|a l IH]; intros H; [reflexivity|].
  cbn [filter]. change (keep a) with (negb (hasId a)).
  rewrite (H a) by now left. cbn [negb].
  rewrite IH by (intros t Ht; apply H; now right). reflexivity.
Qed.

(** With unique ids, removing the id found at position [k] closes the
    gap at [k]: the positions before stay, the ones after move down. *)
Lemma filter_found (l : list Task) : forall k,
  NoDup (ids l) -> findIndex hasId l = k -> 0 <= k ->
  len (filter keep l) = len l - 1
  /\ forall c, 0 <= c ->
       get (filter keep l) c = if c <? k then get l c else get l (c + 1).
Proof.
  induction l as [|a l IH]; intros k Hnd Hk Hk0.
  - cbn in Hk. lia.
  - cbn [findIndex] in Hk. cbn [filter].
    change (keep a) with (negb (hasId a)).
    cbn [ids map] in Hnd. apply NoDup_cons_iff in Hnd as [Hna Hnd].
    destruct (hasId a) eqn:Ea; cbn [negb].
    + (* the task is the head *)
      assert (Hid : id a = taskId) by (now apply String.eqb_eq).
      rewrite Hid in Hna.
      rewrite (filter_absent l (absent_hasId l Hna)).
      subst k. split; [rewrite len_cons; lia|].
      intros c Hc. destruct (Z.ltb_spec c 0); [lia|].
      rewrite get_tail by lia. f_equal. lia.
    + destruct (Z.ltb_spec (findIndex hasId l) 0) as [Hneg|Hpos]; [lia|].
      destruct (IH (findIndex hasId l) Hnd eq_refl Hpos) as [IHlen IHget].
      split; [rewrite !len_cons; lia|].
      intros c Hc. subst k.
      destruct (Z.eq_dec c 0) as [->|Hc0].
      * rewrite get_head.
        destruct (Z.ltb_spec 0 (findIndex hasId l + 1)); [reflexivity|lia].
      * rewrite get_tail by lia. rewrite IHget by lia.
        destruct (Z.ltb_spec (c - 1) (findIndex hasId l)),
          (Z.ltb_spec c (findIndex hasId l + 1)); try lia.
        -- now rewrite get_tail by lia.
        -- rewrite (get_tail a l (c + 1)) by lia. f_equal. lia.
Qed.

Lemma removeTask_tasks (s : State) :
  tasks (removeTask taskId s) = filter keep (tasks s).
Proof. reflexivity. Qed.

Lemma removeTask_flag (s : State) :
  allTasksCompleted (removeTask taskId s) = allTasksCompleted s.
Proof. reflexivity. Qed.

Lemma removeTask_index (s : State) (c : Z) :
  currentTaskIndex s = Some c ->
  currentTaskIndex (removeTask taskId s)
  = let k := findIndex hasId (tasks s) in
    if k =? c
    then if 1 <? len (tasks s)
         then if k =? len (tasks s) - 1 then Some 0 else Some c
         else None
    else if k <? c then Some (c - 1) else Some c.
Proof. intros H. unfold removeTask. cbn. now rewrite H. Qed.

(** An id that is not in the list: the list is kept, the index of an
    active task is decremented all the same. *)
Lemma removeTask_absent (s : State) (c : Z) :
  ~ In taskId (ids (tasks s)) ->
  currentTaskIndex s = Some c -> 0 <= c ->
  tasks (removeTask taskId s) = tasks s
  /\ currentTaskIndex (removeTask taskId s) = Some (c - 1).
Proof.
  intros Hn Hc Hc0. split.
  - rewrite removeTask_tasks. apply filter_absent. now apply absent_hasId.
  - rewrite (removeTask_index s c Hc). cbv zeta.
    rewrite (findIndex_absent hasId (tasks s) (absent_hasId _ Hn)).
    destruct (Z.eqb_spec (-1) c); [lia|].
    destruct (Z.ltb_spec (-1) c); [reflexivity|lia].
Qed.

End TaskListLemmas.

Section Sequencing.

Import TaskList.

Lemma len_positive (l : list Task) : l <> [] -> 0 < len l.
Proof.
  destruct l; [congruence|]. intros _. rewrite len_cons.
  pose proof (len_nonneg l). lia.
Qed.

Lemma runState_running (l : list Task) (c : Z) :
  0 < len l -> runState (mkState l (Some c) false) = Running c.
Proof.
  intros H. unfold runState. cbn [allTasksCompleted currentTaskIndex tasks].
  destruct (Z.ltb_spec 0 (len l)); [reflexivity|lia].
Qed.

Lemma render_running (l : list Task) (c : Z) (first : State) (r : list State) :
  0 < len l ->
  Page.render (mkState l (Some c) false) (Some first) r
  = Page.mkPage (mkState l (Some c) false) (Some first) r.
Proof. intros H. unfold Page.render. now rewrite runState_running. Qed.

Lemma started_running (l : list Task) :
  0 < len l ->
  Page.started l
  = Page.mkPage (mkState l (Some 0) false) (Some (mkState l (Some 0) false)) [].
Proof.
  intros H. unfold Page.started, Page.ready, Page.call, Page.render, runState.
  cbn [allTasksCompleted currentTaskIndex Page.taskList Page.mounted
       Page.rituals startTask tasks].
  destruct (Z.ltb_spec 0 (len l)); [reflexivity|lia].
Qed.

(** The announcement of [handleTaskComplete]: one second, then one call of
    [speakText]. *)
Lemma announcement_once (b : Browser) :
  let t := trace (emit (Sleep 1000) ;; Utils.speakText b AllTasksCompleted) in
  List.length (filter isAllTasksAnnouncement t) = 1%nat /\ totalSleep t = 1000.
Proof. browser_cases b; split; reflexivity. Qed.

(** An up to date [handleTaskComplete] moves the sequencer on. *)
Lemma handleTaskComplete_advances (b : Browser) (l : list Task) (c : Z) :
  l <> [] ->
  runState (fst (handleTaskComplete b (mkState l (Some c) false)
                                      (mkState l (Some c) false)))
  = if c =? len l - 1 then AllComplete else Running (c + 1).
Proof.
  intros Hne. unfold handleTaskComplete.
  cbn [currentTaskIndex tasks allTasksCompleted].
  pose proof (len_positive l Hne).
  destruct (Z.ltb_spec 0 (len l)); [|lia].
  destruct (Z.eqb_spec c (len l - 1)); cbn [fst]; [reflexivity|].
  now apply runState_running.
Qed.

(** One run of the active task under the interval driven Timer. *)
Lemma interval_taskRun (b : Browser) (l : list Task) (c : Z) (first : State) :
  0 < len l ->
  Page.taskRun Page.IntervalDriven b
    (Page.mkPage (mkState l (Some c) false) (Some first) [])
  = if c =? len l - 1
    then (Page.mkPage (mkState l None true) None [],
          trace (emit (Sleep 1000) ;; Utils.speakText b AllTasksCompleted))
    else (Page.mkPage (mkState l (Some (c + 1)) false) (Some first) [], []).
Proof.
  intros H. unfold Page.taskRun, Page.countdownEnds, Page.held, Page.onComplete.
  cbn [Page.mounted Page.rituals Page.taskList app].
  unfold handleTaskComplete. cbn [currentTaskIndex tasks allTasksCompleted].
  destruct (Z.ltb_spec 0 (len l)); [|lia].
  destruct (Z.eqb_spec c (len l - 1)); cbn [fst snd].
  - reflexivity.
  - now rewrite render_running.
Qed.

Lemma interval_runs (b : Browser) (n : nat) : forall l c first,
  0 <= c -> c + Z.of_nat n = len l ->
  let pg := Page.mkPage (mkState l (Some c) false) (Some first) [] in
  Page.runStates Page.IntervalDriven b n pg = map Running (upFrom (c - 1) n)
  /\ (n <> 0%nat ->
      Page.taskRuns Page.IntervalDriven b n pg
      = (Page.mkPage (mkState l None true) None [],
         trace (emit (Sleep 1000) ;; Utils.speakText b AllTasksCompleted))).
Proof.
  induction n as [|n IH]; intros l c first Hc Hn pg.
  - split; [reflexivity|congruence].
  - unfold pg. cbn [Page.runStates Page.taskRuns upFrom map].
    replace (c - 1 + 1) with c by lia.
    rewrite interval_taskRun by lia.
    cbn [Page.taskList]. rewrite runState_running by lia.
    destruct (Z.eqb_spec c (len l - 1)) as [E|E]; cbn [fst snd].
    + assert (n = 0%nat) by lia. subst n. split; [reflexivity|].
      intros _. cbn [Page.taskRuns fst snd]. now rewrite app_nil_r.
    + destruct (IH l (c + 1) first ltac:(lia) ltac:(lia)) as [IH1 IH2].
      replace (c + 1 - 1) with c in IH1 by lia.
      rewrite IH1. split; [reflexivity|].
      intros _. rewrite IH2 by lia. reflexivity.
Qed.

(** Before the last task the runs are silent. *)
Lemma interval_runs_before (b : Browser) (n : nat) : forall l c first,
  0 <= c -> c + Z.of_nat n < len l ->
  Page.taskRuns Page.IntervalDriven b n
    (Page.mkPage (mkState l (Some c) false) (Some first) [])
  = (Page.mkPage (mkState l (Some (c + Z.of_nat n)) false) (Some first) [], []).
Proof.
  induction n as [|n IH]; intros l c first Hc Hn.
  - cbn [Page.taskRuns]. now replace (c + Z.of_nat 0) with c by lia.
  - cbn [Page.taskRuns]. rewrite interval_taskRun by lia.
    destruct (Z.eqb_spec c (len l - 1)) as [E|E]; [lia|]. cbn [fst snd].
    rewrite IH by lia. cbn [fst snd app].
    now replace (c + 1 + Z.of_nat n) with (c + Z.of_nat (S n)) by lia.
Qed.

(** One run of the active task under the worker driven Timer that the
    render of [startTask(0)] mounted, in a list of two tasks or more: its
    [onComplete] sets the index [1], whatever the active index is. *)
Lemma worker_taskRun (b : Browser) (l : list Task) (c : Z) :
  2 <= len l ->
  let first := mkState l (Some 0) false in
  Page.taskRun Page.WorkerDriven b
    (Page.mkPage (mkState l (Some c) false) (Some first) [])
  = (Page.mkPage (mkState l (Some 1) false) (Some first) [], []).
Proof.
  intros H first. unfold Page.taskRun, Page.countdownEnds, Page.held, Page.onComplete.
  cbn [Page.mounted Page.rituals Page.taskList app].
  unfold handleTaskComplete, first. cbn [currentTaskIndex tasks allTasksCompleted].
  destruct (Z.ltb_spec 0 (len l)); [|lia].
  destruct (Z.eqb_spec 0 (len l - 1)); [lia|]. cbn [fst snd Z.add].
  now rewrite render_running by lia.
Qed.

Lemma worker_runs (b : Browser) (l : list Task) (n : nat) : forall c,
  2 <= len l ->
  let first := mkState l (Some 0) false in
  let pg := Page.mkPage (mkState l (Some c) false) (Some first) [] in
  Page.runStates Page.WorkerDriven b (S n) pg = Running c :: repeat (Running 1) n
  /\ Page.taskRuns Page.WorkerDriven b (S n) pg
     = (Page.mkPage (mkState l (Some 1) false) (Some first) [], []).
Proof.
  induction n as [|n IH]; intros c H first pg; subst pg first.
  - cbn [Page.runStates Page.taskRuns repeat Page.taskList].
    rewrite runState_running by lia.
    rewrite (worker_taskRun b l c H). cbn [fst snd app]. split; reflexivity.
  - destruct (IH 1 H) as [IH1 IH2].
    change (Page.runStates Page.WorkerDriven b (S (S n)) ?q)
      with (runState (Page.taskList q)
              :: Page.runStates Page.WorkerDriven b (S n)
                   (fst (Page.taskRun Page.WorkerDriven b q))).
    change (Page.taskRuns Page.WorkerDriven b (S (S n)) ?q)
      with (let r := Page.taskRun Page.WorkerDriven b q in
            let r' := Page.taskRuns Page.WorkerDriven b (S n) (fst r) in
            (fst r', snd r ++ snd r')).
    cbv zeta. rewrite (worker_taskRun b l c H). cbn [fst snd Page.taskList].
    rewrite runState_running by lia.
    rewrite IH1, IH2. cbn [fst snd app repeat]. split; reflexivity.
Qed.

(** Without a Timer and without a ritual in flight nothing ends. *)
Lemma taskRuns_unmounted (kind : Page.TimerKind) (b : Browser) (n : nat)
    (s : State) :
  Page.taskRuns kind b n (Page.mkPage s None []) = (Page.mkPage s None [], []).
Proof.
  induction n as [|n IH]; [reflexivity|].
  cbn [Page.taskRuns]. unfold Page.taskRun, Page.countdownEnds, Page.onComplete.
  cbn [Page.mounted Page.rituals fst snd]. rewrite IH. reflexivity.
Qed.

(** A list of one task: the first [onComplete] is up to date. *)
Lemma worker_single_task (b : Browser) (t : Task) :
  Page.taskRun Page.WorkerDriven b (Page.started [t])
  = (Page.mkPage (mkState [t] None true) None [],
     trace (emit (Sleep 1000) ;; Utils.speakText b AllTasksCompleted)).
Proof. reflexivity. Qed.

End Sequencing.

(** ** What the rituals deliver *)

Section RitualDelivery.

Lemma worker_notificationSequence_delivery b p v n m :
  let t := trace (WorkerTimer.notificationSequence b p v n m) in
  existsb isShowNotification t = negb v && n
  /\ existsb isSpeakText t = v
  /\ spokenOnlyAfterDelay t = true
  /\ existsb isRaised t
     = negb v && n && Notifications.canShowNotifications b
       && negb (notificationThrows b).
Proof. browser_cases b; destruct v, n; vm_compute; intuition discriminate. Qed.

Lemma worker_finalMinuteSequence_delivery b p v n m :
  let t := trace (WorkerTimer.finalMinuteSequence b p v n m) in
  existsb isShowNotification t = negb v && n
  /\ existsb isSpeakText t = v
  /\ spokenOnlyAfterDelay t = true
  /\ existsb isRaised t
     = negb v && n && Notifications.canShowNotifications b
       && negb (notificationThrows b).
Proof. browser_cases b; destruct v, n; vm_compute; intuition discriminate. Qed.

Lemma worker_completionSequence_delivery b p v n :
  let t := trace (WorkerTimer.completionSequence b p v n) in
  existsb isShowNotification t = negb v && n
  /\ existsb isSpeakText t = v
  /\ spokenOnlyAfterDelay t = true
  /\ existsb isRaised t
     = negb v && n && Notifications.canShowNotifications b
       && negb (notificationThrows b).
Proof. browser_cases b; destruct v, n; vm_compute; intuition discriminate. Qed.

Lemma interval_rituals_delivery b p e :
  let t1 := trace (IntervalTimer.notificationSequence b p e) in
  let t2 := trace (IntervalTimer.finalMinuteSequence b p) in
  let t3 := trace (IntervalTimer.completionSequence b p) in
  (existsb isShowNotification t1 = false /\ existsb isSpeakText t1 = true
   /\ spokenOnlyAfterDelay t1 = true)
  /\ (existsb isShowNotification t2 = false /\ existsb isSpeakText t2 = true
      /\ spokenOnlyAfterDelay t2 = true)
  /\ (existsb isShowNotification t3 = false /\ existsb isSpeakText t3 = true
      /\ spokenOnlyAfterDelay t3 = true).
Proof. browser_cases b; vm_compute; intuition discriminate. Qed.

Lemma worker_completionSequence_last b p v n :
  last (trace (WorkerTimer.completionSequence b p v n)) ConsoleError = OnComplete.
Proof. browser_cases b; destruct v, n; reflexivity. Qed.

Lemma interval_completionSequence_last b p :
  last (trace (IntervalTimer.completionSequence b p)) ConsoleError = OnComplete.
Proof. browser_cases b; reflexivity. Qed.

End RitualDelivery.

Lemma downFrom_length (n : nat) : forall D, List.length (downFrom D n) = n.
Proof. induction n as [|n IH]; intros D; cbn; [reflexivity|now rewrite IH]. Qed.

Lemma downFrom_nth (n : nat) : forall D k,
  (k < n)%nat -> nth k (downFrom D n) 0 = D - 1 - Z.of_nat k.
Proof.
  induction n as [|n IH]; intros D k Hk; [lia|].
  destruct k as [|k]; cbn [downFrom nth]; [cbn; lia|].
  rewrite IH by lia. lia.
Qed.

Lemma debounced_separated (ts : list Z) : forall last,
  debounced last ts -> separated ts.
Proof. destruct ts as [|t ts]; intros last H; [exact I|apply H]. Qed.

(** ** The scenarios of the specification *)

(** 70 seconds with a reminder every 30 seconds: the warning comes with
    the tick that leaves 60 seconds, ten seconds in, and the reminders at
    30 and 60 elapsed seconds. *)
Example scenario_70_30 :
  let evs := snd (Worker.countdown Worker.init 70 30 (everySecond 10000 70)) in
  Worker.remindersOf evs = [30; 60]
  /\ Worker.countFinalMinute evs = 1%nat
  /\ firstn 4 (skipn 9 evs)
     = [Worker.finalMinute; Worker.tick 60; Worker.tick 59; Worker.tick 58].
Proof. vm_compute. repeat split. Qed.

(** The completion ritual of a render with [isVisible = true] and
    [notificationsEnabled = false], such as the first one, on a visible
    page without permission: the sound, no notification, the speech after
    five seconds, the done signal three seconds later. *)
Example scenario_completion_visible_denied :
  trace (WorkerTimer.completionSequence
           (mkBrowser false true false true denied false true false true)
           shower true false)
  = [PlaySound Sounds.GUITAR_SOUND played; Sleep 5000;
     SpeakText (ShouldBeCompleted "Shower") spoken; Sleep 3000; OnComplete].
Proof. reflexivity. Qed.

(** The completion ritual of a render that holds both flags [true], when
    the speech synthesis throws: the error is logged and the done signal
    is given by the handler of the error. *)
Example scenario_completion_speech_throws :
  trace (WorkerTimer.completionSequence
           (mkBrowser false true false true granted false true true true)
           shower true true)
  = [PlaySound Sounds.GUITAR_SOUND played; Sleep 5000;
     SpeakText (ShouldBeCompleted "Shower") speakThrew; ConsoleError;
     OnComplete].
Proof. reflexivity. Qed.

(** The completion ritual of a render with [isVisible = false] and
    [notificationsEnabled = true], in a background tab with permission:
    the sound call (skipped without focus), the notification, no speech.
    This is the ritual of a later render; the handler that the component
    installs runs the one of the first render. *)
Example scenario_completion_background :
  trace (WorkerTimer.completionSequence background shower false true)
  = [PlaySound Sounds.GUITAR_SOUND notFocused;
     ShowNotification (Completed "Shower") MovingToNext raised;
     Sleep 5000; Sleep 3000; OnComplete].
Proof. reflexivity. Qed.

(** * The properties of the engine *)

(** C1.  In one task activation the completion handler calls the
    done-callback [onComplete] at most once, whatever the messages of the
    worker and however often [complete] is delivered: the latch
    [hasCalledOnComplete] makes a second delivery do nothing.  This holds
    for the handler of the worker driven Timer and for the updater of the
    interval driven Timer. *)
Theorem completion_latch_at_most_once :
  (forall p st l,
     (countOnComplete
        (snd (WorkerTimer.deliver p (WorkerTimer.activate p st) l)) <= 1)%nat)
  /\ (forall p st b1 b2,
        let r1 := WorkerTimer.onmessage b1 p (WorkerTimer.activate p st)
                    Worker.complete in
        countOnComplete (snd r1) = 1%nat
        /\ WorkerTimer.onmessage b2 p (fst r1) Worker.complete = (fst r1, []))
  /\ (forall p st l,
        (countOnComplete
           (snd (IntervalTimer.updates p (IntervalTimer.activate p st) l)) <= 1)%nat)
  /\ (forall p last now1 b1 now2 b2,
        let r1 := IntervalTimer.tickUpdater now1 b1 p
                    (IntervalTimer.mkState 1 true last false) in
        countOnComplete (snd r1) = 1%nat
        /\ IntervalTimer.tickUpdater now2 b2 p (fst r1) = (fst r1, [])).
Proof.
  split; [|split; [|split]].
  - intros p st l. apply worker_deliver_at_most_once.
  - intros p st b1 b2. cbv zeta. split.
    + cbn -[WorkerTimer.completionSequence countOnComplete].
      change (countOnComplete (AppendNotification ?m :: ?t)) with (countOnComplete t).
      apply worker_completionSequence_onComplete.
    + reflexivity.
  - intros p st l. apply interval_updates_at_most_once.
  - intros p last now1 b1 now2 b2. cbv zeta. split.
    + cbn -[IntervalTimer.completionSequence countOnComplete].
      apply interval_completionSequence_onComplete.
    + reflexivity.
Qed.

(** C2.  A task of duration [D > 0] started with [timeLeft = D]: the
    worker posts exactly [D] ticks, with [timeLeft] going down from [D-1]
    to [0], and then [complete], once and last, and stops.  For duration 5
    and reminder interval 0 the events are the ticks 4, 3, 2, 1, 0 and
    [complete], with no reminder.  The interval driven Timer goes through
    the same values of [timeLeft] and starts its completion sequence
    once. *)
Theorem countdown_ticks (D R : Z) (s : Worker.State) (ts : list Z)
    (p : TimerProps) (st : IntervalTimer.State) (l : list (Z * Browser)) :
  0 < D ->
  Z.of_nat (List.length ts) = D ->
  duration p = D ->
  Z.of_nat (List.length l) = D ->
  let r := Worker.countdown s D R ts in
  Worker.ticksOf (snd r) = downFrom D (Z.to_nat D)
  /\ List.length (Worker.ticksOf (snd r)) = Z.to_nat D
  /\ (forall k, (k < Z.to_nat D)%nat ->
      nth k (Worker.ticksOf (snd r)) 0 = D - 1 - Z.of_nat k)
  /\ (exists evs, snd r = evs ++ [Worker.complete]
                  /\ Worker.countComplete evs = 0%nat)
  /\ Worker.timerId (fst r) = false
  /\ (D = 5 -> R = 0 ->
      snd r = [Worker.tick 4; Worker.tick 3; Worker.tick 2; Worker.tick 1;
               Worker.tick 0; Worker.complete])
  /\ (let steps := IntervalTimer.ticks p (IntervalTimer.activate p st) l in
      map (fun x => IntervalTimer.timeLeft (fst x)) steps = downFrom D (Z.to_nat D)
      /\ countOnComplete (effectsOf steps) = 1%nat).
Proof.
  intros HD Hts Hp Hl r.
  assert (Hn : List.length ts = Z.to_nat D) by lia.
  set (s0 := fst (Worker.step s (Worker.Msg (Worker.start D D R)))).
  assert (Hr : r = (fst (Worker.run s0 (map Worker.Fire ts)),
                    snd (Worker.run s0 (map Worker.Fire ts)))).
  { unfold r, Worker.countdown. rewrite run_cons. reflexivity. }
  assert (Hne : ts <> []) by (destruct ts; [cbn in Hts; lia|discriminate]).
  destruct (fires_countdown ts s0 eq_refl ltac:(cbn; lia))
    as (H1 & H2 & H3 & H4 & H5).
  change (Worker.timeLeft s0) with D in *.
  destruct (H5 Hts Hne) as [Hid Hev].
  rewrite Hr. cbn [fst snd].
  split; [now rewrite H1, Hn|].
  split; [rewrite H1, Hn; apply downFrom_length|].
  split; [intros k Hk; rewrite H1, Hn; now apply downFrom_nth|].
  split; [exact Hev|]. split; [exact Hid|]. split.
  - intros -> ->.
    do 6 (destruct ts as [|? ts]; try (cbn in Hts; lia)).
    reflexivity.
  - cbv zeta.
    assert (Hn' : List.length l = Z.to_nat D) by lia.
    destruct (interval_ticks_countdown p l (IntervalTimer.activate p st)
                (fun _ => eq_refl) ltac:(cbn; lia)) as (I1 & _ & I3).
    change (IntervalTimer.timeLeft (IntervalTimer.activate p st))
      with (duration p) in *.
    rewrite I1, Hp, Hn'. split; [reflexivity|].
    rewrite (I3 eq_refl), Hp, Hl.
    destruct (Z.eqb_spec D D), (Z.ltb_spec 0 D); cbn; try reflexivity; lia.
Qed.

(** A run of C2: five seconds, no reminder interval. *)
Lemma countdown_ticks_witness :
  snd (Worker.countdown Worker.init 5 0 (everySecond 1000 5))
  = [Worker.tick 4; Worker.tick 3; Worker.tick 2; Worker.tick 1;
     Worker.tick 0; Worker.complete].
Proof.
  apply (countdown_ticks 5 0 Worker.init (everySecond 1000 5)
           (mkProps "Shower" 5 0 "guitar" "guitar")
           (IntervalTimer.mkState 0 false 0 false)
           (map (fun t => (t, foreground)) (everySecond 1000 5)));
    reflexivity.
Defined.

(** C3, as stated, fails: with a reminder interval of 2 seconds and a
    duration of 10 seconds, ticks one second apart, the debounce lets only
    two reminders through, not [10 / 2 = 5]. *)
Lemma reminder_count_counterexample :
  Z.of_nat (List.length (Worker.remindersOf
              (snd (Worker.countdown Worker.init 10 2 (everySecond 10000 10)))))
  <> 10 / 2.
Proof. vm_compute. discriminate. Qed.

(** C3, amended.  For a task of duration [D] and a reminder interval
    [R >= 6], with interval callbacks that never come early and a first
    callback more than five seconds after the last reminder before the
    countdown, the worker posts a reminder at exactly the elapsed seconds
    [1 .. D] that are multiples of [R] (none at elapsed [0]), which makes
    [D / R] reminders.  For every interval and any timing, two consecutive
    reminders of a countdown are more than 5000 ms apart. *)
Theorem reminders_every_interval :
  (forall (D R : Z) (s : Worker.State) (lb : Z) (ts : list Z),
     0 < D -> 5 < R ->
     Z.of_nat (List.length ts) = D ->
     paced lb ts ->
     Worker.lastNotificationTime s + 5000 < lb ->
     let evs := snd (Worker.countdown s D R ts) in
     Worker.remindersOf evs = filter (onInterval R) (upFrom 0 (Z.to_nat D))
     /\ Z.of_nat (List.length (Worker.remindersOf evs)) = D / R
     /\ (forall x, In x (Worker.remindersOf evs) -> 0 < x <= D /\ x mod R = 0))
  /\ (forall (D R : Z) (s : Worker.State) (ts : list Z),
        separated (Worker.reminderTimes s
                     (Worker.Msg (Worker.start D D R) :: map Worker.Fire ts))).
Proof.
  split.
  - intros D R s lb ts HD HR Hts Hp Hlast evs.
    set (s0 := fst (Worker.step s (Worker.Msg (Worker.start D D R)))).
    assert (Hev : evs = snd (Worker.run s0 (map Worker.Fire ts))).
    { unfold evs, Worker.countdown. rewrite run_cons. reflexivity. }
    assert (Hrem : Worker.remindersOf evs
                   = filter (onInterval R) (upFrom 0 (List.length ts))).
    { pose proof (fires_reminders ts s0 lb) as Hf.
      change (Worker.timerId s0) with true in Hf.
      change (Worker.timeLeft s0) with D in Hf.
      change (Worker.duration s0) with D in Hf.
      change (Worker.recurrentTime s0) with R in Hf.
      change (Worker.lastNotificationTime s0)
        with (Worker.lastNotificationTime s) in Hf.
      replace (D - D) with 0 in Hf by lia.
      rewrite Z.mod_0_l in Hf by lia.
      rewrite Hev. apply Hf; try lia; auto. }
    assert (Hn : List.length ts = Z.to_nat D) by lia.
    rewrite Hrem, Hn. split; [reflexivity|split].
    + rewrite (count_onInterval R ltac:(lia) (Z.to_nat D) 0 ltac:(lia)).
      rewrite Z2Nat.id by lia. rewrite Z.div_0_l by lia.
      now rewrite Z.add_0_l, Z.sub_0_r.
    + intros x Hx.
      apply (filter_onInterval_positive R ltac:(lia)) in Hx; [|lia].
      rewrite Z2Nat.id in Hx by lia. lia.
  - intros D R s ts.
    apply (debounced_separated _ (Worker.lastNotificationTime s)).
    apply reminders_debounced.
    cbn [forallb WorkerRun.keepsLastReminder andb].
    induction ts as [|t ts IH]; [reflexivity|exact IH].
Qed.

(** A run of C3: 70 seconds with a reminder every 30 seconds gives the
    reminders at 30 and 60 elapsed seconds. *)
Lemma reminders_every_interval_witness :
  Worker.remindersOf
    (snd (Worker.countdown Worker.init 70 30 (everySecond 10000 70)))
  = filter (onInterval 30) (upFrom 0 (Z.to_nat 70)).
Proof.
  apply (proj1 reminders_every_interval 70 30 Worker.init 10000
           (everySecond 10000 70)); try reflexivity.
  cbn. repeat split; lia.
Defined.

(** C4, as stated, fails: a countdown of exactly 60 seconds is not
    shorter than 60 seconds, and the worker posts no final-minute warning
    in it, because the first [timeLeft] it checks is 59. *)
Lemma final_minute_counterexample :
  Worker.countFinalMinute
    (snd (Worker.countdown Worker.init 60 0 (everySecond 1000 60))) = 0%nat
  /\ ~ (60 < 60).
Proof. split; [vm_compute; reflexivity|lia]. Qed.

(** C4, amended.  The worker posts the final-minute warning in the very
    callbacks that post a tick with [timeLeft = 60]; a countdown of
    duration [D] has exactly one warning when [D > 60] and none when
    [D <= 60].  The interval driven Timer runs its final-minute ritual on
    the tick that finds [timeLeft = 60]: once when [D >= 60], never when
    [D < 60]. *)
Theorem final_minute_once (D R : Z) (s : Worker.State) (ts : list Z)
    (p : TimerProps) (st : IntervalTimer.State) (l : list (Z * Browser)) :
  Z.of_nat (List.length ts) = D ->
  duration p = D ->
  Z.of_nat (List.length l) = D ->
  let inputs := Worker.Msg (Worker.start D D R) :: map Worker.Fire ts in
  let n := Worker.countFinalMinute (snd (Worker.countdown s D R ts)) in
  let m := countFinalMinuteRituals
             (effectsOf (IntervalTimer.ticks p (IntervalTimer.activate p st) l)) in
  Forall (fun r => In Worker.finalMinute (snd r) <-> In (Worker.tick 60) (snd r))
         (Worker.steps s inputs)
  /\ (60 < D -> n = 1%nat)
  /\ (D <= 60 -> n = 0%nat)
  /\ (60 <= D -> m = 1%nat)
  /\ (D < 60 -> m = 0%nat)
  /\ (forall now b st',
        countFinalMinuteRituals (snd (IntervalTimer.tickUpdater now b p st'))
        = if IntervalTimer.timeLeft st' =? 60 then 1%nat else 0%nat).
Proof.
  intros Hts Hp Hl inputs n m.
  split; [apply steps_finalMinute_iff|].
  set (s0 := fst (Worker.step s (Worker.Msg (Worker.start D D R)))).
  assert (Hn : n = if (D - Z.of_nat (List.length ts) <=? 60) && (60 <? D)
                   then 1%nat else 0%nat).
  { assert (Hrun : snd (Worker.countdown s D R ts)
                   = snd (Worker.run s0 (map Worker.Fire ts)))
      by (unfold Worker.countdown; rewrite run_cons; reflexivity).
    unfold n. rewrite Hrun.
    rewrite (fires_finalMinute ts s0 (fun _ => eq_refl)); [reflexivity|].
    cbn. lia. }
  destruct (interval_ticks_countdown p l (IntervalTimer.activate p st)
              (fun _ => eq_refl) ltac:(cbn; lia)) as (_ & Hm & _).
  change (IntervalTimer.timeLeft (IntervalTimer.activate p st))
    with (duration p) in Hm.
  fold m in Hm. rewrite Hp, Hl in Hm. rewrite Hts in Hn.
  destruct (Z.leb_spec (D - D) 60), (Z.ltb_spec 60 D), (Z.ltb_spec (D - D) 60),
    (Z.leb_spec 60 D); cbn [andb] in Hn, Hm;
    (repeat split; try lia; try assumption;
     try (intros; apply tickUpdater_finalMinute)).
Qed.

(** A run of C4: in 61 seconds the warning is posted once. *)
Lemma final_minute_once_witness :
  Worker.countFinalMinute
    (snd (Worker.countdown Worker.init 61 0 (everySecond 1000 61))) = 1%nat.
Proof.
  refine (proj1 (proj2 (final_minute_once 61 0 Worker.init (everySecond 1000 61)
                          (mkProps "Shower" 61 0 "guitar" "guitar")
                          (IntervalTimer.mkState 0 false 0 false)
                          (map (fun t => (t, foreground)) (everySecond 1000 61))
                          _ _ _)) _);
    vm_compute; reflexivity.
Defined.

(** C5.  A list of [N >= 1] tasks started at index 0, each active task
    running to its end, one after the other.  Under the interval driven
    Timer the run states found by the [N] completions are [Running 0],
    [Running 1], ..., [Running (N-1)], and the [N]-th leaves the run state
    [AllComplete], with no active index.  Under the worker driven Timer
    this holds for a list of one task only: the Timer calls the
    [onComplete] of its first render, so with two tasks or more the first
    completion moves the index to 1 and every later one sets it to 1
    again; the run states are [Running 0], [Running 1], [Running 1], ...,
    and the list is never completed. *)
Theorem sequencer_run_by_timer (b : Browser) (l : list TaskList.Task) :
  l <> [] ->
  let N := List.length l in
  let allComplete := Page.mkPage (TaskList.mkState l None true) None [] in
  (Page.runStates Page.IntervalDriven b N (Page.started l)
   = map TaskList.Running (upFrom (-1) N)
   /\ fst (Page.taskRuns Page.IntervalDriven b N (Page.started l)) = allComplete
   /\ TaskList.runState (Page.taskList allComplete) = TaskList.AllComplete)
  /\ (N = 1%nat ->
      fst (Page.taskRuns Page.WorkerDriven b N (Page.started l)) = allComplete)
  /\ ((2 <= N)%nat ->
      forall k : nat,
        Page.runStates Page.WorkerDriven b (S k) (Page.started l)
        = TaskList.Running 0 :: repeat (TaskList.Running 1) k
        /\ TaskList.runState
             (Page.taskList
                (fst (Page.taskRuns Page.WorkerDriven b (S k) (Page.started l))))
           = TaskList.Running 1).
Proof.
  intros Hne N allComplete.
  pose proof (len_positive l Hne) as Hlen.
  assert (HN : N <> 0%nat) by (unfold N; destruct l; [congruence|discriminate]).
  rewrite (started_running l Hlen).
  split; [|split].
  - destruct (interval_runs b N l 0 (TaskList.mkState l (Some 0) false)
                ltac:(lia) ltac:(unfold TaskList.len; lia)) as [H1 H2].
    split; [exact H1|]. rewrite (H2 HN). split; reflexivity.
  - intros H1. unfold N in H1.
    destruct l as [|t [|t' l']]; [congruence|reflexivity|discriminate H1].
  - intros H2 k.
    assert (Hl : 2 <= TaskList.len l) by (unfold TaskList.len; lia).
    destruct (worker_runs b l k 0 Hl) as [R1 R2].
    split; [exact R1|]. rewrite R2. cbn [fst Page.taskList].
    apply runState_running. lia.
Qed.

(** A run of C5: three tasks under the worker driven Timer, each run to
    its end; the third completion finds the second task active and leaves
    it active. *)
Lemma sequencer_run_by_timer_witness :
  Page.runStates Page.WorkerDriven foreground 3 (Page.started [taskA; taskB; taskC])
  = [TaskList.Running 0; TaskList.Running 1; TaskList.Running 1]
  /\ TaskList.runState
       (Page.taskList
          (fst (Page.taskRuns Page.WorkerDriven foreground 3
                  (Page.started [taskA; taskB; taskC]))))
     = TaskList.Running 1.
Proof.
  refine (proj2 (proj2 (sequencer_run_by_timer foreground [taskA; taskB; taskC] _))
            _ 2%nat).
  - discriminate.
  - cbn. lia.
Defined.

(** C6.  [removeTask(id)] on a list with unique ids, an active task at
    index [c] and the task [id] at position [k]: the list loses exactly
    that task.  If it was the active task and not the last, the index is
    kept, it now selects the task that followed, and the run state stays
    [Running c]; if it was the active task and the last of several, the
    index wraps to 0; if the list becomes empty the run state is [Idle];
    if it stood before the active task, the index is decremented and still
    selects the same task. *)
Theorem removeTask_reselects (taskId : string) (l : list TaskList.Task)
    (c k : Z) :
  NoDup (TaskList.ids l) ->
  0 <= c < TaskList.len l ->
  TaskList.findIndex (fun t => String.eqb (TaskList.id t) taskId) l = k ->
  0 <= k ->
  let s := TaskList.mkState l (Some c) false in
  let s' := TaskList.removeTask taskId s in
  TaskList.tasks s'
    = filter (fun t => negb (String.eqb (TaskList.id t) taskId)) l
  /\ ~ In taskId (TaskList.ids (TaskList.tasks s'))
  /\ TaskList.len (TaskList.tasks s') = TaskList.len l - 1
  /\ (k = c -> c < TaskList.len l - 1 ->
      TaskList.currentTaskIndex s' = Some c
      /\ TaskList.runState s' = TaskList.Running c
      /\ TaskList.get (TaskList.tasks s') c = TaskList.get l (c + 1))
  /\ (k = c -> c = TaskList.len l - 1 -> 1 < TaskList.len l ->
      TaskList.currentTaskIndex s' = Some 0
      /\ TaskList.runState s' = TaskList.Running 0)
  /\ (TaskList.tasks s' = [] -> TaskList.runState s' = TaskList.Idle)
  /\ (TaskList.len l = 1 ->
      TaskList.tasks s' = [] /\ TaskList.currentTaskIndex s' = None)
  /\ (k < c ->
      TaskList.currentTaskIndex s' = Some (c - 1)
      /\ TaskList.runState s' = TaskList.Running (c - 1)
      /\ TaskList.get (TaskList.tasks s') (c - 1) = TaskList.get l c).
Proof.
  intros Hnd Hc Hk Hk0 s s'.
  destruct (filter_found taskId l k Hnd Hk Hk0) as [Hlen Hget].
  pose proof (findIndex_range (fun t => String.eqb (TaskList.id t) taskId) l) as Hr.
  rewrite Hk in Hr.
  assert (Htasks : TaskList.tasks s'
                   = filter (fun t => negb (String.eqb (TaskList.id t) taskId)) l)
    by reflexivity.
  assert (Hidx : TaskList.currentTaskIndex s'
                 = if k =? c
                   then if 1 <? TaskList.len l
                        then if k =? TaskList.len l - 1 then Some 0 else Some c
                        else None
                   else if k <? c then Some (c - 1) else Some c).
  { unfold s'. rewrite (removeTask_index taskId s c eq_refl). cbv zeta.
    cbn [TaskList.tasks s]. now rewrite Hk. }
  assert (Hrs : forall i, TaskList.currentTaskIndex s' = Some i ->
                1 < TaskList.len l -> TaskList.runState s' = TaskList.Running i).
  { intros i Hi Hl. unfold TaskList.runState.
    change (TaskList.allTasksCompleted s') with false. rewrite Hi, Htasks, Hlen.
    destruct (Z.ltb_spec 0 (TaskList.len l - 1)); [reflexivity|lia]. }
  split; [exact Htasks|]. split; [|split; [now rewrite Htasks|]].
  { rewrite Htasks. unfold TaskList.ids. intros Hin.
    apply in_map_iff in Hin as (t & Ht & Hin).
    apply filter_In in Hin as [_ Hin]. rewrite Ht, String.eqb_refl in Hin.
    discriminate. }
  split; [|split; [|split; [|split]]].
  - intros -> Hlast.
    assert (Hi : TaskList.currentTaskIndex s' = Some c).
    { rewrite Hidx, Z.eqb_refl.
      destruct (Z.ltb_spec 1 (TaskList.len l)); [|lia].
      destruct (Z.eqb_spec c (TaskList.len l - 1)); [lia|reflexivity]. }
    split; [exact Hi|]. split; [apply Hrs; [exact Hi|lia]|].
    rewrite Htasks, Hget by lia. now rewrite Z.ltb_irrefl.
  - intros -> Hlast Hmulti.
    assert (Hi : TaskList.currentTaskIndex s' = Some 0).
    { rewrite Hidx, Z.eqb_refl.
      destruct (Z.ltb_spec 1 (TaskList.len l)); [|lia].
      destruct (Z.eqb_spec c (TaskList.len l - 1)); [reflexivity|lia]. }
    split; [exact Hi|apply Hrs; [exact Hi|lia]].
  - intros Hempty. unfold TaskList.runState.
    change (TaskList.allTasksCompleted s') with false. rewrite Hempty.
    destruct (TaskList.currentTaskIndex s'); reflexivity.
  - intros Hone.
    assert (Hk' : k = 0) by lia. assert (Hc' : c = 0) by lia.
    split.
    + rewrite Htasks in *. rewrite Hone in Hlen.
      destruct (filter _ l); [reflexivity|].
      unfold TaskList.len in Hlen. cbn [List.length] in Hlen. lia.
    + rewrite Hidx, Hk', Hc', Hone. reflexivity.
  - intros Hlt.
    assert (Hi : TaskList.currentTaskIndex s' = Some (c - 1)).
    { rewrite Hidx. destruct (Z.eqb_spec k c); [lia|].
      destruct (Z.ltb_spec k c); [reflexivity|lia]. }
    split; [exact Hi|]. split; [apply Hrs; [exact Hi|lia]|].
    rewrite Htasks, Hget by lia.
    destruct (Z.ltb_spec (c - 1) k); [lia|]. f_equal. lia.
Qed.

(** A run of C6: the active middle task of three is removed, the third
    task takes its place. *)
Lemma removeTask_reselects_witness :
  TaskList.currentTaskIndex
    (TaskList.removeTask "2" (TaskList.mkState [taskA; taskB; taskC] (Some 1) false))
  = Some 1
  /\ TaskList.runState
       (TaskList.removeTask "2" (TaskList.mkState [taskA; taskB; taskC] (Some 1) false))
     = TaskList.Running 1
  /\ TaskList.get
       (TaskList.tasks
          (TaskList.removeTask "2"
             (TaskList.mkState [taskA; taskB; taskC] (Some 1) false))) 1
     = TaskList.get [taskA; taskB; taskC] (1 + 1).
Proof.
  refine (proj1 (proj2 (proj2 (proj2
           (removeTask_reselects "2" [taskA; taskB; taskC] 1 1 _ _ _ _)))) _ _).
  - repeat constructor; cbn; intuition discriminate.
  - vm_compute. split; [discriminate|reflexivity].
  - reflexivity.
  - discriminate.
  - reflexivity.
  - reflexivity.
Defined.

(** C7.  What the rituals of the two Timers deliver.

    The rituals of the worker driven Timer test [isVisible] and
    [notificationsEnabled]: in the message handler of a render whose two
    state cells follow the document and the permission,
    [showNotification] is called if and only if the document is not
    visible and the permission is granted, and [speakText], right after
    the five second delay, if and only if the document is visible.

    The handler that the component installs is the one of the first
    render, where [isVisible] is [true] and [notificationsEnabled] is
    [false], whatever the state cells hold later: in every reminder,
    final-minute and completion ritual [showNotification] is not called
    and [speakText] is called, right after the five second delay.  So in a
    hidden document with the permission granted no system notification is
    raised and the message is spoken.

    The rituals of the interval driven Timer have no test of visibility or
    permission: they never call [showNotification] and always call
    [speakText]. *)
Theorem installed_rituals_deliver (b : Browser) (p0 : TimerProps)
    (st : WorkerTimer.State) (elapsed : Z) :
  let speaks (t : list Effect) :=
    existsb isShowNotification t = false
    /\ existsb isSpeakText t = true
    /\ spokenOnlyAfterDelay t = true in
  let tested (t : list Effect) :=
    existsb isShowNotification t
    = negb (Notifications.isPageVisible b)
      && Notifications.requestNotificationPermission b
    /\ existsb isSpeakText t = Notifications.isPageVisible b
    /\ spokenOnlyAfterDelay t = true in
  let current :=
    WorkerTimer.visibilityChanged b (WorkerTimer.initNotifications b st) in
  (speaks (snd (WorkerTimer.installed b p0 current (Worker.recurrent elapsed)))
   /\ speaks (snd (WorkerTimer.installed b p0 current Worker.finalMinute))
   /\ (WorkerTimer.hasCalledOnComplete st = false ->
       speaks (snd (WorkerTimer.installed b p0 current Worker.complete))))
  /\ (tested (snd (WorkerTimer.onmessage b p0 current (Worker.recurrent elapsed)))
      /\ tested (snd (WorkerTimer.onmessage b p0 current Worker.finalMinute))
      /\ (WorkerTimer.hasCalledOnComplete st = false ->
          tested (snd (WorkerTimer.onmessage b p0 current Worker.complete))))
  /\ (speaks (trace (IntervalTimer.notificationSequence b p0 elapsed))
      /\ speaks (trace (IntervalTimer.finalMinuteSequence b p0))
      /\ speaks (trace (IntervalTimer.completionSequence b p0))).
Proof.
  cbv zeta.
  pose proof (worker_notificationSequence_delivery b p0 true false
                (HavePassed elapsed)) as (N1 & N2 & N3 & _).
  pose proof (worker_finalMinuteSequence_delivery b p0 true false
                OneMinuteLeft) as (F1 & F2 & F3 & _).
  pose proof (worker_completionSequence_delivery b p0 true false)
    as (C1 & C2 & C3 & _).
  pose proof (worker_notificationSequence_delivery b p0
                (Notifications.isPageVisible b)
                (Notifications.requestNotificationPermission b)
                (HavePassed elapsed)) as (N1' & N2' & N3' & _).
  pose proof (worker_finalMinuteSequence_delivery b p0
                (Notifications.isPageVisible b)
                (Notifications.requestNotificationPermission b)
                OneMinuteLeft) as (F1' & F2' & F3' & _).
  pose proof (worker_completionSequence_delivery b p0
                (Notifications.isPageVisible b)
                (Notifications.requestNotificationPermission b))
    as (C1' & C2' & C3' & _).
  unfold WorkerTimer.installed, WorkerTimer.onmessage, WorkerTimer.handler,
    WorkerTimer.handleWorkerNotification, WorkerTimer.handleTaskComplete,
    WorkerTimer.visibilityChanged, WorkerTimer.initNotifications.
  cbn [snd WorkerTimer.mount WorkerTimer.isVisible
       WorkerTimer.notificationsEnabled WorkerTimer.hasCalledOnComplete].
  split; [|split].
  - split; [|split].
    + change (existsb ?f (AppendNotification ?m :: ?t)) with (existsb f t).
      change (spokenOnlyAfterDelay (AppendNotification ?m :: ?t))
        with (spokenOnlyAfterDelay t).
      repeat split; assumption.
    + change (existsb ?f (AppendNotification ?m :: ?t)) with (existsb f t).
      change (spokenOnlyAfterDelay (AppendNotification ?m :: ?t))
        with (spokenOnlyAfterDelay t).
      repeat split; assumption.
    + intros Hl. rewrite Hl. cbn [negb snd].
      change (existsb ?f (AppendNotification ?m :: ?t)) with (existsb f t).
      change (spokenOnlyAfterDelay (AppendNotification ?m :: ?t))
        with (spokenOnlyAfterDelay t).
      repeat split; assumption.
  - split; [|split].
    + change (existsb ?f (AppendNotification ?m :: ?t)) with (existsb f t).
      change (spokenOnlyAfterDelay (AppendNotification ?m :: ?t))
        with (spokenOnlyAfterDelay t).
      repeat split; assumption.
    + change (existsb ?f (AppendNotification ?m :: ?t)) with (existsb f t).
      change (spokenOnlyAfterDelay (AppendNotification ?m :: ?t))
        with (spokenOnlyAfterDelay t).
      repeat split; assumption.
    + intros Hl. rewrite Hl. cbn [negb snd].
      change (existsb ?f (AppendNotification ?m :: ?t)) with (existsb f t).
      change (spokenOnlyAfterDelay (AppendNotification ?m :: ?t))
        with (spokenOnlyAfterDelay t).
      repeat split; assumption.
  - apply (interval_rituals_delivery b p0 elapsed).
Qed.

(** A run of C7: the Timer is mounted, the permission is granted and the
    document goes to the background, so that the state of the component
    has [isVisible = false] and [notificationsEnabled = true]; then the
    worker posts [complete].  The ritual plays the sound, raises no system
    notification, and speaks. *)
Lemma installed_rituals_deliver_witness :
  let st := WorkerTimer.visibilityChanged background
              (WorkerTimer.initNotifications background (WorkerTimer.mount shower)) in
  (Notifications.isPageVisible background = false
   /\ Notifications.requestNotificationPermission background = true
   /\ WorkerTimer.isVisible st = false
   /\ WorkerTimer.notificationsEnabled st = true)
  /\ snd (WorkerTimer.installed background shower st Worker.complete)
     = [AppendNotification TaskCompletedAt;
        PlaySound Sounds.GUITAR_SOUND notFocused;
        Sleep 5000;
        SpeakText (ShouldBeCompleted "Shower") spoken;
        Sleep 3000;
        OnComplete]
  /\ existsb isShowNotification
       (snd (WorkerTimer.installed background shower st Worker.complete)) = false.
Proof.
  cbv zeta. split; [repeat split; reflexivity|]. split; [reflexivity|].
  refine (proj1 (proj2 (proj2 (proj1
            (installed_rituals_deliver background shower
               (WorkerTimer.mount shower) 0))) _)).
  reflexivity.
Defined.

(** C8.  Every run of the completion ritual ends by calling [onComplete],
    exactly once, whatever fails on the way: an audio operation that
    throws or a playback promise that rejects, a Notification constructor
    that throws, a speech synthesis that is missing or that throws.  So a
    [complete] message that finds the latch open always leads to one call
    of [onComplete], also through the handler that the worker driven Timer
    installs.  Under the interval driven Timer that call moves the
    sequencer on: to the next task, or to [AllComplete] after the last
    one.  Under the worker driven Timer the call is the [onComplete] of
    the first render: in a list of two tasks or more started at index 0,
    the call at the end of the second task's ritual leaves the page as it
    was, on the second task. *)
Theorem completion_ritual_reaches_done (b : Browser) (p : TimerProps)
    (isVisible notificationsEnabled : bool) (st : WorkerTimer.State)
    (l : list TaskList.Task) (c : Z) :
  let t := trace (WorkerTimer.completionSequence b p isVisible
                    notificationsEnabled) in
  let t' := trace (IntervalTimer.completionSequence b p) in
  let first := TaskList.mkState l (Some 0) false in
  let second := Page.mkPage (TaskList.mkState l (Some 1) false) (Some first) [] in
  countOnComplete t = 1%nat
  /\ last t ConsoleError = OnComplete
  /\ countOnComplete t' = 1%nat
  /\ last t' ConsoleError = OnComplete
  /\ countOnComplete
       (snd (WorkerTimer.onmessage b p (WorkerTimer.activate p st)
               Worker.complete)) = 1%nat
  /\ countOnComplete
       (snd (WorkerTimer.installed b p (WorkerTimer.activate p st)
               Worker.complete)) = 1%nat
  /\ (l <> [] ->
      TaskList.runState
        (Page.taskList
           (fst (Page.taskRun Page.IntervalDriven b
                   (Page.mkPage (TaskList.mkState l (Some c) false)
                      (Some first) []))))
      = if c =? TaskList.len l - 1
        then TaskList.AllComplete else TaskList.Running (c + 1))
  /\ (2 <= TaskList.len l ->
      fst (Page.taskRun Page.WorkerDriven b (Page.started l)) = second
      /\ fst (Page.taskRun Page.WorkerDriven b second) = second).
Proof.
  cbv zeta.
  split; [apply worker_completionSequence_onComplete|].
  split; [apply worker_completionSequence_last|].
  split; [apply interval_completionSequence_onComplete|].
  split; [apply interval_completionSequence_last|].
  split; [|split; [|split]].
  - cbn -[WorkerTimer.completionSequence countOnComplete].
    change (countOnComplete (AppendNotification ?m :: ?t)) with (countOnComplete t).
    apply worker_completionSequence_onComplete.
  - cbn -[WorkerTimer.completionSequence countOnComplete].
    change (countOnComplete (AppendNotification ?m :: ?t)) with (countOnComplete t).
    apply worker_completionSequence_onComplete.
  - intros Hne. pose proof (len_positive l Hne) as Hlen.
    rewrite (interval_taskRun b l c _ Hlen).
    destruct (Z.eqb_spec c (TaskList.len l - 1)); cbn [fst Page.taskList].
    + reflexivity.
    + now apply runState_running.
  - intros H2. rewrite (started_running l ltac:(lia)).
    now rewrite !(worker_taskRun b l _ H2).
Qed.

(** A run of C8: three tasks, started at index 0 under the worker driven
    Timer.  The ritual of the first task moves the page to the second
    task; the ritual of the second task calls [onComplete] and the page
    stays on the second task. *)
Lemma completion_ritual_reaches_done_witness :
  let second :=
    Page.mkPage (TaskList.mkState [taskA; taskB; taskC] (Some 1) false)
      (Some (TaskList.mkState [taskA; taskB; taskC] (Some 0) false)) [] in
  fst (Page.taskRun Page.WorkerDriven foreground
         (Page.started [taskA; taskB; taskC])) = second
  /\ fst (Page.taskRun Page.WorkerDriven foreground second) = second.
Proof.
  refine (proj2 (proj2 (proj2 (proj2 (proj2 (proj2 (proj2
           (completion_ritual_reaches_done foreground shower true false
              (WorkerTimer.mount shower) [taskA; taskB; taskC] 0))))))) _).
  vm_compute. discriminate.
Defined.

(** C9, as stated, fails: the worker takes the payload of a command as it
    comes.  After [start] with [timeLeft = 0] the next callback posts a
    tick with [timeLeft = -1]. *)
Lemma countdown_range_counterexample :
  ~ Forall (fun r => WorkerRun.inRange (fst r) /\ WorkerRun.ticksInRange r)
      (Worker.steps Worker.init
         [Worker.Msg (Worker.start 5 0 0); Worker.Fire 1000]).
Proof.
  intros H. inversion H as [|r1 l1 _ H1]; subst.
  inversion H1 as [|r2 l2 [[Hlo _] _] _]; subst.
  vm_compute in Hlo. apply Hlo. reflexivity.
Qed.

(** C9, amended.  From a state in range where a running timer has at
    least one second left, such as the initial state of the worker, every
    sequence of commands with consistent payloads, interleaved with
    callbacks of the interval, keeps [0 <= timeLeft <= duration] after
    every step and in every tick posted. *)
Theorem countdown_in_range (s : Worker.State) (l : list Worker.Input) :
  WorkerRun.wellFormed s ->
  WorkerRun.allConsistent s l = true ->
  Forall (fun r => WorkerRun.inRange (fst r) /\ WorkerRun.ticksInRange r)
         (Worker.steps s l).
Proof. apply steps_wellFormed. Qed.

(** A run of C9: start, two ticks, pause, an update, resume, reset. *)
Lemma countdown_in_range_witness :
  Forall (fun r => WorkerRun.inRange (fst r) /\ WorkerRun.ticksInRange r)
    (Worker.steps Worker.init
       [Worker.Msg (Worker.start 3 3 0); Worker.Fire 1000; Worker.Fire 2000;
        Worker.Msg Worker.pause; Worker.Msg (Worker.update 3 0 None);
        Worker.Msg (Worker.start 3 1 0); Worker.Fire 3000;
        Worker.Msg (Worker.reset 3)]).
Proof.
  apply (countdown_in_range Worker.init).
  - unfold WorkerRun.wellFormed, WorkerRun.inRange. cbn.
    split; [lia|discriminate].
  - reflexivity.
Defined.

(** C10, as stated, fails: with the second of two tasks active,
    [removeTask] with an id that is not in the list moves the active index
    from 1 to 0. *)
Lemma removeTask_absent_id_counterexample :
  let s := TaskList.mkState [taskA; taskB] (Some 1) false in
  ~ In "9"%string (TaskList.ids (TaskList.tasks s))
  /\ ~ (TaskList.tasks (TaskList.removeTask "9" s) = TaskList.tasks s
        /\ TaskList.currentTaskIndex (TaskList.removeTask "9" s)
           = TaskList.currentTaskIndex s).
Proof.
  cbv zeta. split.
  - cbn. intuition discriminate.
  - vm_compute. intros [_ H]. discriminate H.
Qed.

(** C10, amended.  [removeTask] with an id that is not in the list keeps
    the list and the completion flag; without an active task there is
    none afterwards either, and the index [c >= 0] of an active task
    becomes [c - 1]: [findIndex] answers [-1], which the handler takes for
    a position before the active one. *)
Theorem removeTask_absent_id (taskId : string) (s : TaskList.State) :
  ~ In taskId (TaskList.ids (TaskList.tasks s)) ->
  TaskList.tasks (TaskList.removeTask taskId s) = TaskList.tasks s
  /\ TaskList.allTasksCompleted (TaskList.removeTask taskId s)
     = TaskList.allTasksCompleted s
  /\ (TaskList.currentTaskIndex s = None ->
      TaskList.currentTaskIndex (TaskList.removeTask taskId s) = None)
  /\ (forall c, TaskList.currentTaskIndex s = Some c -> 0 <= c ->
      TaskList.currentTaskIndex (TaskList.removeTask taskId s) = Some (c - 1)).
Proof.
  intros Hn. split; [|split; [|split]].
  - rewrite removeTask_tasks. apply filter_absent. now apply absent_hasId.
  - reflexivity.
  - intros Hc. unfold TaskList.removeTask. cbn. now rewrite Hc.
  - intros c Hc Hc0. now apply removeTask_absent.
Qed.

(** A run of C10: the third of three tasks is active. *)
Lemma removeTask_absent_id_witness :
  TaskList.currentTaskIndex
    (TaskList.removeTask "9"
       (TaskList.mkState [taskA; taskB; taskC] (Some 2) false))
  = Some (2 - 1).
Proof.
  refine (proj2 (proj2 (proj2
           (removeTask_absent_id "9"
              (TaskList.mkState [taskA; taskB; taskC] (Some 2) false) _)))
            2 _ _).
  - cbn. intuition discriminate.
  - reflexivity.
  - lia.
Defined.

(** * Further properties of the worker *)

Section WorkerFurther.

Import Worker WorkerRun.

Lemma run_app (l1 l2 : list Input) : forall s,
  run s (l1 ++ l2)
  = (fst (run (fst (run s l1)) l2),
     snd (run s l1) ++ snd (run (fst (run s l1)) l2)).
Proof.
  induction l1 as [|i l1 IH]; intros s.
  - cbn [app run fst snd]. now destruct (run s l2).
  - rewrite <- app_comm_cons, !run_cons, IH. cbn [fst snd].
    now rewrite app_assoc.
Qed.

(** A stopped timer has no interval: nothing fires. *)
Lemma stopped_fires (ts : list Z) : forall s,
  timerId s = false -> run s (map Fire ts) = (s, []).
Proof.
  induction ts as [|t ts IH]; intros s H; [reflexivity|].
  cbn [map]. rewrite run_cons. cbn [step]. rewrite H. cbn [fst snd].
  now rewrite IH.
Qed.

Lemma downFrom_app (n1 n2 : nat) : forall D,
  downFrom D n1 ++ downFrom (D - Z.of_nat n1) n2 = downFrom D (n1 + n2).
Proof.
  induction n1 as [|n1 IH]; intros D.
  - cbn [downFrom app Nat.add]. now replace (D - Z.of_nat 0) with D by lia.
  - cbn [downFrom app Nat.add]. f_equal.
    rewrite <- IH. do 2 f_equal. lia.
Qed.

Lemma increasing_weaken (l : list Z) : forall lo lo',
  lo' <= lo -> increasing lo l -> increasing lo' l.
Proof.
  destruct l as [|x l]; intros lo lo' Hle H; [exact I|].
  destruct H as [H1 H2]. split; [lia|exact H2].
Qed.

Lemma increasing_above (l : list Z) : forall lo x,
  increasing lo l -> In x l -> lo < x.
Proof.
  induction l as [|y l IH]; intros lo x Hinc Hin; [destruct Hin|].
  destruct Hinc as [Hlo Hinc]. destruct Hin as [<-|Hin]; [exact Hlo|].
  specialize (IH y x Hinc Hin). lia.
Qed.

(** Whatever the timing, the reminders of [n] firings come at increasing
    elapsed seconds on the interval, no more of them than there are such
    seconds. *)
Lemma fires_reminders_bound (ts : list Z) : forall s,
  (ts <> [] -> timerId s = true) ->
  Z.of_nat (List.length ts) <= timeLeft s ->
  0 <= duration s - timeLeft s ->
  let rs := remindersOf (snd (run s (map Fire ts))) in
  increasing (duration s - timeLeft s) rs
  /\ (forall x, In x rs ->
        x <= duration s - timeLeft s + Z.of_nat (List.length ts)
        /\ 0 < recurrentTime s
        /\ onInterval (recurrentTime s) x = true)
  /\ (List.length rs
      <= List.length (filter (onInterval (recurrentTime s))
                        (upFrom (duration s - timeLeft s) (List.length ts))))%nat.
Proof.
  induction ts as [|now ts IH]; intros s Hrun Hlen He.
  - cbn. repeat split; try lia; try (intros x []).
  - cbn [map]. cbv zeta. rewrite run_cons. cbn [step].
    rewrite Hrun by discriminate. cbn [fst snd].
    rewrite remindersOf_app, callback_reminders.
    cbn [List.length] in *.
    set (s1 := fst (intervalCallback now s)).
    assert (Htl : timeLeft s1 = timeLeft s - 1) by reflexivity.
    assert (Hd : duration s1 = duration s) by reflexivity.
    assert (Hr : recurrentTime s1 = recurrentTime s) by reflexivity.
    assert (Hrun1 : ts <> [] -> timerId s1 = true).
    { intros Hne. unfold s1. rewrite callback_timerId.
      destruct ts; [congruence|]. cbn [List.length] in Hlen.
      destruct (Z.leb_spec (timeLeft s - 1) 0); [lia|reflexivity]. }
    destruct (IH s1 Hrun1 ltac:(lia) ltac:(lia)) as (I1 & I2 & I3).
    change (timeLeft s1) with (timeLeft s - 1) in I1, I2, I3.
    change (duration s1) with (duration s) in I1, I2, I3.
    change (recurrentTime s1) with (recurrentTime s) in I1, I2, I3.
    replace (duration s - (timeLeft s - 1)) with (duration s - timeLeft s + 1)
      in * by lia.
    set (e := duration s - timeLeft s) in *.
    cbn [upFrom filter].
    destruct (reminderDue now s) eqn:Hdue.
    + unfold reminderDue in Hdue.
      replace (duration s - (timeLeft s - 1)) with (e + 1) in Hdue by (unfold e; lia).
      apply andb_true_iff in Hdue as [Hdue _].
      apply andb_true_iff in Hdue as [Hdue Hon].
      apply andb_true_iff in Hdue as [HR _]. apply Z.ltb_lt in HR.
      change (Z.rem (e + 1) (recurrentTime s) <? 1)
        with (onInterval (recurrentTime s) (e + 1)) in Hon.
      rewrite Hon. cbn [app List.length increasing In].
      split; [split; [lia|exact I1]|]. split; [|lia].
      intros x [<-|Hx]; [repeat split; try assumption; lia|].
      destruct (I2 x Hx) as (Hx1 & Hx2 & Hx3). repeat split; try assumption; lia.
    + cbn [app]. split; [apply (increasing_weaken _ (e + 1)); [lia|exact I1]|].
      split.
      * intros x Hx. destruct (I2 x Hx) as (Hx1 & Hx2 & Hx3).
        repeat split; try assumption; lia.
      * destruct (onInterval (recurrentTime s) (e + 1)); cbn [List.length]; lia.
Qed.

End WorkerFurther.

Section WorkerFurtherCountdown.

Import Worker WorkerRun.

Lemma countdown_fires (s : State) (D R : Z) (ts : list Z) :
  countdown s D R ts
  = run (mkState true D D R (lastNotificationTime s)) (map Fire ts).
Proof.
  unfold countdown. rewrite run_cons. cbn [step onmessage startTimer fst snd
    timeLeft duration recurrentTime lastNotificationTime app].
  now destruct (run _ _).
Qed.

(** Once [complete] is posted the interval is gone. *)
Lemma countdown_stops (s : State) (D R : Z) (ts1 ts2 : list Z) :
  0 < D -> Z.of_nat (List.length ts1) = D ->
  countdown s D R (ts1 ++ ts2) = countdown s D R ts1
  /\ timerId (fst (countdown s D R ts1)) = false
  /\ countComplete (snd (countdown s D R ts1)) = 1%nat.
Proof.
  intros HD Hlen. rewrite !countdown_fires.
  set (s0 := mkState true D D R (lastNotificationTime s)).
  assert (Hne : ts1 <> []) by (destruct ts1; [cbn in Hlen; lia|discriminate]).
  destruct (fires_countdown ts1 s0 eq_refl ltac:(cbn; lia))
    as (_ & _ & _ & _ & H5).
  destruct (H5 Hlen Hne) as [Hid (evs & Hev & Hc)].
  rewrite map_app, run_app, (stopped_fires ts2 _ Hid). cbn [fst snd].
  rewrite app_nil_r. split; [now destruct (run s0 (map Fire ts1))|].
  split; [exact Hid|].
  rewrite Hev, countComplete_app, Hc. reflexivity.
Qed.

End WorkerFurtherCountdown.

(** X1.  A countdown posts [complete] exactly once and then stops: however
    long the interval would go on firing after the [D]-th callback, the
    events and the final state are those of the first [D] callbacks. *)
Theorem complete_posted_once (s : Worker.State) (D R : Z) (ts1 ts2 : list Z) :
  0 < D ->
  Z.of_nat (List.length ts1) = D ->
  Worker.countdown s D R (ts1 ++ ts2) = Worker.countdown s D R ts1
  /\ Worker.timerId (fst (Worker.countdown s D R (ts1 ++ ts2))) = false
  /\ Worker.countComplete (snd (Worker.countdown s D R (ts1 ++ ts2))) = 1%nat.
Proof.
  intros HD Hlen.
  destruct (countdown_stops s D R ts1 ts2 HD Hlen) as (H1 & H2 & H3).
  rewrite H1. auto.
Qed.

(** A run of X1: three seconds, five firings. *)
Lemma complete_posted_once_witness :
  Worker.countdown Worker.init 3 0 ([1000; 2000; 3000] ++ [4000; 5000])
  = Worker.countdown Worker.init 3 0 [1000; 2000; 3000].
Proof.
  refine (proj1 (complete_posted_once Worker.init 3 0 [1000; 2000; 3000]
                   [4000; 5000] _ _)); reflexivity.
Defined.

(** X2.  Pause and resume: a countdown that is paused after some ticks,
    left paused while time passes, and resumed by a [start] that carries
    the [timeLeft] of the last tick, posts the same ticks [D-1 .. 0] and
    the same single [complete] as a countdown that was never paused. *)
Theorem pause_and_resume (s : Worker.State) (D R : Z) (ts1 idle ts2 : list Z) :
  Z.of_nat (List.length ts1) < D ->
  Z.of_nat (List.length ts1) + Z.of_nat (List.length ts2) = D ->
  let left := D - Z.of_nat (List.length ts1) in
  let r := Worker.run s
             (Worker.Msg (Worker.start D D R) :: map Worker.Fire ts1
              ++ Worker.Msg Worker.pause :: map Worker.Fire idle
              ++ Worker.Msg (Worker.start D left R) :: map Worker.Fire ts2) in
  Worker.ticksOf (snd r) = downFrom D (Z.to_nat D)
  /\ Worker.countComplete (snd r) = 1%nat
  /\ Worker.timerId (fst r) = false
  /\ Worker.timeLeft (fst r) = 0.
Proof.
  intros Hlt Hsum left r.
  set (s0 := Worker.mkState true D D R (Worker.lastNotificationTime s)).
  destruct (fires_countdown ts1 s0 eq_refl ltac:(cbn; lia))
    as (A1 & A2 & A3 & A4 & _).
  destruct (A4 Hlt) as [Aid Ac].
  change (Worker.timeLeft s0) with D in A1, A2.
  set (s1 := fst (Worker.run s0 (map Worker.Fire ts1))) in *.
  set (s2 := Worker.pauseTimer s1).
  set (s3 := Worker.mkState true left D R (Worker.lastNotificationTime s2)).
  assert (Hne : ts2 <> []) by (destruct ts2; [cbn in Hsum; lia|discriminate]).
  destruct (fires_countdown ts2 s3 eq_refl ltac:(cbn; unfold left; lia))
    as (B1 & B2 & _ & _ & B5).
  change (Worker.timeLeft s3) with left in B1, B2, B5.
  destruct (B5 ltac:(unfold left; lia) Hne) as [Bid (evs & Bev & Bc)].
  assert (Hr : r = (fst (Worker.run s3 (map Worker.Fire ts2)),
                    snd (Worker.run s0 (map Worker.Fire ts1))
                    ++ snd (Worker.run s3 (map Worker.Fire ts2)))).
  { unfold r. rewrite run_cons.
    change (fst (Worker.step s (Worker.Msg (Worker.start D D R)))) with s0.
    change (snd (Worker.step s (Worker.Msg (Worker.start D D R)))) with (@nil Worker.Event).
    rewrite run_app. fold s1. rewrite run_cons.
    change (fst (Worker.step s1 (Worker.Msg Worker.pause))) with s2.
    change (snd (Worker.step s1 (Worker.Msg Worker.pause))) with (@nil Worker.Event).
    rewrite run_app, (stopped_fires idle s2 eq_refl). cbn [fst snd].
    rewrite run_cons.
    change (fst (Worker.step s2 (Worker.Msg (Worker.start D left R)))) with s3.
    change (snd (Worker.step s2 (Worker.Msg (Worker.start D left R))))
      with (@nil Worker.Event).
    cbn [fst snd app]. reflexivity. }
  rewrite Hr. cbn [fst snd].
  rewrite ticksOf_app, A1, B1, countComplete_app, Ac, B2.
  split; [|split; [|split; [exact Bid|unfold left; lia]]].
  - unfold left. rewrite downFrom_app. f_equal. lia.
  - rewrite Bev, countComplete_app, Bc. reflexivity.
Qed.

(** A run of X2: five seconds, paused after two ticks. *)
Lemma pause_and_resume_witness :
  Worker.ticksOf
    (snd (Worker.run Worker.init
            (Worker.Msg (Worker.start 5 5 0) :: map Worker.Fire [1000; 2000]
             ++ Worker.Msg Worker.pause :: map Worker.Fire [3000; 4000]
             ++ Worker.Msg (Worker.start 5 (5 - Z.of_nat 2) 0)
                :: map Worker.Fire [9000; 10000; 11000])))
  = downFrom 5 (Z.to_nat 5).
Proof.
  refine (proj1 (pause_and_resume Worker.init 5 0 [1000; 2000] [3000; 4000]
                   [9000; 10000; 11000] _ _)); reflexivity.
Defined.

(** X3.  Whatever the timing of the interval, the reminders of a countdown
    come at strictly increasing elapsed seconds that are multiples of the
    reminder interval, none after the duration: so at most one reminder
    per multiple and at most [D / R] in all.  With a reminder interval of
    0 (or less) no reminder is ever posted. *)
Theorem reminders_bounded (s : Worker.State) (D R : Z) (ts : list Z) :
  0 < D ->
  let rs := Worker.remindersOf (snd (Worker.countdown s D R ts)) in
  increasing 0 rs
  /\ (forall x, In x rs -> x <= D /\ Z.rem x R = 0)
  /\ (0 < R -> Z.of_nat (List.length rs) <= D / R)
  /\ (R <= 0 -> rs = []).
Proof.
  intros HD rs.
  assert (Hcut : exists ts', Z.of_nat (List.length ts') <= D
                  /\ Worker.countdown s D R ts = Worker.countdown s D R ts').
  { destruct (Z.le_gt_cases (Z.of_nat (List.length ts)) D) as [Hle|Hgt].
    - now exists ts.
    - exists (firstn (Z.to_nat D) ts).
      assert (Hl : List.length (firstn (Z.to_nat D) ts) = Z.to_nat D)
        by (apply firstn_length_le; lia).
      split; [lia|].
      rewrite <- (firstn_skipn (Z.to_nat D) ts) at 1.
      apply countdown_stops; lia. }
  destruct Hcut as (ts' & Hlen & Heq).
  unfold rs. rewrite Heq, countdown_fires.
  set (s0 := Worker.mkState true D D R (Worker.lastNotificationTime s)).
  destruct (fires_reminders_bound ts' s0 (fun _ => eq_refl)
              ltac:(cbn; lia) ltac:(cbn; lia)) as (H1 & H2 & H3).
  cbn [s0 Worker.duration Worker.timeLeft Worker.recurrentTime] in H1, H2, H3.
  replace (D - D) with 0 in H1, H2, H3 by lia.
  clear rs.
  set (l := Worker.remindersOf (snd (Worker.run s0 (map Worker.Fire ts')))) in *.
  split; [exact H1|]. split; [|split].
  - intros x Hx. destruct (H2 x Hx) as (Hx1 & Hx2 & Hx3).
    split; [lia|]. unfold onInterval in Hx3. apply Z.ltb_lt in Hx3.
    pose proof (increasing_above _ _ _ H1 Hx).
    pose proof (Z.rem_bound_pos x R ltac:(lia) Hx2). lia.
  - intros HR.
    pose proof (count_onInterval R HR (List.length ts') 0 ltac:(lia)) as Hc.
    rewrite Z.div_0_l, Z.sub_0_r, Z.add_0_l in Hc by lia.
    pose proof (Z.div_le_mono (Z.of_nat (List.length ts')) D R HR Hlen). lia.
  - intros HR. destruct l as [|x l]; [reflexivity|].
    destruct (H2 x (or_introl eq_refl)) as (_ & Hx & _). lia.
Qed.

(** A run of X3: reminders every 2 seconds in 10 seconds, one tick per
    second. *)
Lemma reminders_bounded_witness :
  Z.of_nat (List.length (Worker.remindersOf
              (snd (Worker.countdown Worker.init 10 2 (everySecond 10000 10)))))
  <= 10 / 2.
Proof.
  refine (proj1 (proj2 (proj2 (reminders_bounded Worker.init 10 2
                                 (everySecond 10000 10) _))) _);
    reflexivity.
Defined.

(** * Further properties of the task list *)

Section TaskListFurther.

Import TaskList TaskListUI.

Lemma len_app (l1 l2 : list Task) : len (l1 ++ l2) = len l1 + len l2.
Proof. unfold len. rewrite length_app. lia. Qed.

Lemma get_app_left (l1 l2 : list Task) (i : Z) :
  0 <= i < len l1 -> get (l1 ++ l2) i = get l1 i.
Proof.
  intros Hi. unfold get, len in *.
  destruct (Z.ltb_spec i 0); [lia|].
  apply nth_error_app1. lia.
Qed.

Lemma get_app_end (l : list Task) (t : Task) : get (l ++ [t]) (len l) = Some t.
Proof.
  unfold get, len. destruct (Z.ltb_spec (Z.of_nat (List.length l)) 0); [lia|].
  rewrite Nat2Z.id, nth_error_app2 by lia. now rewrite Nat.sub_diag.
Qed.

Lemma get_in_range (l : list Task) (i : Z) :
  0 <= i < len l -> exists t, get l i = Some t.
Proof.
  intros Hi. unfold get, len in *.
  destruct (Z.ltb_spec i 0); [lia|].
  destruct (nth_error l (Z.to_nat i)) as [t|] eqn:E; [now exists t|].
  apply nth_error_None in E. lia.
Qed.

Lemma NoDup_snoc (A : Type) (l : list A) (x : A) :
  NoDup l -> ~ In x l -> NoDup (l ++ [x]).
Proof.
  induction l as [|a l IH]; intros Hnd Hx; cbn.
  - repeat constructor. intros [].
  - apply NoDup_cons_iff in Hnd as [Ha Hnd]. constructor.
    + rewrite in_app_iff. intros [H|[H|[]]]; [now apply Ha|].
      apply Hx. now left.
    + apply IH; [exact Hnd|]. intros H. apply Hx. now right.
Qed.

Lemma ids_filter_incl (f : Task -> bool) (l : list Task) (x : string) :
  In x (ids (filter f l)) -> In x (ids l).
Proof.
  unfold ids. rewrite !in_map_iff. intros (t & Ht & Hin).
  apply filter_In in Hin as [Hin _]. now exists t.
Qed.

Lemma NoDup_ids_filter (f : Task -> bool) (l : list Task) :
  NoDup (ids l) -> NoDup (ids (filter f l)).
Proof.
  induction l as [|a l IH]; intros Hnd; [constructor|].
  cbn [ids map] in Hnd. apply NoDup_cons_iff in Hnd as [Ha Hnd].
  cbn [filter]. destruct (f a); [|now apply IH].
  cbn [ids map]. constructor; [|now apply IH].
  intros H. apply Ha. now apply (ids_filter_incl f).
Qed.

Lemma findIndex_present (x : string) (l : list Task) :
  In x (ids l) -> 0 <= findIndex (fun t => String.eqb (id t) x) l.
Proof.
  induction l as [|a l IH]; intros Hin; [destruct Hin|].
  cbn [findIndex]. destruct (String.eqb_spec (id a) x) as [E|E]; [lia|].
  destruct Hin as [Hin|Hin]; [congruence|].
  specialize (IH Hin).
  destruct (Z.ltb_spec (findIndex (fun t => String.eqb (id t) x) l) 0); lia.
Qed.

Lemma withSounds_hasSounds (t : Task) : hasSounds (withSounds t).
Proof.
  unfold hasSounds, withSounds, orElse. cbn.
  split.
  - destruct (String.eqb_spec (notificationSound t) EmptyString); [discriminate|assumption].
  - destruct (String.eqb_spec (completionSound t) EmptyString); [discriminate|assumption].
Qed.

Lemma withSounds_id (t : Task) : id (withSounds t) = id t.
Proof. reflexivity. Qed.

Lemma editTask_ids (u : Task) (s : State) :
  ids (tasks (editTask u s)) = ids (tasks s).
Proof.
  unfold editTask, ids. cbn [tasks]. rewrite map_map. apply map_ext.
  intros t. rewrite withSounds_id.
  destruct (String.eqb_spec (id t) (id u)) as [E|E]; [now rewrite withSounds_id|reflexivity].
Qed.

Lemma editTask_len (u : Task) (s : State) :
  len (tasks (editTask u s)) = len (tasks s).
Proof. unfold editTask, len. cbn [tasks]. now rewrite length_map. Qed.

(** Every offered action keeps the invariant. *)
Lemma perform_invariant (b : Browser) (s : State) (a : Action) :
  invariant s -> offered s a -> invariant (perform b s a).
Proof.
  intros (Hnd & Hidx & Hflag & Hs) Ha.
  destruct a as [t|u|x|i|seen|]; cbn [perform offered] in *.
  - (* addTask *)
    unfold addTask, invariant. cbn [tasks currentTaskIndex allTasksCompleted].
    split; [|split; [|split]].
    + unfold ids. rewrite map_app. cbn [map]. rewrite withSounds_id.
      now apply NoDup_snoc.
    + intros c Hc. specialize (Hidx c Hc). rewrite len_app.
      change (len [withSounds t]) with 1. lia.
    + discriminate.
    + apply Forall_app. split; [exact Hs|].
      constructor; [apply withSounds_hasSounds|constructor].
  - (* editTask *)
    unfold invariant. rewrite editTask_ids, editTask_len.
    split; [exact Hnd|]. split; [exact Hidx|]. split; [exact Hflag|].
    unfold editTask. cbn [tasks]. apply Forall_forall. intros t Ht.
    apply in_map_iff in Ht as (t0 & <- & Ht0).
    destruct (String.eqb (id t0) (id (withSounds u)));
      [apply withSounds_hasSounds|].
    rewrite Forall_forall in Hs. now apply Hs.
  - (* removeTask *)
    pose proof (findIndex_present x (tasks s) Ha) as Hk.
    destruct (filter_found x (tasks s) _ Hnd eq_refl Hk) as [Hlen _].
    pose proof (findIndex_range (fun t => String.eqb (id t) x) (tasks s)) as Hr.
    unfold invariant. rewrite removeTask_tasks, removeTask_flag.
    split; [now apply NoDup_ids_filter|]. split; [|split].
    + intros c Hc. rewrite Hlen.
      destruct (currentTaskIndex s) as [c0|] eqn:E.
      * rewrite (removeTask_index x s c0 E) in Hc. cbv zeta in Hc.
        specialize (Hidx c0 eq_refl).
        set (k := findIndex (fun t => String.eqb (id t) x) (tasks s)) in *.
        destruct (Z.eqb_spec k c0), (Z.ltb_spec 1 (len (tasks s))),
          (Z.eqb_spec k (len (tasks s) - 1)), (Z.ltb_spec k c0);
          inversion Hc; subst; lia.
      * unfold removeTask in Hc. cbn in Hc. rewrite E in Hc. discriminate.
    + intros Hf. specialize (Hflag Hf). unfold removeTask. cbn.
      now rewrite Hflag.
    + apply Forall_forall. intros t Ht. apply filter_In in Ht as [Ht _].
      rewrite Forall_forall in Hs. now apply Hs.
  - (* startTask *)
    unfold startTask, invariant. cbn [tasks currentTaskIndex allTasksCompleted].
    split; [exact Hnd|]. split; [|split; [discriminate|exact Hs]].
    intros c Hc. inversion Hc; subst. exact Ha.
  - (* handleTaskComplete *)
    destruct Ha as [Hseen Hlen]. unfold handleTaskComplete. rewrite Hseen, Hlen.
    destruct (currentTaskIndex s) as [c|] eqn:E;
      [|cbn [fst]; unfold invariant; rewrite E; auto].
    specialize (Hidx c eq_refl).
    destruct (Z.ltb_spec 0 (len (tasks s)));
      [|cbn [fst]; unfold invariant; rewrite E; intuition (try congruence);
        inversion H0; subst; lia].
    destruct (Z.eqb_spec c (len (tasks s) - 1)); cbn [fst]; unfold invariant;
      cbn [tasks currentTaskIndex allTasksCompleted].
    + split; [exact Hnd|]. split; [discriminate|]. split; [reflexivity|exact Hs].
    + split; [exact Hnd|]. split; [|split; [|exact Hs]].
      * intros c' Hc'. inversion Hc'; subst. lia.
      * intros Hf. specialize (Hflag Hf). congruence.
  - (* resetTaskList *)
    unfold resetTaskList, invariant. cbn [tasks currentTaskIndex allTasksCompleted].
    split; [exact Hnd|]. split; [|split; [discriminate|exact Hs]].
    intros c Hc. destruct (Z.ltb_spec 0 (len (tasks s))).
    + inversion Hc; subst. lia.
    + now apply Hidx.
Qed.

Lemma performAll_invariant (b : Browser) (l : list Action) : forall s,
  invariant s -> allOffered b s l -> invariant (performAll b s l).
Proof.
  induction l as [|a l IH]; intros s Hi Ho; [exact Hi|].
  destruct Ho as [Ha Ho]. cbn [performAll].
  apply IH; [now apply perform_invariant|exact Ho].
Qed.

End TaskListFurther.

(** X4.  The task list keeps its invariant under the handler calls of
    the page, as long as every completion signal comes from an up to date
    [handleTaskComplete]: starting from the empty list, or from any state
    that has it, after any sequence of such calls the ids are unique, an
    active index points inside the list, there is no active index once all
    tasks are completed, and every task has its sound ids; so when the
    render shows the [Timer], [tasks[currentTaskIndex]] is a task of the
    list.  A completion signal that is not up to date can break this:
    with two tasks, the first active under the interval driven Timer, the
    second removed while the completion ritual of the first is in flight,
    the ritual's [onComplete] sets the index 1 in a list of one task, and
    the render reads [tasks[1]], which is [undefined]. *)
Theorem task_list_invariant (b : Browser) (s : TaskList.State)
    (l : list TaskListUI.Action) :
  TaskListUI.invariant TaskList.init
  /\ (TaskListUI.invariant s ->
      TaskListUI.allOffered b s l ->
      let s' := TaskListUI.performAll b s l in
      TaskListUI.invariant s'
      /\ TaskListUI.timerTask s' <> Some None)
  /\ (let pg :=
        fst (Page.onComplete b
               (Page.call (TaskList.removeTask "2")
                  (Page.countdownEnds Page.IntervalDriven
                     (Page.started [taskA; taskB])))) in
      Page.taskList pg = TaskList.mkState [taskA] (Some 1) false
      /\ TaskListUI.timerTask (Page.taskList pg) = Some None).
Proof.
  split; [|split].
  - unfold TaskListUI.invariant, TaskList.init. cbn.
    repeat split; try constructor; discriminate.
  - intros Hi Ho s'.
    pose proof (performAll_invariant b l s Hi Ho) as Hinv.
    split; [exact Hinv|].
    destruct Hinv as (_ & Hidx & _ & _). fold s' in Hidx.
    unfold TaskListUI.timerTask, TaskList.runState.
    destruct (TaskList.allTasksCompleted s'); [discriminate|].
    destruct (TaskList.currentTaskIndex s') as [c|]; [|discriminate].
    destruct (0 <? TaskList.len (TaskList.tasks s')); [|discriminate].
    destruct (get_in_range (TaskList.tasks s') c (Hidx c eq_refl)) as [t Ht].
    rewrite Ht. discriminate.
  - split; reflexivity.
Qed.

(** A run of X4: three tasks are added, the second is started, the first
    is removed, the active one completes with an up to date signal. *)
Lemma task_list_invariant_witness :
  let s' := TaskListUI.performAll foreground TaskList.init
              [TaskListUI.AddTask taskA; TaskListUI.AddTask taskB;
               TaskListUI.AddTask taskC; TaskListUI.StartTask 1;
               TaskListUI.RemoveTask "1";
               TaskListUI.TaskComplete
                 (TaskList.mkState [taskB; taskC] (Some 0) false)] in
  TaskListUI.invariant s' /\ TaskListUI.timerTask s' <> Some None.
Proof.
  refine (proj1 (proj2 (task_list_invariant foreground TaskList.init _)) _ _).
  - unfold TaskListUI.invariant, TaskList.init. cbn.
    repeat split; try constructor; discriminate.
  - cbn. repeat split; try lia; intuition discriminate.
Defined.

(** X5.  Removing a task that stands after the active one leaves the
    active index, the active task and every task before the removed one
    where they are, and the Timer keeps running. *)
Theorem removeTask_after_active (taskId : string) (l : list TaskList.Task)
    (c k : Z) :
  NoDup (TaskList.ids l) ->
  0 <= c ->
  TaskList.findIndex (fun t => String.eqb (TaskList.id t) taskId) l = k ->
  c < k ->
  let s' := TaskList.removeTask taskId (TaskList.mkState l (Some c) false) in
  TaskList.currentTaskIndex s' = Some c
  /\ TaskList.runState s' = TaskList.Running c
  /\ (forall i, 0 <= i < k ->
        TaskList.get (TaskList.tasks s') i = TaskList.get l i)
  /\ TaskList.len (TaskList.tasks s') = TaskList.len l - 1.
Proof.
  intros Hnd Hc Hk Hck s'.
  destruct (filter_found taskId l k Hnd Hk ltac:(lia)) as [Hlen Hget].
  pose proof (findIndex_range (fun t => String.eqb (TaskList.id t) taskId) l) as Hr.
  rewrite Hk in Hr.
  assert (Hi : TaskList.currentTaskIndex s' = Some c).
  { unfold s'.
    rewrite (removeTask_index taskId (TaskList.mkState l (Some c) false) c eq_refl).
    cbv zeta. cbn [TaskList.tasks]. rewrite Hk.
    destruct (Z.eqb_spec k c); [lia|]. destruct (Z.ltb_spec k c); [lia|reflexivity]. }
  assert (Ht : TaskList.tasks s'
               = filter (fun t => negb (String.eqb (TaskList.id t) taskId)) l)
    by reflexivity.
  split; [exact Hi|]. split; [|split].
  - unfold TaskList.runState. change (TaskList.allTasksCompleted s') with false.
    rewrite Hi, Ht, Hlen.
    destruct (Z.ltb_spec 0 (TaskList.len l - 1)); [reflexivity|lia].
  - intros i Hik. rewrite Ht, Hget by lia.
    destruct (Z.ltb_spec i k); [reflexivity|lia].
  - now rewrite Ht.
Qed.

(** A run of X5: the first task is active, the third is removed. *)
Lemma removeTask_after_active_witness :
  TaskList.currentTaskIndex
    (TaskList.removeTask "3" (TaskList.mkState [taskA; taskB; taskC] (Some 0) false))
  = Some 0.
Proof.
  refine (proj1 (removeTask_after_active "3" [taskA; taskB; taskC] 0 2 _ _ _ _)).
  - repeat constructor; cbn; intuition discriminate.
  - discriminate.
  - reflexivity.
  - reflexivity.
Defined.

(** X6.  [addTask] appends the task, with default sound ids where it has
    none, and disturbs nothing else: the tasks already in the list keep
    their positions, the active index is kept, a running Timer keeps
    running on the same task, and the completion card gives way (the
    [allTasksCompleted] flag is cleared). *)
Theorem addTask_keeps_active (t : TaskList.Task) (s : TaskList.State) :
  let s' := TaskList.addTask t s in
  TaskList.len (TaskList.tasks s') = TaskList.len (TaskList.tasks s) + 1
  /\ (forall i, 0 <= i < TaskList.len (TaskList.tasks s) ->
        TaskList.get (TaskList.tasks s') i = TaskList.get (TaskList.tasks s) i)
  /\ TaskList.get (TaskList.tasks s') (TaskList.len (TaskList.tasks s))
     = Some (TaskList.withSounds t)
  /\ TaskListUI.hasSounds (TaskList.withSounds t)
  /\ TaskList.currentTaskIndex s' = TaskList.currentTaskIndex s
  /\ TaskList.allTasksCompleted s' = false
  /\ (forall c, TaskList.runState s = TaskList.Running c ->
        TaskList.runState s' = TaskList.Running c).
Proof.
  cbv zeta. unfold TaskList.addTask. cbn [TaskList.tasks TaskList.currentTaskIndex
    TaskList.allTasksCompleted].
  split; [rewrite len_app; reflexivity|].
  split; [intros i Hi; now apply get_app_left|].
  split; [apply get_app_end|].
  split; [apply withSounds_hasSounds|].
  split; [reflexivity|]. split; [reflexivity|].
  intros c. unfold TaskList.runState.
  cbn [TaskList.tasks TaskList.currentTaskIndex TaskList.allTasksCompleted].
  destruct (TaskList.allTasksCompleted s); [discriminate|].
  destruct (TaskList.currentTaskIndex s) as [c0|]; [|discriminate].
  rewrite len_app. change (TaskList.len [TaskList.withSounds t]) with 1.
  pose proof (len_nonneg (TaskList.tasks s)).
  destruct (Z.ltb_spec 0 (TaskList.len (TaskList.tasks s))); [|discriminate].
  destruct (Z.ltb_spec 0 (TaskList.len (TaskList.tasks s) + 1)); [auto|lia].
Qed.

(** A run of X6: a third task is added while the second is running. *)
Lemma addTask_keeps_active_witness :
  TaskList.runState
    (TaskList.addTask taskC (TaskList.mkState [taskA; taskB] (Some 1) false))
  = TaskList.Running 1.
Proof.
  refine (proj2 (proj2 (proj2 (proj2 (proj2 (proj2
           (addTask_keeps_active taskC
              (TaskList.mkState [taskA; taskB] (Some 1) false))))))) 1 _).
  reflexivity.
Defined.

(** X7.  [editTask] replaces, in place, the tasks that carry the id of the
    edited task by the edited task with its sound ids, and nothing else:
    the ids, the length, the active index, the completion flag and the run
    state are kept, and an id that is not in the list changes nothing. *)
Theorem editTask_in_place (u : TaskList.Task) (s : TaskList.State) :
  let s' := TaskList.editTask u s in
  TaskList.ids (TaskList.tasks s') = TaskList.ids (TaskList.tasks s)
  /\ TaskList.len (TaskList.tasks s') = TaskList.len (TaskList.tasks s)
  /\ (forall i,
        TaskList.get (TaskList.tasks s') i
        = option_map (fun t => if String.eqb (TaskList.id t) (TaskList.id u)
                               then TaskList.withSounds u else t)
                     (TaskList.get (TaskList.tasks s) i))
  /\ TaskList.currentTaskIndex s' = TaskList.currentTaskIndex s
  /\ TaskList.allTasksCompleted s' = TaskList.allTasksCompleted s
  /\ TaskList.runState s' = TaskList.runState s
  /\ (~ In (TaskList.id u) (TaskList.ids (TaskList.tasks s)) ->
      TaskList.tasks s' = TaskList.tasks s).
Proof.
  cbv zeta.
  split; [apply editTask_ids|]. split; [apply editTask_len|].
  split; [|split; [reflexivity|split; [reflexivity|split]]].
  - intros i. unfold TaskList.editTask, TaskList.get. cbn [TaskList.tasks].
    destruct (i <? 0); [reflexivity|]. now rewrite nth_error_map.
  - unfold TaskList.runState. rewrite editTask_len. reflexivity.
  - intros Hn. unfold TaskList.editTask. cbn [TaskList.tasks].
    rewrite <- (map_id (TaskList.tasks s)) at 2. apply map_ext_in.
    intros t Ht. rewrite withSounds_id.
    destruct (String.eqb_spec (TaskList.id t) (TaskList.id u)) as [E|E];
      [|reflexivity].
    exfalso. apply Hn. rewrite <- E. unfold TaskList.ids. now apply in_map.
Qed.

(** A run of X7: an edit that carries an id the list does not have. *)
Lemma editTask_in_place_witness :
  TaskList.tasks
    (TaskList.editTask taskC (TaskList.mkState [taskA; taskB] (Some 1) false))
  = [taskA; taskB].
Proof.
  refine (proj2 (proj2 (proj2 (proj2 (proj2 (proj2
           (editTask_in_place taskC
              (TaskList.mkState [taskA; taskB] (Some 1) false))))))) _).
  cbn. intuition discriminate.
Defined.

(** X8.  Under the interval driven Timer, each active task running to
    its end, the completion of the last task leaves the page with all
    tasks completed, without a Timer and without a ritual in flight.  On
    that page no countdown can end and no ritual can call [onComplete],
    with either Timer.  "Start Over" gives exactly the page of
    [startTask(0)] on the same list, and as many task runs complete the
    list again. *)
Theorem all_complete_until_start_over (b : Browser) (l : list TaskList.Task)
    (kind : Page.TimerKind) (k : nat) :
  l <> [] ->
  let N := List.length l in
  let allComplete := Page.mkPage (TaskList.mkState l None true) None [] in
  fst (Page.taskRuns Page.IntervalDriven b N (Page.started l)) = allComplete
  /\ Page.taskRuns kind b k allComplete = (allComplete, [])
  /\ Page.call TaskList.resetTaskList allComplete = Page.started l
  /\ TaskList.runState
       (Page.taskList (Page.call TaskList.resetTaskList allComplete))
     = TaskList.Running 0
  /\ fst (Page.taskRuns Page.IntervalDriven b N
            (Page.call TaskList.resetTaskList allComplete)) = allComplete.
Proof.
  intros Hne N allComplete.
  pose proof (len_positive l Hne) as Hlen.
  assert (HN : N <> 0%nat) by (unfold N; destruct l; [congruence|discriminate]).
  destruct (interval_runs b N l 0 (TaskList.mkState l (Some 0) false)
              ltac:(lia) ltac:(unfold TaskList.len; lia)) as [_ H2].
  assert (Hdone : fst (Page.taskRuns Page.IntervalDriven b N (Page.started l))
                  = allComplete).
  { rewrite (started_running l Hlen), (H2 HN). reflexivity. }
  assert (Hreset : Page.call TaskList.resetTaskList allComplete = Page.started l).
  { rewrite (started_running l Hlen).
    unfold Page.call, allComplete, TaskList.resetTaskList, Page.render,
      TaskList.runState.
    cbn [Page.taskList Page.mounted Page.rituals TaskList.tasks
         TaskList.currentTaskIndex TaskList.allTasksCompleted].
    destruct (Z.ltb_spec 0 (TaskList.len l)); [reflexivity|lia]. }
  split; [exact Hdone|]. split; [apply taskRuns_unmounted|].
  split; [exact Hreset|]. rewrite Hreset. split; [|exact Hdone].
  rewrite (started_running l Hlen). cbn [Page.taskList].
  now apply runState_running.
Qed.

(** A run of X8 with three tasks: Start Over after the list is
    completed. *)
Lemma all_complete_until_start_over_witness :
  Page.call TaskList.resetTaskList
    (Page.mkPage (TaskList.mkState [taskA; taskB; taskC] None true) None [])
  = Page.started [taskA; taskB; taskC].
Proof.
  refine (proj1 (proj2 (proj2
           (all_complete_until_start_over foreground [taskA; taskB; taskC]
              Page.IntervalDriven 2 _)))).
  discriminate.
Defined.

(** * Further properties of the Timers *)

Section TimerFurther.

Import WorkerTimer WorkerTimerControls.

Lemma reminderRitualsOf_app (a b : list Effect) :
  reminderRitualsOf (a ++ b) = reminderRitualsOf a ++ reminderRitualsOf b.
Proof. apply flat_map_app. Qed.

Lemma worker_notificationSequence_rituals b p v n m :
  reminderRitualsOf (trace (notificationSequence b p v n m)) = []
  /\ countFinalMinuteRituals (trace (notificationSequence b p v n m)) = 0%nat.
Proof. browser_cases b; destruct v, n; split; reflexivity. Qed.

Lemma worker_finalMinuteSequence_rituals b p v n m :
  reminderRitualsOf (trace (finalMinuteSequence b p v n m)) = []
  /\ countFinalMinuteRituals (trace (finalMinuteSequence b p v n m)) = 0%nat.
Proof. browser_cases b; destruct v, n; split; reflexivity. Qed.

Lemma worker_completionSequence_rituals b p v n :
  reminderRitualsOf (trace (completionSequence b p v n)) = []
  /\ countFinalMinuteRituals (trace (completionSequence b p v n)) = 0%nat.
Proof. browser_cases b; destruct v, n; split; reflexivity. Qed.

Lemma deliverAll_cons b p st e evs :
  deliverAll b p st (e :: evs)
  = (fst (deliverAll b p (fst (onmessage b p st e)) evs),
     snd (onmessage b p st e)
     ++ snd (deliverAll b p (fst (onmessage b p st e)) evs)).
Proof.
  unfold deliverAll. cbn [map deliver].
  destruct (onmessage b p st e) as [s1 t1]. cbn [fst snd].
  now destruct (deliver p s1 _).
Qed.

Lemma deliverAll_app b p evs1 : forall st evs2,
  deliverAll b p st (evs1 ++ evs2)
  = (fst (deliverAll b p (fst (deliverAll b p st evs1)) evs2),
     snd (deliverAll b p st evs1)
     ++ snd (deliverAll b p (fst (deliverAll b p st evs1)) evs2)).
Proof.
  induction evs1 as [|e evs1 IH]; intros st evs2.
  - change (deliverAll b p st []) with (st, @nil Effect).
    cbn [app fst snd]. now destruct (deliverAll b p st evs2).
  - rewrite <- app_comm_cons, !deliverAll_cons, IH. cbn [fst snd].
    now rewrite app_assoc.
Qed.

(** Every reminder and every warning of the worker starts its ritual,
    once, and nothing else does. *)
Lemma deliverAll_rituals b p evs : forall st,
  reminderRitualsOf (snd (deliverAll b p st evs)) = Worker.remindersOf evs
  /\ countFinalMinuteRituals (snd (deliverAll b p st evs))
     = Worker.countFinalMinute evs.
Proof.
  induction evs as [|e evs IH]; intros st; [split; reflexivity|].
  rewrite deliverAll_cons. cbn [snd].
  rewrite reminderRitualsOf_app, countFinalMinuteRituals_app.
  destruct (IH (fst (onmessage b p st e))) as [IH1 IH2]. rewrite IH1, IH2.
  destruct e as [tl|el| | |tl];
    cbn -[completionSequence notificationSequence finalMinuteSequence
          reminderRitualsOf countFinalMinuteRituals].
  - split; reflexivity.
  - change (reminderRitualsOf (AppendNotification (HavePassed el) :: ?t))
      with (el :: reminderRitualsOf t).
    change (countFinalMinuteRituals (AppendNotification (HavePassed el) :: ?t))
      with (countFinalMinuteRituals t).
    destruct (worker_notificationSequence_rituals b p (isVisible st)
                (notificationsEnabled st) (HavePassed el)) as [-> ->].
    split; reflexivity.
  - change (reminderRitualsOf (AppendNotification OneMinuteLeft :: ?t))
      with (reminderRitualsOf t).
    change (countFinalMinuteRituals (AppendNotification OneMinuteLeft :: ?t))
      with (S (countFinalMinuteRituals t)).
    destruct (worker_finalMinuteSequence_rituals b p (isVisible st)
                (notificationsEnabled st) OneMinuteLeft) as [-> ->].
    split; reflexivity.
  - unfold handleTaskComplete.
    destruct (hasCalledOnComplete st); cbn [negb snd]; [split; reflexivity|].
    change (reminderRitualsOf (AppendNotification TaskCompletedAt :: ?t))
      with (reminderRitualsOf t).
    change (countFinalMinuteRituals (AppendNotification TaskCompletedAt :: ?t))
      with (countFinalMinuteRituals t).
    destruct (worker_completionSequence_rituals b p (isVisible st)
                (notificationsEnabled st)) as [-> ->].
    split; reflexivity.
  - split; reflexivity.
Qed.

Lemma last_cons_default (l : list Z) : forall x d,
  last (x :: l) d = last l x.
Proof.
  induction l as [|y l IH]; intros x d; [reflexivity|].
  change (last (x :: y :: l) d) with (last (y :: l) d).
  rewrite IH. symmetry. apply IH.
Qed.

(** Without [complete] and [reset] messages, the Timer shows the
    [timeLeft] of the last tick and keeps its other fields. *)
Lemma deliverAll_ticks b p evs : forall st,
  Worker.countComplete evs = 0%nat ->
  (forall t, ~ In (Worker.resetDone t) evs) ->
  let st' := fst (deliverAll b p st evs) in
  timeLeft st' = last (Worker.ticksOf evs) (timeLeft st)
  /\ isRunning st' = isRunning st
  /\ hasCalledOnComplete st' = hasCalledOnComplete st
  /\ isVisible st' = isVisible st
  /\ notificationsEnabled st' = notificationsEnabled st
  /\ countOnComplete (snd (deliverAll b p st evs)) = 0%nat.
Proof.
  induction evs as [|e evs IH]; intros st Hc Hr; [cbn; auto 10|].
  cbv zeta. rewrite deliverAll_cons. cbn [fst snd].
  assert (Hr' : forall t, ~ In (Worker.resetDone t) evs)
    by (intros t H; apply (Hr t); now right).
  rewrite countOnComplete_app.
  destruct e as [tl|el| | |tl].
  - destruct (IH (fst (onmessage b p st (Worker.tick tl))) Hc Hr')
      as (I1 & I2 & I3 & I4 & I5 & I6).
    rewrite I1, I2, I3, I4, I5, I6.
    cbn [Worker.ticksOf flat_map app onmessage fst snd timeLeft isRunning
         hasCalledOnComplete isVisible notificationsEnabled].
    change (flat_map _ evs) with (Worker.ticksOf evs).
    repeat split. symmetry. apply last_cons_default.
  - destruct (IH (fst (onmessage b p st (Worker.recurrent el))) Hc Hr')
      as (I1 & I2 & I3 & I4 & I5 & I6).
    rewrite I1, I2, I3, I4, I5, I6.
    cbn -[notificationSequence countOnComplete].
    change (countOnComplete (AppendNotification ?m :: ?t)) with (countOnComplete t).
    rewrite worker_notificationSequence_onComplete. repeat split.
  - destruct (IH (fst (onmessage b p st Worker.finalMinute)) Hc Hr')
      as (I1 & I2 & I3 & I4 & I5 & I6).
    rewrite I1, I2, I3, I4, I5, I6.
    cbn -[finalMinuteSequence countOnComplete].
    change (countOnComplete (AppendNotification ?m :: ?t)) with (countOnComplete t).
    rewrite worker_finalMinuteSequence_onComplete. repeat split.
  - discriminate Hc.
  - exfalso. apply (Hr tl). now left.
Qed.

End TimerFurther.

Section TimerFurtherCountdown.

Import Worker.

Lemma downFrom_last (n : nat) : forall D d,
  n <> 0%nat -> last (downFrom D n) d = D - Z.of_nat n.
Proof.
  induction n as [|n IH]; intros D d Hn; [congruence|].
  cbn [downFrom]. rewrite last_cons_default.
  destruct n as [|n]; [cbn; lia|].
  rewrite IH by discriminate. lia.
Qed.

Lemma callback_no_reset now s t :
  ~ In (resetDone t) (snd (intervalCallback now s)).
Proof.
  unfold intervalCallback. cbn [snd]. rewrite !in_app_iff.
  intros H.
  repeat match goal with
         | H : _ \/ _ |- _ => destruct H
         | H : In _ (if ?c then _ else _) |- _ => destruct c
         | H : In _ [] |- _ => destruct H
         | H : In _ [_] |- _ => destruct H as [H|[]]; discriminate H
         end.
Qed.

Lemma fires_no_reset (ts : list Z) : forall s t,
  ~ In (resetDone t) (snd (run s (map Fire ts))).
Proof.
  induction ts as [|now ts IH]; intros s t; [intros []|].
  cbn [map]. rewrite run_cons. cbn [snd step]. rewrite in_app_iff.
  intros [H|H].
  - destruct (timerId s); [now apply callback_no_reset in H|destruct H].
  - now apply IH in H.
Qed.

End TimerFurtherCountdown.

(** X9.  The worker and the Timer together: when the events of a countdown
    of the task's duration reach the Timer of that activation, the Timer
    ends with [timeLeft = 0], stopped, the latch closed and [onComplete]
    called exactly once; it has started one reminder ritual for each
    reminder of the worker, with the same elapsed seconds, and one
    final-minute ritual for each warning. *)
Theorem countdown_delivered (b : Browser) (p : TimerProps)
    (st : WorkerTimer.State) (s : Worker.State) (ts : list Z) :
  0 < duration p ->
  Z.of_nat (List.length ts) = duration p ->
  let evs := snd (Worker.countdown s (duration p) (recurrentTime p) ts) in
  let r := WorkerTimerControls.deliverAll b p (WorkerTimer.activate p st) evs in
  WorkerTimer.timeLeft (fst r) = 0
  /\ WorkerTimer.isRunning (fst r) = false
  /\ WorkerTimer.hasCalledOnComplete (fst r) = true
  /\ countOnComplete (snd r) = 1%nat
  /\ reminderRitualsOf (snd r) = Worker.remindersOf evs
  /\ countFinalMinuteRituals (snd r) = Worker.countFinalMinute evs.
Proof.
  intros HD Hlen evs r.
  destruct (deliverAll_rituals b p evs (WorkerTimer.activate p st)) as [R1 R2].
  fold r in R1, R2.
  assert (Hev : evs = snd (Worker.run
                  (Worker.mkState true (duration p) (duration p)
                     (recurrentTime p) (Worker.lastNotificationTime s))
                  (map Worker.Fire ts)))
    by (unfold evs; now rewrite countdown_fires).
  set (s0 := Worker.mkState _ _ _ _ _) in Hev.
  assert (Hne : ts <> []) by (destruct ts; [cbn in Hlen; lia|discriminate]).
  destruct (fires_countdown ts s0 eq_refl ltac:(cbn; lia))
    as (T1 & _ & _ & _ & T5).
  destruct (T5 Hlen Hne) as [_ (evs' & Hsplit & Hc)].
  rewrite <- Hev in T1, Hsplit.
  assert (Hticks : Worker.ticksOf evs' = downFrom (duration p) (List.length ts)).
  { rewrite Hsplit, ticksOf_app in T1. cbn in T1.
    now rewrite app_nil_r in T1. }
  assert (Hnr : forall t, ~ In (Worker.resetDone t) evs').
  { intros t Hin. apply (fires_no_reset ts s0 t). rewrite <- Hev, Hsplit.
    apply in_app_iff. now left. }
  destruct (deliverAll_ticks b p evs' (WorkerTimer.activate p st) Hc Hnr)
    as (D1 & D2 & D3 & _ & _ & D6).
  rewrite Hticks, downFrom_last in D1 by (intros E; rewrite E in Hlen; cbn in Hlen; lia).
  assert (Hr : r = WorkerTimerControls.deliverAll b p (WorkerTimer.activate p st)
                     (evs' ++ [Worker.complete])) by (unfold r; now rewrite Hsplit).
  rewrite deliverAll_app in Hr.
  set (st1 := fst (WorkerTimerControls.deliverAll b p (WorkerTimer.activate p st) evs')) in *.
  change (WorkerTimer.isRunning (WorkerTimer.activate p st)) with true in D2.
  change (WorkerTimer.hasCalledOnComplete (WorkerTimer.activate p st)) with false in D3.
  assert (Hlast : WorkerTimerControls.deliverAll b p st1 [Worker.complete]
                  = (WorkerTimer.mkState (WorkerTimer.timeLeft st1) false true
                       (WorkerTimer.isVisible st1) (WorkerTimer.notificationsEnabled st1),
                     AppendNotification TaskCompletedAt
                       :: trace (WorkerTimer.completionSequence b p
                                   (WorkerTimer.isVisible st1)
                                   (WorkerTimer.notificationsEnabled st1)))).
  { unfold WorkerTimerControls.deliverAll. cbn [map WorkerTimer.deliver].
    unfold WorkerTimer.onmessage, WorkerTimer.handler,
      WorkerTimer.handleTaskComplete.
    rewrite D3. cbn [negb]. now rewrite app_nil_r. }
  rewrite Hlast in Hr. cbn [fst snd] in Hr.
  split; [rewrite Hr; cbn [fst WorkerTimer.timeLeft]; lia|].
  split; [now rewrite Hr|]. split; [now rewrite Hr|].
  split; [|split; [exact R1|exact R2]].
  rewrite Hr. cbn [snd]. rewrite countOnComplete_app, D6.
  change (countOnComplete (AppendNotification ?m :: ?t)) with (countOnComplete t).
  now rewrite worker_completionSequence_onComplete.
Qed.

(** A run of X9: the task of 70 seconds on a visible page. *)
Lemma countdown_delivered_witness :
  reminderRitualsOf
    (snd (WorkerTimerControls.deliverAll foreground shower
            (WorkerTimer.activate shower (WorkerTimer.mount shower))
            (snd (Worker.countdown Worker.init (duration shower)
                    (recurrentTime shower) (everySecond 10000 70)))))
  = Worker.remindersOf
      (snd (Worker.countdown Worker.init (duration shower)
              (recurrentTime shower) (everySecond 10000 70))).
Proof.
  refine (proj1 (proj2 (proj2 (proj2 (proj2
           (countdown_delivered foreground shower (WorkerTimer.mount shower)
              Worker.init (everySecond 10000 70) _ _)))))); reflexivity.
Defined.

(** X10.  Reset, from the Timer to the worker and back: the Reset button
    stops the Timer, reopens the latch and posts [reset] with the task's
    duration; the worker stops, forgets the time of the last reminder and
    answers with its new [timeLeft], which the Timer then shows.  Both
    sides end on the same [timeLeft]: the duration of the task, or, for a
    duration of 0, the duration the worker had stored. *)
Theorem reset_round_trip (b : Browser) (p : TimerProps)
    (st : WorkerTimer.State) (s : Worker.State) :
  let r1 := WorkerTimerControls.resetTimer p st in
  let r2 := postAll s (snd r1) in
  let r3 := WorkerTimerControls.deliverAll b p (fst r1) (snd r2) in
  WorkerTimer.timeLeft (fst r3) = Worker.timeLeft (fst r2)
  /\ Worker.timeLeft (fst r2)
     = (if duration p =? 0 then Worker.duration s else duration p)
  /\ Worker.timerId (fst r2) = false
  /\ Worker.lastNotificationTime (fst r2) = 0
  /\ Worker.duration (fst r2) = Worker.duration s
  /\ WorkerTimer.isRunning (fst r3) = false
  /\ WorkerTimer.hasCalledOnComplete (fst r3) = false
  /\ snd r3 = [].
Proof. cbv zeta. cbn. destruct (duration p =? 0); repeat split. Qed.

(** X11.  The Start/Pause button.  While time is left, pressing it twice
    gives back the state it found and posts nothing: a pause touches
    neither [timeLeft] nor the latch, and the worker is told [pause] and
    then [start] with the same [timeLeft].  The same holds for the
    interval driven Timer, whose interval does nothing while it is
    paused. *)
Theorem toggle_pauses_and_resumes (p : TimerProps) (st : WorkerTimer.State)
    (st' : IntervalTimer.State) (idle : list (Z * Browser)) :
  WorkerTimer.timeLeft st <> 0 ->
  IntervalTimer.timeLeft st' <> 0 ->
  WorkerTimer.isRunning st = true ->
  IntervalTimer.isRunning st' = true ->
  let paused := fst (WorkerTimerControls.toggleTimer p st) in
  let paused' := fst (IntervalTimerControls.toggleTimer p st') in
  WorkerTimerControls.toggleTimer p st
    = (WorkerTimer.mkState (WorkerTimer.timeLeft st) false
         (WorkerTimer.hasCalledOnComplete st) (WorkerTimer.isVisible st)
         (WorkerTimer.notificationsEnabled st), [])
  /\ WorkerTimerControls.toggleTimer p paused = (st, [])
  /\ WorkerTimerControls.controlWorker p paused = Worker.pause
  /\ WorkerTimerControls.controlWorker p st
     = Worker.start (duration p) (WorkerTimer.timeLeft st) (recurrentTime p)
  /\ IntervalTimerControls.toggleTimer p paused' = (st', [])
  /\ effectsOf (IntervalTimer.ticks p paused' idle) = []
  /\ map fst (IntervalTimer.ticks p paused' idle) = map (fun _ => paused') idle.
Proof.
  intros Ht Ht' Hr Hr' paused paused'.
  assert (Hp : WorkerTimerControls.toggleTimer p st
               = (WorkerTimer.mkState (WorkerTimer.timeLeft st) false
                    (WorkerTimer.hasCalledOnComplete st) (WorkerTimer.isVisible st)
                    (WorkerTimer.notificationsEnabled st), [])).
  { unfold WorkerTimerControls.toggleTimer. rewrite Hr. reflexivity. }
  assert (Hp' : IntervalTimerControls.toggleTimer p st'
                = (IntervalTimer.mkState (IntervalTimer.timeLeft st') false
                     (IntervalTimer.lastNotificationTime st')
                     (IntervalTimer.hasCalledOnComplete st'), [])).
  { unfold IntervalTimerControls.toggleTimer. rewrite Hr'. reflexivity. }
  unfold paused, paused'. rewrite Hp, Hp'. cbn [fst].
  split; [reflexivity|]. split; [|split; [reflexivity|split]].
  - unfold WorkerTimerControls.toggleTimer.
    cbn [WorkerTimer.isRunning WorkerTimer.timeLeft negb andb
         WorkerTimer.hasCalledOnComplete WorkerTimer.isVisible
         WorkerTimer.notificationsEnabled].
    destruct (Z.eqb_spec (WorkerTimer.timeLeft st) 0); [contradiction|].
    destruct st; cbn in *; subst; reflexivity.
  - unfold WorkerTimerControls.controlWorker. now rewrite Hr.
  - split; [|split].
    + unfold IntervalTimerControls.toggleTimer.
      cbn [IntervalTimer.isRunning IntervalTimer.timeLeft negb andb
           IntervalTimer.hasCalledOnComplete IntervalTimer.lastNotificationTime].
      destruct (Z.eqb_spec (IntervalTimer.timeLeft st') 0); [contradiction|].
      destruct st'; cbn in *; subst; reflexivity.
    + induction idle as [|[now b] idle IH]; [reflexivity|exact IH].
    + induction idle as [|[now b] idle IH]; [reflexivity|].
      cbn [IntervalTimer.ticks map fst]. f_equal. exact IH.
Qed.

(** A run of X11: the Timer of the 70 second task, 40 seconds in. *)
Lemma toggle_pauses_and_resumes_witness :
  WorkerTimerControls.toggleTimer shower
    (fst (WorkerTimerControls.toggleTimer shower
            (WorkerTimer.mkState 30 true false true false)))
  = (WorkerTimer.mkState 30 true false true false, []).
Proof.
  refine (proj1 (proj2 (toggle_pauses_and_resumes shower
                          (WorkerTimer.mkState 30 true false true false)
                          (IntervalTimer.mkState 30 true 0 false) [] _ _ _ _)));
    (discriminate || reflexivity).
Defined.

(** The button on a finished Timer: with [isRunning] false and no
    time left it starts a new activation, the state being that of
    [activate] (for the interval driven Timer up to the time of the last
    reminder, which the button keeps), so that the next [complete] calls
    [onComplete] once more. *)
Lemma toggle_restarts_when_finished (b : Browser) (p : TimerProps)
    (st : WorkerTimer.State) (st' : IntervalTimer.State) :
  WorkerTimer.isRunning st = false ->
  WorkerTimer.timeLeft st = 0 ->
  IntervalTimer.isRunning st' = false ->
  IntervalTimer.timeLeft st' = 0 ->
  let r := WorkerTimerControls.toggleTimer p st in
  let r' := IntervalTimerControls.toggleTimer p st' in
  fst r = WorkerTimer.activate p st
  /\ snd r = [ClearNotifications; PostMessage (Worker.reset (duration p))]
  /\ countOnComplete (snd (WorkerTimer.onmessage b p (fst r) Worker.complete))
     = 1%nat
  /\ fst r' = IntervalTimer.mkState (duration p) true
                (IntervalTimer.lastNotificationTime st') false
  /\ snd r' = [ClearNotifications].
Proof.
  intros Hr Ht Hr' Ht' r r'.
  unfold r, r', WorkerTimerControls.toggleTimer, IntervalTimerControls.toggleTimer.
  rewrite Hr, Ht, Hr', Ht'. cbn [negb andb Z.eqb fst snd].
  repeat split.
  cbn -[WorkerTimer.completionSequence countOnComplete].
  change (countOnComplete (AppendNotification ?m :: ?t)) with (countOnComplete t).
  apply worker_completionSequence_onComplete.
Qed.

(** * The reminders of the interval driven Timer *)

Section IntervalReminders.

Import IntervalTimer.

Lemma interval_sequences_rituals b p e :
  reminderRitualsOf (trace (notificationSequence b p e)) = [e]
  /\ reminderRitualsOf (trace (finalMinuteSequence b p)) = []
  /\ reminderRitualsOf (trace (completionSequence b p)) = [].
Proof. browser_cases b; repeat split; reflexivity. Qed.

(** The condition of the reminder check of the updater. *)
Lemma tickUpdater_reminders now b p st :
  1 < timeLeft st ->
  let e := duration p - timeLeft st in
  let due := (0 <? recurrentTime p) && (0 <? e)
             && (Z.rem e (recurrentTime p) <? 1)
             && (5000 <? now - lastNotificationTime st) in
  reminderRitualsOf (snd (tickUpdater now b p st)) = (if due then [e] else [])
  /\ lastNotificationTime (fst (tickUpdater now b p st))
     = (if due then now else lastNotificationTime st)
  /\ timeLeft (fst (tickUpdater now b p st)) = timeLeft st - 1
  /\ isRunning (fst (tickUpdater now b p st)) = isRunning st.
Proof.
  intros H e due. unfold tickUpdater.
  destruct (Z.leb_spec (timeLeft st) 1); [lia|].
  cbn [fst snd lastNotificationTime timeLeft isRunning].
  fold e. fold due. rewrite reminderRitualsOf_app.
  destruct (interval_sequences_rituals b p e) as (S1 & S2 & _).
  destruct due; destruct (timeLeft st =? 60);
    rewrite ?S1, ?S2; repeat split.
Qed.

Lemma tickUpdater_last_second now b p st :
  timeLeft st <= 1 ->
  reminderRitualsOf (snd (tickUpdater now b p st)) = [].
Proof.
  intros H. unfold tickUpdater.
  destruct (Z.leb_spec (timeLeft st) 1); [|lia].
  destruct (interval_sequences_rituals b p 0) as (_ & _ & S3).
  destruct (hasCalledOnComplete st); cbn [negb snd]; [reflexivity|exact S3].
Qed.

(** With an interval of six seconds or more and callbacks that never come
    early, the updater starts a reminder ritual at every elapsed second on
    the interval that it checks: those of all ticks but the one that
    finishes the countdown. *)
Lemma interval_ticks_reminders (p : TimerProps) (l : list (Z * Browser)) :
  forall st lb,
  (l <> [] -> isRunning st = true) ->
  Z.of_nat (List.length l) <= timeLeft st ->
  5 < recurrentTime p ->
  1 <= duration p - timeLeft st ->
  paced lb (map fst l) ->
  lastNotificationTime st + 5000
    < lb + 1000 * (recurrentTime p - 1
                   - (duration p - timeLeft st - 1) mod recurrentTime p) ->
  reminderRitualsOf (effectsOf (ticks p st l))
  = filter (onInterval (recurrentTime p))
      (upFrom (duration p - timeLeft st - 1)
         (if Z.of_nat (List.length l) =? timeLeft st
          then pred (List.length l) else List.length l)).
Proof.
  induction l as [|[now b] l IH]; intros st lb Hrun Hlen HR He Hp Hlast.
  - cbn [List.length pred]. destruct (Z.of_nat 0 =? timeLeft st); reflexivity.
  - assert (Hit : intervalTick now b p st = tickUpdater now b p st)
      by (unfold intervalTick; now rewrite Hrun by discriminate).
    cbn [ticks]. rewrite Hit. unfold effectsOf. cbn [map concat fst snd].
    rewrite reminderRitualsOf_app. fold (effectsOf (ticks p (fst (tickUpdater now b p st)) l)).
    cbn [List.length] in *. destruct Hp as [Hlb Hp]. cbn [map fst] in Hlb.
    destruct (Z.le_gt_cases (timeLeft st) 1) as [Hone|Hmore].
    + (* the tick that finishes the countdown *)
      destruct l; [|cbn [List.length] in Hlen; lia].
      rewrite tickUpdater_last_second by assumption.
      cbn [ticks effectsOf map concat List.length pred].
      replace (Z.of_nat 1 =? timeLeft st) with true
        by (symmetry; apply Z.eqb_eq; cbn [List.length] in Hlen; lia).
      reflexivity.
    + destruct (tickUpdater_reminders now b p st Hmore) as (T1 & T2 & T3 & T4).
      cbv zeta in T1, T2.
      set (s1 := fst (tickUpdater now b p st)) in *.
      set (R := recurrentTime p) in *.
      set (ew := duration p - timeLeft st - 1) in *.
      replace (duration p - timeLeft st) with (ew + 1) in T1, T2 by (unfold ew; lia).
      pose proof (Z.mod_pos_bound ew R ltac:(lia)) as Hb.
      pose proof (mod_succ R ltac:(lia) ew ltac:(lia)) as Hms.
      pose proof (onInterval_succ R ltac:(lia) ew ltac:(lia)) as Hoi.
      change (Z.rem (ew + 1) R <? 1) with (onInterval R (ew + 1)) in T1, T2.
      rewrite Hoi in T1, T2.
      assert (Hdue : (0 <? R) && (0 <? ew + 1) && (ew mod R =? R - 1)
                     && (5000 <? now - lastNotificationTime st)
                     = (ew mod R =? R - 1)).
      { destruct (Z.eqb_spec (ew mod R) (R - 1)) as [E|E].
        - rewrite E in Hlast.
          replace (0 <? R) with true by (symmetry; apply Z.ltb_lt; lia).
          replace (0 <? ew + 1) with true by (symmetry; apply Z.ltb_lt; lia).
          cbn. apply Z.ltb_lt. lia.
        - now rewrite !andb_false_r. }
      rewrite Hdue in T1, T2. rewrite T1.
      assert (Hrest : reminderRitualsOf (effectsOf (ticks p s1 l))
                      = filter (onInterval R)
                          (upFrom (ew + 1)
                             (if Z.of_nat (List.length l) =? timeLeft st - 1
                              then pred (List.length l) else List.length l))).
      { rewrite <- T3.
        replace (ew + 1) with (duration p - timeLeft s1 - 1) by (rewrite T3; unfold ew; lia).
        apply (IH s1 (now + 1000)); try assumption.
        - intros _. rewrite T4. apply Hrun. discriminate.
        - lia.
        - rewrite T3. lia.
        - replace (duration p - timeLeft s1 - 1) with (ew + 1)
            by (rewrite T3; unfold ew; lia).
          fold R. rewrite Hms, T2.
          destruct (Z.eqb_spec (ew mod R) (R - 1)); lia. }
      rewrite Hrest.
      replace (Z.of_nat (S (List.length l)) =? timeLeft st)
        with (Z.of_nat (List.length l) =? timeLeft st - 1)
        by (destruct (Z.eqb_spec (Z.of_nat (List.length l)) (timeLeft st - 1)),
              (Z.eqb_spec (Z.of_nat (S (List.length l))) (timeLeft st)); lia).
      destruct (Z.eqb_spec (Z.of_nat (List.length l)) (timeLeft st - 1)) as [E|E].
      * destruct l as [|x l']; [cbn [List.length] in E; lia|].
        cbn [List.length pred upFrom filter]. rewrite Hoi.
        destruct (ew mod R =? R - 1); reflexivity.
      * cbn [upFrom filter]. rewrite Hoi.
        destruct (ew mod R =? R - 1); reflexivity.
Qed.

End IntervalReminders.

(** X12.  The reminders of the interval driven Timer.  Its updater checks
    the elapsed seconds before it decrements and leaves the check out on
    the tick that finishes the countdown.  So for a duration [D >= 2], a
    reminder interval [R >= 6] and callbacks that never come early, it
    starts a reminder ritual at exactly the elapsed seconds [1 .. D-2]
    that are multiples of [R], which makes [(D - 2) / R] rituals: a
    reminder that falls on the last two seconds of the task is not given
    (the worker gives the one at [D]). *)
Theorem interval_reminders (p : TimerProps) (st : IntervalTimer.State)
    (lb : Z) (l : list (Z * Browser)) :
  2 <= duration p ->
  5 < recurrentTime p ->
  Z.of_nat (List.length l) = duration p ->
  paced lb (map fst l) ->
  5000 < lb ->
  let rs := reminderRitualsOf
              (effectsOf (IntervalTimer.ticks p (IntervalTimer.activate p st) l)) in
  rs = filter (onInterval (recurrentTime p))
         (upFrom 0 (Z.to_nat (duration p - 2)))
  /\ Z.of_nat (List.length rs) = (duration p - 2) / recurrentTime p
  /\ (forall x, In x rs -> 0 < x <= duration p - 2 /\ x mod recurrentTime p = 0).
Proof.
  intros HD HR Hlen Hp Hlb rs.
  assert (Hrs : rs = filter (onInterval (recurrentTime p))
                       (upFrom 0 (Z.to_nat (duration p - 2)))).
  { unfold rs. destruct l as [|[now b] l]; [cbn in Hlen; lia|].
    set (s0 := IntervalTimer.activate p st).
    assert (Hit : IntervalTimer.intervalTick now b p s0
                  = IntervalTimer.tickUpdater now b p s0) by reflexivity.
    cbn [IntervalTimer.ticks]. rewrite Hit. unfold effectsOf.
    cbn [map concat fst snd]. rewrite reminderRitualsOf_app.
    destruct (tickUpdater_reminders now b p s0 ltac:(cbn; lia))
      as (T1 & T2 & T3 & T4).
    cbv zeta in T1, T2.
    change (IntervalTimer.timeLeft s0) with (duration p) in T1, T2, T3.
    replace (duration p - duration p) with 0 in T1, T2 by lia.
    rewrite andb_false_r in T1, T2. cbn [andb] in T1, T2.
    rewrite T1. cbn [app].
    set (s1 := fst (IntervalTimer.tickUpdater now b p s0)) in *.
    destruct Hp as [Hnow Hp]. cbn [map fst] in Hnow. cbn [List.length] in Hlen.
    fold (effectsOf (IntervalTimer.ticks p s1 l)).
    rewrite (interval_ticks_reminders p l s1 (now + 1000)).
    - rewrite T3.
      replace (duration p - (duration p - 1) - 1) with 0 by lia.
      replace (Z.of_nat (List.length l) =? duration p - 1) with true
        by (symmetry; apply Z.eqb_eq; lia).
      f_equal. f_equal. lia.
    - intros _. rewrite T4. reflexivity.
    - rewrite T3. lia.
    - exact HR.
    - rewrite T3. lia.
    - exact Hp.
    - rewrite T2, T3.
      replace (duration p - (duration p - 1) - 1) with 0 by lia.
      rewrite Z.mod_0_l by lia.
      change (IntervalTimer.lastNotificationTime s0) with 0. lia. }
  split; [exact Hrs|]. rewrite Hrs. split.
  - rewrite (count_onInterval (recurrentTime p) ltac:(lia) _ 0 ltac:(lia)).
    rewrite Z2Nat.id by lia. rewrite Z.div_0_l by lia.
    now rewrite Z.add_0_l, Z.sub_0_r.
  - intros x Hx.
    apply (filter_onInterval_positive (recurrentTime p) ltac:(lia)) in Hx; [|lia].
    rewrite Z2Nat.id in Hx by lia. lia.
Qed.

(** A run of X12: 60 seconds with a reminder every 30 seconds gives the
    reminder at 30 elapsed seconds only. *)
Lemma interval_reminders_witness :
  reminderRitualsOf
    (effectsOf (IntervalTimer.ticks (mkProps "Shower" 60 30 "guitar" "guitar")
                  (IntervalTimer.activate (mkProps "Shower" 60 30 "guitar" "guitar")
                     (IntervalTimer.mkState 0 false 0 false))
                  (map (fun t => (t, foreground)) (everySecond 10000 60))))
  = filter (onInterval 30) (upFrom 0 (Z.to_nat (60 - 2))).
Proof.
  refine (proj1 (interval_reminders (mkProps "Shower" 60 30 "guitar" "guitar")
                   (IntervalTimer.mkState 0 false 0 false) 10000
                   (map (fun t => (t, foreground)) (everySecond 10000 60))
                   _ _ _ _ _)); try reflexivity; try discriminate.
  cbn. repeat split; lia.
Defined.

(** * Further properties of the library functions *)

Section LibraryFurther.

Lemma string_length_append (a b : string) :
  String.length (String.append a b) = (String.length a + String.length b)%nat.
Proof. induction a as [|c a IH]; cbn; [reflexivity|now rewrite IH]. Qed.

(** Up to 99 the padded number has two characters. *)
Lemma padStart2_two_digits (n : Z) :
  0 <= n < 100 -> String.length (Format.padStart2 (Format.toString n)) = 2%nat.
Proof.
  intros Hn. rewrite <- (Z2Nat.id n) by lia.
  assert (Hk : (Z.to_nat n < 100)%nat) by lia.
  generalize dependent (Z.to_nat n). clear Hn n. intros k Hk.
  do 100 (destruct k as [|k]; [vm_compute; reflexivity|]).
  lia.
Qed.

End LibraryFurther.

(** X13.  The clock display: for every time from 0 up to 99 minutes and
    59 seconds [formatTime] gives exactly five characters, two for the
    minutes, a colon, two for the seconds. *)
Theorem formatTime_five_characters (seconds : Z) :
  0 <= seconds < 6000 ->
  String.length (Format.formatTime seconds) = 5%nat
  /\ String.get 2 (Format.formatTime seconds) = String.get 0 ":"
  /\ Format.formatTime seconds
     = String.append (Format.padStart2 (Format.toString (seconds / 60)))
         (String.append ":"
            (Format.padStart2 (Format.toString (seconds mod 60))))
  /\ String.length (Format.padStart2 (Format.toString (seconds / 60))) = 2%nat
  /\ String.length (Format.padStart2 (Format.toString (seconds mod 60))) = 2%nat.
Proof.
  intros Hs.
  assert (Hm : 0 <= seconds / 60 < 100).
  { split; [apply Z.div_pos; lia|apply Z.div_lt_upper_bound; lia]. }
  pose proof (Z.mod_pos_bound seconds 60 ltac:(lia)) as Hr.
  pose proof (padStart2_two_digits (seconds / 60) Hm) as Lm.
  pose proof (padStart2_two_digits (seconds mod 60) ltac:(lia)) as Lr.
  assert (Hf : Format.formatTime seconds
               = String.append (Format.padStart2 (Format.toString (seconds / 60)))
                   (String.append ":"
                      (Format.padStart2 (Format.toString (seconds mod 60))))).
  { unfold Format.formatTime. now rewrite Z.rem_mod_nonneg by lia. }
  split; [|split; [|split; [exact Hf|split; assumption]]].
  - rewrite Hf, !string_length_append, Lm, Lr. reflexivity.
  - rewrite Hf.
    pose proof (append_correct2 (Format.padStart2 (Format.toString (seconds / 60)))
                  (String.append ":" (Format.padStart2 (Format.toString (seconds mod 60))))
                  0) as H.
    rewrite Lm in H. cbn [Nat.add] in H. rewrite <- H. reflexivity.
Qed.

(** A run of X13: 754 seconds. *)
Lemma formatTime_five_characters_witness :
  String.length (Format.formatTime 754) = 5%nat.
Proof.
  refine (proj1 (formatTime_five_characters 754 _)). lia.
Defined.

(** X14.  Sound resolution never fails: a sound id that is in the catalog
    gives the catalog entry with that id, any other id gives the first
    entry; so whatever id a task carries, the Timer has a catalog sound to
    play, for reminders and for completion, and its file is the one
    asset the catalogs refer to. *)
Theorem sound_resolution (first : Sounds.Sound) (sounds : list Sounds.Sound)
    (wanted : string) :
  (In wanted (map Sounds.id sounds) ->
   In (Sounds.resolve first sounds wanted) sounds
   /\ Sounds.id (Sounds.resolve first sounds wanted) = wanted)
  /\ (~ In wanted (map Sounds.id sounds) ->
      Sounds.resolve first sounds wanted = first)
  /\ In (Sounds.notificationSound wanted) Sounds.notificationSounds
  /\ In (Sounds.completionSound wanted) Sounds.completionSounds
  /\ Sounds.src (Sounds.notificationSound wanted) = Sounds.GUITAR_SOUND
  /\ Sounds.src (Sounds.completionSound wanted) = Sounds.GUITAR_SOUND.
Proof.
  assert (Hres : forall f l w,
            (In w (map Sounds.id l) ->
             In (Sounds.resolve f l w) l /\ Sounds.id (Sounds.resolve f l w) = w)
            /\ (~ In w (map Sounds.id l) -> Sounds.resolve f l w = f)).
  { intros f l w. unfold Sounds.resolve.
    destruct (find (fun s => String.eqb (Sounds.id s) w) l) as [s|] eqn:E.
    - apply find_some in E as [Hin Hid]. apply String.eqb_eq in Hid.
      split; [auto|]. intros Hn. exfalso. apply Hn. rewrite <- Hid.
      now apply in_map.
    - split; [|reflexivity]. intros Hin. exfalso.
      apply in_map_iff in Hin as (s & Hs & Hin).
      pose proof (find_none _ _ E s Hin) as Hf. cbn in Hf.
      rewrite Hs, String.eqb_refl in Hf. discriminate. }
  assert (Hcat : forall f l w, In f l -> In (Sounds.resolve f l w) l).
  { intros f l w Hf. unfold Sounds.resolve.
    destruct (find _ l) as [s|] eqn:E; [now apply find_some in E|exact Hf]. }
  destruct (Hres first sounds wanted) as [H1 H2].
  assert (Hn : In (Sounds.notificationSound wanted) Sounds.notificationSounds)
    by (apply Hcat; now left).
  assert (Hc : In (Sounds.completionSound wanted) Sounds.completionSounds)
    by (apply Hcat; now left).
  split; [exact H1|]. split; [exact H2|]. split; [exact Hn|]. split; [exact Hc|].
  split.
  - cbn in Hn. destruct Hn as [<-|[<-|[<-|[]]]]; reflexivity.
  - cbn in Hc. destruct Hc as [<-|[<-|[<-|[]]]]; reflexivity.
Qed.

(** A run of X14: ["bell"] is in the catalog of the reminder sounds. *)
Lemma sound_resolution_witness :
  In (Sounds.resolve (Sounds.mkSound "guitar" "Guitar" Sounds.GUITAR_SOUND)
        Sounds.notificationSounds "bell") Sounds.notificationSounds
  /\ Sounds.id (Sounds.resolve (Sounds.mkSound "guitar" "Guitar" Sounds.GUITAR_SOUND)
                  Sounds.notificationSounds "bell") = "bell"%string.
Proof.
  refine (proj1 (sound_resolution _ Sounds.notificationSounds "bell") _).
  cbn. auto.
Defined.

(** X15.  What the sinks of a ritual let through.  [playSound] and
    [showNotification] catch their own errors: whatever the browser does,
    they return normally after one call record.  Sound is played only on a
    focused page whose audio works; a notification is raised only when the
    Notification API is there, its permission is granted and its
    constructor works.  [speakText] is the one sink that can throw, and
    does so exactly when the speech synthesis is there and throws. *)
Theorem sinks_catch_their_errors (b : Browser) (src : string) (title : Title)
    (body text : Message) :
  snd (Sounds.playSound b src) = Some tt
  /\ trace (Sounds.playSound b src)
     = [PlaySound src
          (if audioThrows b then playErrorLogged
           else if hasFocus b
                then if playRejects b then playRejected else played
                else notFocused)]
  /\ snd (Notifications.showNotification b title body) = Some tt
  /\ trace (Notifications.showNotification b title body)
     = [ShowNotification title body
          (if negb (notificationSupported b) then notSupported
           else if Notifications.canShowNotifications b
                then if notificationThrows b then raiseErrorLogged else raised
                else notGranted)]
  /\ (snd (Utils.speakText b text) = None
      <-> speechSupported b = true /\ speechThrows b = true)
  /\ (existsb isRaised (trace (Notifications.showNotification b title body))
      = Notifications.requestNotificationPermission b
        && negb (notificationThrows b)).
Proof.
  browser_cases b; vm_compute; repeat split; intros; intuition discriminate.
Qed.

(** A run of X15: a speech synthesis that throws. *)
Lemma sinks_catch_their_errors_witness :
  snd (Utils.speakText
         (mkBrowser false true false true granted false true true true)
         OneMinuteLeft) = None.
Proof.
  refine (proj2 (proj1 (proj2 (proj2 (proj2 (proj2
           (sinks_catch_their_errors
              (mkBrowser false true false true granted false true true true)
              Sounds.GUITAR_SOUND (AlmostDone "Shower") OneMinuteLeft
              OneMinuteLeft)))))) _).
  split; reflexivity.
Defined.

(** X16.  How long the rituals wait, and when they try to speak.  A
    reminder or final-minute ritual waits 5000 ms in all.  The completion
    ritual waits 8000 ms before it calls [onComplete], except when it
    calls [speakText] and that throws: then the handler of the error calls
    [onComplete] at once, 5000 ms after the start.  A ritual of the worker
    driven Timer calls [speakText] exactly when the [isVisible] of the
    render that created it is [true]; through the handler that this Timer
    installs that is always so, whatever the visibility of the document,
    and the rituals of the interval driven Timer always call
    [speakText]. *)
Theorem ritual_delays (b : Browser) (p p' : TimerProps)
    (isVisible notificationsEnabled : bool) (m : Message) (elapsed : Z)
    (st : WorkerTimer.State) :
  let throws := speechSupported b && speechThrows b in
  let waits (ms : Z) (speaks : bool) (t : list Effect) :=
    totalSleep t = ms /\ existsb isSpeakText t = speaks in
  (waits 5000 isVisible
     (trace (WorkerTimer.notificationSequence b p isVisible
               notificationsEnabled m))
   /\ waits 5000 isVisible
        (trace (WorkerTimer.finalMinuteSequence b p isVisible
                  notificationsEnabled m))
   /\ waits (if isVisible && throws then 5000 else 8000) isVisible
        (trace (WorkerTimer.completionSequence b p isVisible
                  notificationsEnabled)))
  /\ (waits 5000 true
        (snd (WorkerTimer.installed b p st (Worker.recurrent elapsed)))
      /\ waits 5000 true (snd (WorkerTimer.installed b p st Worker.finalMinute))
      /\ waits (if throws then 5000 else 8000) true
           (snd (WorkerTimer.installed b p (WorkerTimer.activate p' st)
                   Worker.complete)))
  /\ (waits 5000 true (trace (IntervalTimer.notificationSequence b p elapsed))
      /\ waits 5000 true (trace (IntervalTimer.finalMinuteSequence b p))
      /\ waits (if throws then 5000 else 8000) true
           (trace (IntervalTimer.completionSequence b p))).
Proof.
  browser_cases b; destruct isVisible, notificationsEnabled;
    vm_compute; repeat split.
Qed.

(** X17.  The announcement that all tasks are completed, in a run of a
    list from index 0 where each active task runs to its end.  Under the
    interval driven Timer it is made exactly once: the completions of all
    tasks but the last have no effect besides the move to the next task,
    and the last one is followed, one second later, by the call of
    [speakText] with the announcement.  Under the worker driven Timer and
    a list of two tasks or more it is never made: no completion has any
    effect besides setting the index. *)
Theorem all_tasks_announced_once (b : Browser) (l : list TaskList.Task)
    (k : nat) :
  l <> [] ->
  let N := List.length l in
  let effects := snd (Page.taskRuns Page.IntervalDriven b N (Page.started l)) in
  List.length (filter isAllTasksAnnouncement effects) = 1%nat
  /\ totalSleep effects = 1000
  /\ snd (Page.taskRuns Page.IntervalDriven b (pred N) (Page.started l)) = []
  /\ ((2 <= N)%nat ->
      snd (Page.taskRuns Page.WorkerDriven b k (Page.started l)) = []).
Proof.
  intros Hne N effects.
  pose proof (len_positive l Hne) as Hlen.
  assert (HN : N <> 0%nat) by (unfold N; destruct l; [congruence|discriminate]).
  destruct (interval_runs b N l 0 (TaskList.mkState l (Some 0) false)
              ltac:(lia) ltac:(unfold TaskList.len; lia)) as [_ H2].
  unfold effects. rewrite (started_running l Hlen), (H2 HN). cbn [snd].
  destruct (announcement_once b) as [A1 A2].
  split; [exact A1|]. split; [exact A2|]. split.
  - rewrite interval_runs_before; [reflexivity|lia|].
    unfold TaskList.len. fold N. lia.
  - intros H2N. destruct k as [|k]; [reflexivity|].
    destruct (worker_runs b l k 0 ltac:(unfold TaskList.len; lia)) as [_ R].
    now rewrite R.
Qed.

(** A run of X17 with three tasks under the interval driven Timer. *)
Lemma all_tasks_announced_once_witness :
  List.length
    (filter isAllTasksAnnouncement
       (snd (Page.taskRuns Page.IntervalDriven foreground
               (List.length [taskA; taskB; taskC])
               (Page.started [taskA; taskB; taskC])))) = 1%nat.
Proof.
  refine (proj1 (all_tasks_announced_once foreground [taskA; taskB; taskC] 2 _)).
  discriminate.
Defined.

(** X18.  The latch through the handler that the worker driven Timer
    installs, for a Timer mounted with the props [p0] and now activated
    with the props [p] of another task: whatever the worker sends,
    [onComplete] is called at most once in the activation; the first
    [complete] runs the completion ritual once and a second [complete]
    does nothing.  The ritual is the one of the first render: it names the
    task of the mount, not the active one, when it speaks. *)
Theorem installed_handler_latch (p0 p : TimerProps) (st : WorkerTimer.State)
    (l : list (Browser * Worker.Event)) (b1 b2 : Browser) :
  (countOnComplete
     (snd (WorkerTimer.deliverInstalled p0 (WorkerTimer.activate p st) l))
   <= 1)%nat
  /\ (let r1 := WorkerTimer.installed b1 p0 (WorkerTimer.activate p st)
                  Worker.complete in
      countOnComplete (snd r1) = 1%nat
      /\ filter isSpeakText (snd r1)
         = trace (Utils.speakText b1 (ShouldBeCompleted (task p0)))
      /\ WorkerTimer.installed b2 p0 (fst r1) Worker.complete = (fst r1, [])).
Proof.
  split; [apply installed_deliver_at_most_once|].
  cbv zeta. split; [|split].
  - cbn -[WorkerTimer.completionSequence countOnComplete].
    change (countOnComplete (AppendNotification ?m :: ?t)) with (countOnComplete t).
    apply worker_completionSequence_onComplete.
  - browser_cases b1; reflexivity.
  - reflexivity.
Qed.
